(** * DailyNoteManager: the daily-note section synchroniser

    A shallow embedding of [src/plugin/daily-note-manager.ts] and the
    properties its specification states about it.

    JavaScript strings are sequences of UTF-16 code units; a code unit is
    modelled as an [N] and a string as a list of code units.  Indices are
    JavaScript numbers used as integers and are modelled in [Z], so that
    the [-1] of [indexOf] and the clamping and swapping of [substring] are
    written out. *)

From Stdlib Require Import List ZArith NArith Bool Lia Permutation.
From Stdlib Require String Ascii.
Import ListNotations.

Local Open Scope Z_scope.

(** ** JavaScript strings *)

Module JS.

Definition jsstr : Type := list N.

(** A string literal of the source, as code units. *)
Definition lit (s : String.string) : jsstr :=
  map Ascii.N_of_ascii (String.list_ascii_of_string s).

Declare Scope js_scope.
Delimit Scope js_scope with js.
String Notation String.string String.string_of_list_byte
  String.list_byte_of_string : js_scope.
Arguments lit s%_js.

(** [a === b] on strings. *)
Fixpoint str_eqb (a b : jsstr) : bool :=
  match a, b with
  | [], [] => true
  | c :: a', d :: b' => N.eqb c d && str_eqb a' b'
  | _, _ => false
  end.

(** [s.startsWith(p)]. *)
Fixpoint startsWith (s p : jsstr) {struct p} : bool :=
  match p with
  | [] => true
  | c :: p' =>
      match s with
      | [] => false
      | d :: s' => N.eqb c d && startsWith s' p'
      end
  end.

(** Position of the first occurrence of [p] in [s], scanning from the left. *)
Fixpoint search (s p : jsstr) : option nat :=
  if startsWith s p then Some 0%nat
  else match s with
       | [] => None
       | _ :: s' => option_map S (search s' p)
       end.

(** [s.indexOf(p)]: the first index, or [-1]. *)
Definition indexOf (s p : jsstr) : Z :=
  match search s p with
  | Some n => Z.of_nat n
  | None => -1
  end.

(** [s.includes(p)]. *)
Definition includes (s p : jsstr) : bool :=
  negb (indexOf s p =? -1).

(** An index argument of [substring]: NaN aside, clamped to [0, length]. *)
Definition clamp (len : nat) (i : Z) : nat :=
  Z.to_nat (Z.min (Z.max i 0) (Z.of_nat len)).

(** [s.substring(a, b)]: both ends clamped, and swapped when [a > b]. *)
Definition substring (s : jsstr) (a b : Z) : jsstr :=
  let a' := clamp (length s) a in
  let b' := clamp (length s) b in
  firstn (Nat.max a' b' - Nat.min a' b') (skipn (Nat.min a' b') s).

(** [s.substring(a)]. *)
Definition substringFrom (s : jsstr) (a : Z) : jsstr :=
  skipn (clamp (length s) a) s.

(** [s.length]. *)
Definition len (s : jsstr) : Z := Z.of_nat (length s).

(** [parts.join(sep)]. *)
Fixpoint join (sep : jsstr) (parts : list jsstr) : jsstr :=
  match parts with
  | [] => []
  | [p] => p
  | p :: rest => p ++ sep ++ join sep rest
  end.

Definition LF : N := 10%N.

(** [s.split("\n")]: the pieces between line feeds; never an empty array. *)
Fixpoint splitLines (s : jsstr) : list jsstr :=
  match s with
  | [] => [[]]
  | c :: s' =>
      if N.eqb c LF then [] :: splitLines s'
      else match splitLines s' with
           | [] => [[c]]
           | l :: ls => (c :: l) :: ls
           end
  end.

(** WhiteSpace and LineTerminator code units of ECMAScript, the ones
    [trim] strips. *)
Definition isWhiteSpace (c : N) : bool :=
  match c with
  | 9%N | 10%N | 11%N | 12%N | 13%N | 32%N | 160%N | 5760%N
  | 8232%N | 8233%N | 8239%N | 8287%N | 12288%N | 65279%N => true
  | _ => ((8192 <=? c) && (c <=? 8202))%N
  end.

(** The line terminators, which [.] of a regular expression refuses. *)
Definition isLineTerminator (c : N) : bool :=
  match c with
  | 10%N | 13%N | 8232%N | 8233%N => true
  | _ => false
  end.

Fixpoint trimStart (s : jsstr) : jsstr :=
  match s with
  | [] => []
  | c :: s' => if isWhiteSpace c then trimStart s' else s
  end.

(** [s.trim()]. *)
Definition trim (s : jsstr) : jsstr :=
  rev (trimStart (rev (trimStart s))).

Definition isDigit (c : N) : bool := ((48 <=? c) && (c <=? 57))%N.

End JS.
Import JS.

(** ** Data model *)

(** The fields of an Obsidian [TFile] the manager reads; [mtime] is
    [stat.mtime], a timestamp in milliseconds. *)
Record TFile : Type := mkTFile {
  path : jsstr;
  name : jsstr;
  basename : jsstr;
  mtime : Z
}.

(** The fields of a [Reminder] the manager reads; [key] is the value of
    the method [key()]. *)
Record Reminder : Type := mkReminder {
  title : jsstr;
  file : jsstr;
  done : bool;
  key : jsstr
}.

(** What the manager uses of the [Todo] returned by [Todo.parse]:
    its [body] and the value of [isChecked()]. *)
Record Todo : Type := mkTodo {
  body : jsstr;
  isChecked : bool
}.

(** ** Locating the daily note *)

(** [arr.reduce(f)] without an initial value, on a possibly empty array
    ([reduce] of the source is only reached on a non-empty one). *)
Definition reduce {A : Type} (f : A -> A -> A) (arr : list A) : option A :=
  match arr with
  | [] => None
  | x :: rest => Some (fold_left f rest x)
  end.

(** The reducer of [findDailyNote]:
    [(prev.stat.mtime > current.stat.mtime) ? prev : current]. *)
Definition newer (prev current : TFile) : TFile :=
  if mtime prev >? mtime current then prev else current.

Definition exactMatches (dateStr : jsstr) (files : list TFile) : list TFile :=
  filter (fun f => str_eqb (basename f) dateStr) files.

Definition looseMatches (dateStr : jsstr) (files : list TFile) : list TFile :=
  filter (fun f => includes (name f) dateStr) files.

(** The stage [findDailyNote] selects from: exact base names, and the
    names containing the date only when there is no exact one. *)
Definition matchingFiles (dateStr : jsstr) (files : list TFile) : list TFile :=
  if (length (exactMatches dateStr files) =? 0)%nat
  then looseMatches dateStr files
  else exactMatches dateStr files.

(** [findDailyNote], after [date.toYYYYMMDD()] and
    [vault.getMarkdownFiles()] have been evaluated. *)
Definition findDailyNoteIn (dateStr : jsstr) (files : list TFile) : option TFile :=
  let matching := matchingFiles dateStr files in
  if (length matching =? 0)%nat then None
  else reduce newer matching.

(** ** Rewriting the marked section *)

Definition startMarkerOf (marker : jsstr) : jsstr :=
  lit "<!-- start of " ++ marker ++ lit " -->".

Definition endMarkerOf (marker : jsstr) : jsstr :=
  lit "<!-- end of " ++ marker ++ lit " -->".

(** One checklist line, the template literal of the [map] callback. *)
Definition renderLine (r : Reminder) : jsstr :=
  let check := if done r then lit "x" else lit " " in
  lit "- [" ++ check ++ lit "] " ++ title r ++ lit " [[" ++ file r
    ++ lit "|source]] <!-- reminder-key: " ++ key r ++ lit " -->".

(** The string ["\n"]. *)
Definition NL : jsstr := [LF].

Definition reminderLines (reminders : list Reminder) : jsstr :=
  join NL (map renderLine reminders).

Definition newSection (marker : jsstr) (reminders : list Reminder) : jsstr :=
  startMarkerOf marker ++ NL ++ reminderLines reminders ++ NL
    ++ endMarkerOf marker.

(** [updateReminderSection]; [None] is the [null] of the source. *)
Definition updateReminderSection (marker content : jsstr)
    (reminders : list Reminder) : option jsstr :=
  let startMarker := startMarkerOf marker in
  let endMarker := endMarkerOf marker in
  let startIndex := indexOf content startMarker in
  let endIndex := indexOf content endMarker in
  if (startIndex =? -1) || (endIndex =? -1) then None
  else Some (substring content 0 startIndex
               ++ newSection marker reminders
               ++ substringFrom content (endIndex + len endMarker)).

(** ** Recognising a daily note and a reminder key *)

Definition HYPHEN : N := 45%N.

(** [\d{4}-\d{2}-\d{2}] at the head of [s]. *)
Definition dateAtHead (s : jsstr) : bool :=
  match s with
  | y1 :: y2 :: y3 :: y4 :: h1 :: m1 :: m2 :: h2 :: d1 :: d2 :: _ =>
      isDigit y1 && isDigit y2 && isDigit y3 && isDigit y4 && N.eqb h1 HYPHEN
      && isDigit m1 && isDigit m2 && N.eqb h2 HYPHEN
      && isDigit d1 && isDigit d2
  | _ => false
  end.

(** [s.match(/(\d{4}-\d{2}-\d{2})/)]: group 1 of the leftmost match. *)
Fixpoint matchDate (s : jsstr) : option jsstr :=
  if dateAtHead s then Some (firstn 10 s)
  else match s with
       | [] => None
       | _ :: s' => matchDate s'
       end.

Definition keyOpen : jsstr := lit "<!-- reminder-key: ".
Definition keyClose : jsstr := lit " -->".

(** The lazy group [(.*?)] followed by [ -->]: the shortest run of code
    units other than line terminators after which [ -->] follows. *)
Fixpoint lazyKey (s acc : jsstr) : option jsstr :=
  if startsWith s keyClose then Some (rev acc)
  else match s with
       | [] => None
       | c :: s' => if isLineTerminator c then None else lazyKey s' (c :: acc)
       end.

Definition keyAtHead (s : jsstr) : option jsstr :=
  if startsWith s keyOpen then lazyKey (skipn (length keyOpen) s) []
  else None.

(** [s.match(/<!-- reminder-key: (.*?) -->/)]: group 1 of the leftmost
    match, [None] when there is no match. *)
Fixpoint matchReminderKey (s : jsstr) : option jsstr :=
  match keyAtHead s with
  | Some k => Some k
  | None => match s with
            | [] => None
            | _ :: s' => matchReminderKey s'
            end
  end.

(** Truthiness of [key], a string or [null]: [null] and the empty string
    are falsy. *)
Definition truthy (k : option jsstr) : bool :=
  match k with
  | Some (_ :: _) => true
  | _ => false
  end.

(** The callback of [todosOfDate.find] in [handleFileModify]. *)
Definition matchesTodo (k : option jsstr) (todoBody : jsstr) (r : Reminder) : bool :=
  match k with
  | Some k' => if truthy k then str_eqb (key r) k' else startsWith todoBody (title r)
  | None => startsWith todoBody (title r)
  end.

(** ** Collaborators

    The manager talks to the vault, the reminder collection, the settings,
    [moment], [DateTime], [Todo.parse] and the injected [updateReminder]
    callback.  None of them is defined in this file of the source; they are
    taken as an interface.  A call that can throw returns a [result]. *)

Definition exn : Type := String.string.

Inductive result (A : Type) : Type :=
| Ok (a : A)
| Err (e : exn).

Arguments Ok {A} a.
Arguments Err {A} e.

Class Collaborators : Type := {
  (** [DateTime] of [model/time] *)
  DateTime : Type;
  toYYYYMMDD : DateTime -> jsstr;
  (** [moment(s, "YYYY-MM-DD")] wrapped by [new DateTime(parsed, false)],
      [None] when [isValid()] is false *)
  momentParse : jsstr -> option DateTime;
  (** [Todo.parse(0, line)], [None] for [null] *)
  todoParse : jsstr -> option Todo;
  (** the state of the host: vault, reminder collection, clock *)
  hstate : Type;
  (** [Reminder] objects are shared with the collection: the manager holds
      references and reads their fields from the current host state *)
  rref : Type;
  deref : hstate -> rref -> Reminder;
  (** [DateTime.now()] *)
  now : hstate -> DateTime;
  (** [app.vault.getMarkdownFiles()] *)
  getMarkdownFiles : hstate -> result (list TFile);
  (** [app.vault.read(file)] *)
  vaultRead : TFile -> hstate -> result jsstr;
  (** [app.vault.modify(file, data)] *)
  vaultModify : TFile -> jsstr -> hstate -> result unit * hstate;
  (** [reminders.byDate(date)] *)
  byDate : DateTime -> hstate -> result (list rref);
  (** the injected [updateReminder(reminder, checked)] *)
  updateReminder : rref -> bool -> hstate -> result unit * hstate
}.

Inductive Level : Type := Info | Warn | Error | Debug.

(** The five [Notice] texts of the source, by outcome; the first three
    carry the interpolated date string or marker. *)
Inductive Notice : Type :=
| NoteNotFound (dateStr : jsstr)
| MarkersNotFound (marker : jsstr)
| NoteUpdated (dateStr : jsstr)
| NoteUpToDate
| UpdateFailed.

Section Manager.

Context {C : Collaborators}.

(** What the manager does to the outside, in order.  A console line is
    recorded by its level, without its text. *)
Inductive Event : Type :=
| EvEnumerate
| EvByDate (d : DateTime)
| EvRead (f : TFile)
| EvModify (f : TFile) (data : jsstr)
| EvUpdateReminder (r : rref) (checked : bool)
| EvNotice (n : Notice)
| EvConsole (l : Level).

(** The settings the manager reads, its own field [isUpdating], and the
    host. *)
Record World : Type := mkWorld {
  autoEmbedTodosInDailyNote : bool;
  dailyNoteSectionMarker : jsstr;
  isUpdating : bool;
  host : hstate
}.

Definition setUpdating (b : bool) (w : World) : World :=
  mkWorld (autoEmbedTodosInDailyNote w) (dailyNoteSectionMarker w) b (host w).

Definition setHost (h : hstate) (w : World) : World :=
  mkWorld (autoEmbedTodosInDailyNote w) (dailyNoteSectionMarker w)
          (isUpdating w) h.

(** A computation: from a world, a value or a thrown exception, the world
    it leaves and the events it produced. *)
Definition M (A : Type) : Type := World -> result A * World * list Event.

Definition ret {A : Type} (a : A) : M A := fun w => (Ok a, w, []).

Definition throw {A : Type} (e : exn) : M A := fun w => (Err e, w, []).

Definition bind {A B : Type} (m : M A) (k : A -> M B) : M B :=
  fun w =>
    match m w with
    | (Ok a, w1, t1) =>
        match k a w1 with
        | (r, w2, t2) => (r, w2, t1 ++ t2)
        end
    | (Err e, w1, t1) => (Err e, w1, t1)
    end.

(** [try { body } catch (e) { handler } finally { fin }]; an early
    [return] inside [body] is a normal completion of it. *)
Definition tryCatchFinally {A : Type} (tryBody : M A) (handler : exn -> M A)
    (fin : M unit) : M A :=
  fun w =>
    match tryBody w with
    | (r1, w1, t1) =>
        match (match r1 with
               | Ok a => (Ok a, w1, [])
               | Err e => handler e w1
               end) with
        | (r2, w2, t2) =>
            match fin w2 with
            | (Ok _, w3, t3) => (r2, w3, t1 ++ t2 ++ t3)
            | (Err e, w3, t3) => (Err e, w3, t1 ++ t2 ++ t3)
            end
        end
    end.

Definition getWorld : M World := fun w => (Ok w, w, []).

Definition emit (e : Event) : M unit := fun w => (Ok tt, w, [e]).

Definition console (l : Level) : M unit := emit (EvConsole l).

Definition notice (n : Notice) : M unit := emit (EvNotice n).

Definition assignUpdating (b : bool) : M unit :=
  fun w => (Ok tt, setUpdating b w, []).

(** A call that reads the host. *)
Definition ask {A : Type} (e : Event) (f : hstate -> result A) : M A :=
  fun w => (f (host w), w, [e]).

(** A call that may change the host. *)
Definition act {A : Type} (e : Event) (f : hstate -> result A * hstate) : M A :=
  fun w => let (r, h) := f (host w) in (r, setHost h w, [e]).

End Manager.

Notation "x <- m ;; k" := (bind m (fun x => k))
  (at level 61, m at next level, right associativity).
Notation "m ;;; k" := (bind m (fun _ => k))
  (at level 61, right associativity).

(** ** The methods of [DailyNoteManager] *)

Section Methods.

Context {C : Collaborators}.

Definition when (b : bool) (m : M unit) : M unit :=
  if b then m else ret tt.

(** [findDailyNote(date)]. *)
Definition findDailyNote (date : DateTime) : M (option TFile) :=
  let dateStr := toYYYYMMDD date in
  files <- ask EvEnumerate getMarkdownFiles ;;
  ret (findDailyNoteIn dateStr files).

(** [getDailyNoteDate(file)]. *)
Definition getDailyNoteDate (f : TFile) : option DateTime :=
  match matchDate (name f) with
  | None => None
  | Some dateStr => momentParse dateStr
  end.

(** The console lines of [updateReminderSection]: the search, then the
    warning or one line per embedded reminder. *)
Definition sectionConsole (marker content : jsstr) (reminders : list Reminder)
    : list Level :=
  Info ::
  (if (indexOf content (startMarkerOf marker) =? -1)
      || (indexOf content (endMarkerOf marker) =? -1)
   then [Warn]
   else map (fun _ => Info) reminders).

Fixpoint consoleAll (ls : list Level) : M unit :=
  match ls with
  | [] => ret tt
  | l :: ls' => console l ;;; consoleAll ls'
  end.

(** [this.updateReminderSection(content, reminders)] as the manager runs
    it: the marker from the settings, the reminders' fields as they are
    now, the console lines, and the value of [updateReminderSection]. *)
Definition runUpdateReminderSection (content : jsstr) (reminders : list rref)
    : M (option jsstr) :=
  w <- getWorld ;;
  let marker := dailyNoteSectionMarker w in
  let rs := map (deref (host w)) reminders in
  consoleAll (sectionConsole marker content rs) ;;;
  ret (updateReminderSection marker content rs).

(** The [try] block of [updateDailyNote], over the operation [write] that
    stands for [await this.app.vault.modify(dailyNote, data)]. *)
Definition tryBlock (write : TFile -> jsstr -> M unit) (quiet : bool)
    (targetDate : DateTime) (dailyNote : TFile) : M unit :=
  console Info ;;;
  todosOfDate <- ask (EvByDate targetDate) (byDate targetDate) ;;
  console Info ;;;
  content <- ask (EvRead dailyNote) (vaultRead dailyNote) ;;
  newContentString <- runUpdateReminderSection content todosOfDate ;;
  match newContentString with
  | None =>
      w <- getWorld ;;
      when (negb quiet) (notice (MarkersNotFound (dailyNoteSectionMarker w)))
  | Some newContent =>
      if negb (str_eqb content newContent) then
        console Info ;;;
        write dailyNote newContent ;;;
        when (negb quiet) (notice (NoteUpdated (toYYYYMMDD targetDate)))
      else when (negb quiet) (notice NoteUpToDate)
  end.

(** The [catch] block of [updateDailyNote]. *)
Definition catchBlock (quiet : bool) (e : exn) : M unit :=
  console Error ;;;
  when (negb quiet) (notice UpdateFailed).

(** [updateDailyNote(quiet, specificDate)], over [write]. *)
Definition updateDailyNoteWith (write : TFile -> jsstr -> M unit)
    (quiet : bool) (specificDate : option DateTime) : M unit :=
  w <- getWorld ;;
  if negb (autoEmbedTodosInDailyNote w) || isUpdating w then ret tt
  else
    let targetDate :=
      match specificDate with
      | Some d => d
      | None => now (host w)
      end in
    found <- findDailyNote targetDate ;;
    match found with
    | None => when (negb quiet) (notice (NoteNotFound (toYYYYMMDD targetDate)))
    | Some dailyNote =>
        assignUpdating true ;;;
        tryCatchFinally (tryBlock write quiet targetDate dailyNote)
                        (catchBlock quiet)
                        (assignUpdating false)
    end.

(** [app.vault.modify(file, data)]. *)
Definition modify (f : TFile) (data : jsstr) : M unit :=
  act (EvModify f data) (vaultModify f data).

Definition updateDailyNote : bool -> option DateTime -> M unit :=
  updateDailyNoteWith modify.

(** One turn of the [for] loop of [handleFileModify]; the value is
    [changed] after it. *)
Definition syncLine (todosOfDate : list rref) (line : jsstr) (changed : bool)
    : M bool :=
  match todoParse (trim line) with
  | None => ret changed
  | Some todo =>
      let k := matchReminderKey (body todo) in
      w <- getWorld ;;
      match find (fun r => matchesTodo k (body todo) (deref (host w) r))
                 todosOfDate with
      | None => ret changed
      | Some matchingReminder =>
          let checked := isChecked todo in
          if negb (Bool.eqb (done (deref (host w) matchingReminder)) checked)
          then
            console Debug ;;;
            act (EvUpdateReminder matchingReminder checked)
                (updateReminder matchingReminder checked) ;;;
            ret true
          else ret changed
      end
  end.

Fixpoint syncLines (todosOfDate : list rref) (lines : list jsstr)
    (changed : bool) : M bool :=
  match lines with
  | [] => ret changed
  | line :: rest =>
      changed' <- syncLine todosOfDate line changed ;;
      syncLines todosOfDate rest changed'
  end.

(** [handleFileModify(file)], over the method [render] that stands for
    [this.updateDailyNote]. *)
Definition handleFileModifyWith (render : bool -> option DateTime -> M unit)
    (f : TFile) : M unit :=
  w <- getWorld ;;
  if isUpdating w || negb (autoEmbedTodosInDailyNote w) then ret tt
  else
    match getDailyNoteDate f with
    | None => ret tt
    | Some fileDate =>
        console Debug ;;;
        contentString <- ask (EvRead f) (vaultRead f) ;;
        w' <- getWorld ;;
        let marker := dailyNoteSectionMarker w' in
        let startMarker := startMarkerOf marker in
        let endMarker := endMarkerOf marker in
        let startIndex := indexOf contentString startMarker in
        let endIndex := indexOf contentString endMarker in
        if (startIndex =? -1) || (endIndex =? -1) then ret tt
        else
          let sectionContent :=
            substring contentString (startIndex + len startMarker) endIndex in
          let lines := splitLines sectionContent in
          todosOfDate <- ask (EvByDate fileDate) (byDate fileDate) ;;
          changed <- syncLines todosOfDate lines false ;;
          if negb changed then render true (Some fileDate) else ret tt
    end.

Definition handleFileModify : TFile -> M unit :=
  handleFileModifyWith updateDailyNote.

(** A vault whose [modify] fires the document-modified event on
    [listener] before the write completes. *)
Definition modifyFiring (listener : TFile -> M unit) (f : TFile)
    (data : jsstr) : M unit :=
  modify f data ;;; listener f.

(** The events of a run, and whether one of them is a write. *)
Definition traceOf {A : Type} (m : M A) (w : World) : list Event :=
  snd (m w).

Definition worldOf {A : Type} (m : M A) (w : World) : World :=
  snd (fst (m w)).

Definition resultOf {A : Type} (m : M A) (w : World) : result A :=
  fst (fst (m w)).

Definition isModify (e : Event) : bool :=
  match e with
  | EvModify _ _ => true
  | _ => false
  end.

Definition isUpdateCall (e : Event) : bool :=
  match e with
  | EvUpdateReminder _ _ => true
  | _ => false
  end.

End Methods.

(** ** An in-memory host

    A concrete vault and reminder collection, on which the methods run by
    computation. *)

Module Mem.

Record Host : Type := mkHost {
  files : list (TFile * jsstr);          (* the markdown files and their text *)
  reminders : list (jsstr * Reminder);   (* scheduled date and reminder *)
  today : jsstr;
  enumerateFails : bool;                 (* [getMarkdownFiles] throws *)
  readOnly : bool                        (* [modify] throws *)
}.

Definition digitVal (c : N) : N := (c - 48)%N.

Definition isLeap (y : N) : bool :=
  (((y mod 4 =? 0) && negb (y mod 100 =? 0)) || (y mod 400 =? 0))%N.

Definition daysIn (y m : N) : N :=
  match m with
  | 2%N => if isLeap y then 29%N else 28%N
  | 4%N | 6%N | 9%N | 11%N => 30%N
  | _ => 31%N
  end.

(** Validity of a [dddd-dd-dd] string as a calendar date, as
    [moment(s, "YYYY-MM-DD").isValid()] decides it; a [DateTime] is
    represented by its [YYYY-MM-DD] string. *)
Definition parseDate (s : jsstr) : option jsstr :=
  match s with
  | [y1; y2; y3; y4; _; m1; m2; _; d1; d2] =>
      let y := (digitVal y1 * 1000 + digitVal y2 * 100
                + digitVal y3 * 10 + digitVal y4)%N in
      let m := (digitVal m1 * 10 + digitVal m2)%N in
      let d := (digitVal d1 * 10 + digitVal d2)%N in
      if ((1 <=? m) && (m <=? 12) && (1 <=? d) && (d <=? daysIn y m))%N
      then Some s else None
  | _ => None
  end.

(** Modelled from the spec: [Todo.parse] of [model/format/markdown] is not
    part of this source file.  The spec has it recognise a checklist line
    by a leading [- [ ]] or [- [x]] marker, case-insensitive on the mark,
    and return the checked state and the remainder as body text, or null
    when the line is not a checklist line. *)
Definition parseTodo (line : jsstr) : option Todo :=
  match line with
  | 45%N :: 32%N :: 91%N :: c :: 93%N :: 32%N :: rest =>
      if N.eqb c 32 then Some (mkTodo rest false)
      else if N.eqb c 120 || N.eqb c 88 then Some (mkTodo rest true)
      else None
  | _ => None
  end.

Definition noReminder : Reminder := mkReminder [] [] false [].

Fixpoint indicesOn (d : jsstr) (rs : list (jsstr * Reminder)) (i : nat)
    : list nat :=
  match rs with
  | [] => []
  | (d', _) :: rs' =>
      if str_eqb d' d then i :: indicesOn d rs' (S i) else indicesOn d rs' (S i)
  end.

Fixpoint readFile (f : TFile) (fs : list (TFile * jsstr)) : result jsstr :=
  match fs with
  | [] => Err "ENOENT"%js
  | (g, text) :: fs' =>
      if str_eqb (path g) (path f) then Ok text else readFile f fs'
  end.

Fixpoint writeFile (f : TFile) (data : jsstr) (fs : list (TFile * jsstr))
    : list (TFile * jsstr) :=
  match fs with
  | [] => []
  | (g, text) :: fs' =>
      if str_eqb (path g) (path f) then (g, data) :: fs'
      else (g, text) :: writeFile f data fs'
  end.

Fixpoint setDone (i : nat) (b : bool) (rs : list (jsstr * Reminder))
    : list (jsstr * Reminder) :=
  match rs, i with
  | [], _ => []
  | (d, r) :: rs', O => (d, mkReminder (title r) (file r) b (key r)) :: rs'
  | x :: rs', S i' => x :: setDone i' b rs'
  end.

(** Modelled from the spec: the reminder collection, its [byDate] and the
    [updateReminder] callback are not part of this source file.  The spec
    has [byDate] return the reminders of a date in a stable collection
    order, and the update request change nothing but [done]. *)
#[export] Instance collaborators : Collaborators := {|
  DateTime := jsstr;
  toYYYYMMDD := fun d => d;
  momentParse := parseDate;
  todoParse := parseTodo;
  hstate := Host;
  rref := nat;
  deref := fun h i => nth i (map snd (reminders h)) noReminder;
  now := today;
  getMarkdownFiles := fun h =>
    if enumerateFails h then Err "enumeration failed"%js
    else Ok (map fst (files h));
  vaultRead := fun f h => readFile f (files h);
  vaultModify := fun f data h =>
    if readOnly h then (Err "EROFS"%js, h)
    else (Ok tt, mkHost (writeFile f data (files h)) (reminders h) (today h)
                        (enumerateFails h) (readOnly h));
  byDate := fun d h => Ok (indicesOn d (reminders h) 0);
  updateReminder := fun i b h =>
    (Ok tt, mkHost (files h) (setDone i b (reminders h)) (today h)
                   (enumerateFails h) (readOnly h))
|}.

(** A markdown file at the root of the vault, from its base name. *)
Definition note (base : String.string) (t : Z) : TFile :=
  mkTFile (lit base ++ lit ".md") (lit base ++ lit ".md") (lit base) t.

Arguments note base%_js t%_Z.

(** The same, inside a folder. *)
Definition noteIn (dir base : String.string) (t : Z) : TFile :=
  mkTFile (lit dir ++ lit "/" ++ lit base ++ lit ".md")
          (lit base ++ lit ".md") (lit base) t.

Arguments noteIn (dir base)%_js t%_Z.

Definition world (marker : String.string) (updating : bool) (h : Host)
    : World :=
  mkWorld true (lit marker) updating h.

Arguments world marker%_js updating h.

End Mem.

(** ** Sample data *)

Module Sample.

Import Mem.

Definition day : jsstr := lit "2024-01-05".

Definition buyMilk : Reminder :=
  mkReminder (lit "Buy milk") (lit "groceries.md") false (lit "abc123").

Definition daily : TFile := note "2024-01-05" 100.

(** A daily note whose section shows the reminder ticked. *)
Definition tickedText : jsstr :=
  lit "# Friday
<!-- start of todos -->
- [x] Buy milk [[groceries.md|source]] <!-- reminder-key: abc123 -->
<!-- end of todos -->
bye
".

(** The same section as [updateReminderSection] renders it while the
    reminder is not done. *)
Definition untickedText : jsstr :=
  lit "# Friday
<!-- start of todos -->
- [ ] Buy milk [[groceries.md|source]] <!-- reminder-key: abc123 -->
<!-- end of todos -->
bye
".

(** A daily note without the end marker. *)
Definition unmarkedText : jsstr :=
  lit "# Friday
<!-- start of todos -->
bye
".

(** A ticked line whose key comment holds the empty key. *)
Definition emptyKeyLine : jsstr :=
  lit "- [x] Buy milk <!-- reminder-key:  -->".

Definition tickedLine : jsstr :=
  lit "- [x] Buy milk [[groceries.md|source]] <!-- reminder-key: abc123 -->".

Definition vaultWith (text : jsstr) : Host :=
  mkHost [(daily, text)] [(day, buyMilk)] day false false.

(** A vault that refuses writes. *)
Definition readOnlyVault : Host :=
  mkHost [(daily, tickedText)] [(day, buyMilk)] day false true.

(** A vault whose enumeration throws. *)
Definition brokenVault : Host :=
  mkHost [(daily, tickedText)] [(day, buyMilk)] day true false.

(** A marker label that lets the two markers overlap, and a document in
    which they do. *)
Definition oddLabel : jsstr := lit " --><!-- start of ".

Definition oddText : jsstr :=
  lit "<!-- end of  --><!-- start of  --><!-- start of  -->".

(** A section in which two lines carry the same key, one ticked and one
    not. *)
Definition conflictingText : jsstr :=
  lit "<!-- start of todos -->
- [x] Buy milk <!-- reminder-key: abc123 -->
- [ ] Buy milk <!-- reminder-key: abc123 -->
<!-- end of todos -->
".

(** A ticked line whose key comment holds a carriage return in its key,
    that key, and a collection in which the second reminder has it. *)
Definition brokenKey : jsstr := lit "ab" ++ [13%N] ++ lit "c".

Definition brokenKeyLine : jsstr :=
  lit "- [x] Buy milk <!-- reminder-key: " ++ brokenKey ++ lit " -->".

Definition brokenKeyVault : Host :=
  mkHost [(daily, tickedText)]
         [(day, buyMilk);
          (day, mkReminder (lit "Call home") (lit "family.md") false brokenKey)]
         day false false.

End Sample.

(** * Properties *)

(** ** Vocabulary of the statements *)

(** [p] occurs in [s] at index [n]. *)
Definition occursAt (s : jsstr) (n : nat) (p : jsstr) : Prop :=
  exists pre post, s = pre ++ p ++ post /\ length pre = n.

(** [p] is a substring of [s]. *)
Definition contains (s p : jsstr) : Prop :=
  exists pre post, s = pre ++ p ++ post.

(** Where the closing end marker of a freshly rendered section starts. *)
Definition closingAt (marker : jsstr) (rs : list Reminder) : nat :=
  (length (startMarkerOf marker) + 1 + length (reminderLines rs) + 1)%nat.

Section Vocabulary.

Context {C : Collaborators}.

(** The date [updateDailyNote] works on: [specificDate || DateTime.now()]. *)
Definition targetDateOf (specificDate : option DateTime) (w : World) : DateTime :=
  match specificDate with
  | Some d => d
  | None => now (host w)
  end.

(** What a caught failure leaves behind: the console error, and the
    failure notice unless [quiet]. *)
Definition failureReport (quiet : bool) : list Event :=
  EvConsole Error :: (if quiet then [] else [EvNotice UpdateFailed]).

(** The events of [updateDailyNote] up to the section rewrite. *)
Definition readEvents (t : DateTime) (note : TFile) : list Event :=
  [EvEnumerate; EvConsole Info; EvByDate t; EvConsole Info; EvRead note].

(** The lines [handleFileModify] walks through: the text between the end
    of the start marker and the end marker, split at line feeds. *)
Definition sectionLines (marker contentString : jsstr) : list jsstr :=
  splitLines
    (substring contentString
       (indexOf contentString (startMarkerOf marker)
        + len (startMarkerOf marker))
       (indexOf contentString (endMarkerOf marker))).

(** The reminder [todosOfDate.find] returns for a parsed line. *)
Definition matchingReminder (w : World) (todosOfDate : list rref) (todo : Todo)
    : option rref :=
  find (fun r => matchesTodo (matchReminderKey (body todo)) (body todo)
                   (deref (host w) r))
       todosOfDate.

(** [x] is the first element of [l], in order, that satisfies [P]. *)
Definition firstWith {A : Type} (P : A -> Prop) (l : list A) (x : A) : Prop :=
  exists l1 l2, l = l1 ++ x :: l2 /\ P x /\ forall y, In y l1 -> ~ P y.

Definition isNotice (e : Event) : bool :=
  match e with
  | EvNotice _ => true
  | _ => false
  end.

End Vocabulary.

(** The body of a rendered checklist line: what follows [- [ ] ] or
    [- [x] ]. *)
Definition renderedBody (r : Reminder) : jsstr :=
  title r ++ lit " [[" ++ file r ++ lit "|source]] <!-- reminder-key: "
    ++ key r ++ lit " -->".

(** No line feed in [s]. *)
Definition oneLine (s : jsstr) : Prop := ~ In LF s.

(** A reminder whose title, file and key hold no line feed. *)
Definition oneLineReminder (r : Reminder) : Prop :=
  oneLine (title r) /\ oneLine (file r) /\ oneLine (key r).

(** A reminder whose rendered line gives its key back to the key regular
    expression: no [<] in the title and the file, and a key that holds no
    line terminator and lets [ -->] start nowhere before its end. *)
Definition keyReadable (r : Reminder) : Prop :=
  ~ In 60%N (title r) /\ ~ In 60%N (file r)
  /\ (forall c, In c (key r) -> isLineTerminator c = false)
  /\ search (key r ++ keyClose) keyClose = Some (length (key r)).

(** At index [n] of [s] stands a key comment that closes with key [k]:
    [<!-- reminder-key: ], then [k], which holds no line terminator and
    in which, followed by [ -->], no [ -->] starts before its end, then
    [ -->]. *)
Definition keyCommentAt (s : jsstr) (n : nat) (k : jsstr) : Prop :=
  exists pre post,
    s = pre ++ keyOpen ++ k ++ keyClose ++ post
    /\ length pre = n
    /\ (forall c, In c k -> isLineTerminator c = false)
    /\ (forall m, (m < length k)%nat -> ~ occursAt (k ++ keyClose) m keyClose).

Section ReconcileVocabulary.

Context {C : Collaborators}.

(** The reminders read the same in [h'] as in [h], [done] aside. *)
Definition sameReading (h h' : hstate) : Prop :=
  forall x,
    title (deref h' x) = title (deref h x)
    /\ key (deref h' x) = key (deref h x).

(** An update callback that does what it is asked and no more, for the
    reminders [todos] and in every host where the reminders read as they
    do in [w]: after [updateReminder(r, b)] has returned, [r.done] is
    [b], no reminder has another title or key, and no other reminder
    another [done]. *)
Definition sinkSetsDone (w : World) (todos : list rref) : Prop :=
  forall (r : rref) (b : bool) (h h' : hstate),
    In r todos ->
    sameReading (host w) h ->
    updateReminder r b h = (Ok tt, h') ->
    done (deref h' r) = b
    /\ forall x,
         title (deref h' x) = title (deref h x)
         /\ key (deref h' x) = key (deref h x)
         /\ (x = r \/ done (deref h' x) = done (deref h x)).

(** The reminder that matches [line], if any, has the checked state of
    the line. *)
Definition settledLine (w : World) (todos : list rref) (line : jsstr) : Prop :=
  forall todo r,
    todoParse (trim line) = Some todo ->
    matchingReminder w todos todo = Some r ->
    done (deref (host w) r) = isChecked todo.

(** Lines that match the same reminder have the same checked state. *)
Definition agreeingLines (w : World) (todos : list rref) (lines : list jsstr)
    : Prop :=
  forall l1 l2 t1 t2 r,
    In l1 lines -> In l2 lines ->
    todoParse (trim l1) = Some t1 ->
    todoParse (trim l2) = Some t2 ->
    matchingReminder w todos t1 = Some r ->
    matchingReminder w todos t2 = Some r ->
    isChecked t1 = isChecked t2.

End ReconcileVocabulary.

Module StrFacts.

Set Implicit Arguments.

Lemma str_eqb_eq (a b : jsstr) : str_eqb a b = true <-> a = b.
Proof.
  revert b; induction a as [|c a IH]; intros [|d b]; simpl;
    try (split; [discriminate | congruence]); try tauto.
  rewrite andb_true_iff, N.eqb_eq, IH.
  split; [intros [-> ->]; reflexivity | intros E; inversion E; auto].
Qed.

Lemma str_eqb_refl (a : jsstr) : str_eqb a a = true.
Proof. apply str_eqb_eq; reflexivity. Qed.

Lemma startsWith_iff (s p : jsstr) :
  startsWith s p = true <-> exists r, s = p ++ r.
Proof.
  revert s; induction p as [|c p IH]; intros s; simpl.
  - split; [exists s; reflexivity | reflexivity].
  - destruct s as [|d s].
    + split; [discriminate | intros [r E]; discriminate].
    + rewrite andb_true_iff, N.eqb_eq, IH.
      split.
      * intros [-> [r ->]]. exists r; reflexivity.
      * intros [r E]. inversion E; subst. split; [reflexivity | exists r; reflexivity].
Qed.

Lemma startsWith_app (p r : jsstr) : startsWith (p ++ r) p = true.
Proof. apply startsWith_iff. exists r; reflexivity. Qed.

Lemma occursAt_0 (s p : jsstr) : occursAt s 0 p <-> startsWith s p = true.
Proof.
  rewrite startsWith_iff. split.
  - intros (pre & post & -> & L). destruct pre; [|discriminate].
    exists post; reflexivity.
  - intros [r ->]. exists [], r. split; reflexivity.
Qed.

Lemma occursAt_S (c : N) (s p : jsstr) (n : nat) :
  occursAt (c :: s) (S n) p <-> occursAt s n p.
Proof.
  split.
  - intros (pre & post & E & L). destruct pre as [|d pre]; [discriminate|].
    simpl in E, L. inversion E; subst. exists pre, post. split; [reflexivity | lia].
  - intros (pre & post & -> & L). exists (c :: pre), post.
    split; [reflexivity | simpl; lia].
Qed.

Lemma firstn_exact {A : Type} (a b : list A) :
  firstn (length a) (a ++ b) = a.
Proof.
  rewrite firstn_app, firstn_all, Nat.sub_diag. simpl. apply app_nil_r.
Qed.

Lemma firstn_within {A : Type} (a b : list A) (n : nat) :
  (n <= length a)%nat -> firstn n (a ++ b) = firstn n a.
Proof.
  intros H. rewrite firstn_app. replace (n - length a)%nat with 0%nat by lia.
  simpl. apply app_nil_r.
Qed.

Lemma skipn_exact {A : Type} (a b : list A) :
  skipn (length a) (a ++ b) = b.
Proof.
  rewrite skipn_app, skipn_all, Nat.sub_diag. reflexivity.
Qed.

Lemma skipn_within {A : Type} (a b : list A) (n : nat) :
  (n <= length a)%nat -> skipn n (a ++ b) = skipn n a ++ b.
Proof.
  intros H. rewrite skipn_app. replace (n - length a)%nat with 0%nat by lia.
  reflexivity.
Qed.

Lemma occursAt_length (s p : jsstr) (n : nat) :
  occursAt s n p -> (n + length p <= length s)%nat.
Proof.
  intros (pre & post & -> & <-). rewrite !length_app. lia.
Qed.

Lemma occursAt_skipn (s p : jsstr) (n : nat) :
  occursAt s n p -> exists post, skipn n s = p ++ post.
Proof.
  intros (pre & post & -> & <-). exists post.
  rewrite skipn_app, skipn_all, Nat.sub_diag. reflexivity.
Qed.

Lemma occursAt_firstn (s p : jsstr) (n : nat) :
  occursAt s n p -> exists post, s = firstn n s ++ p ++ post.
Proof.
  intros (pre & post & -> & <-). exists post.
  rewrite firstn_app, firstn_all, Nat.sub_diag. simpl.
  rewrite app_nil_r. reflexivity.
Qed.

(** An occurrence that ends inside a prefix is an occurrence in the
    prefix. *)
Lemma occursAt_app_l (a b p : jsstr) (n : nat) :
  occursAt (a ++ b) n p -> (n + length p <= length a)%nat -> occursAt a n p.
Proof.
  intros (pre & post & E & L) Hn.
  exists pre, (firstn (length a - n - length p) post). split; [|exact L].
  assert (Ha : a = firstn (length a) (a ++ b)).
  { rewrite firstn_app, firstn_all, Nat.sub_diag. simpl.
    rewrite app_nil_r. reflexivity. }
  rewrite E in Ha. rewrite Ha at 1.
  rewrite firstn_app, firstn_all2 by lia.
  rewrite firstn_app, firstn_all2 by lia.
  rewrite L. reflexivity.
Qed.

Lemma occursAt_app_weaken (a b p : jsstr) (n : nat) :
  occursAt a n p -> occursAt (a ++ b) n p.
Proof.
  intros (pre & post & -> & L). exists pre, (post ++ b).
  split; [|exact L]. rewrite <- !app_assoc. reflexivity.
Qed.

Lemma occursAt_app_r (a b p : jsstr) (n : nat) :
  occursAt (a ++ b) (length a + n) p <-> occursAt b n p.
Proof.
  split.
  - intros (pre & post & E & L).
    exists (skipn (length a) pre), post. split.
    + assert (Hb : b = skipn (length a) (a ++ b)).
      { rewrite skipn_app, skipn_all, Nat.sub_diag. reflexivity. }
      rewrite E in Hb. rewrite Hb at 1.
      rewrite skipn_app. replace (length a - length pre)%nat with 0%nat by lia.
      reflexivity.
    + rewrite length_skipn. lia.
  - intros (pre & post & -> & L). exists (a ++ pre), post.
    split; [rewrite <- app_assoc; reflexivity | rewrite length_app; lia].
Qed.

Lemma search_spec (s p : jsstr) :
  match search s p with
  | Some n => occursAt s n p /\ forall m, (m < n)%nat -> ~ occursAt s m p
  | None => forall m, ~ occursAt s m p
  end.
Proof.
  induction s as [|c s IH]; simpl.
  - destruct (startsWith [] p) eqn:E.
    + split; [apply occursAt_0; exact E | intros m Hm; lia].
    + intros m (pre & post & Eq & L).
      destruct pre; [|discriminate].
      assert (startsWith [] p = true) by (apply startsWith_iff; exists post; exact Eq).
      congruence.
  - destruct (startsWith (c :: s) p) eqn:E.
    + split; [apply occursAt_0; exact E | intros m Hm; lia].
    + destruct (search s p) as [n|]; simpl.
      * destruct IH as [Ho Hmin]. split.
        -- apply occursAt_S; exact Ho.
        -- intros [|m] Hm Hocc.
           ++ apply occursAt_0 in Hocc. congruence.
           ++ apply occursAt_S in Hocc. apply (Hmin m); [lia | exact Hocc].
      * intros [|m] Hocc.
        -- apply occursAt_0 in Hocc. congruence.
        -- apply occursAt_S in Hocc. exact (IH m Hocc).
Qed.

Lemma search_Some (s p : jsstr) (n : nat) :
  search s p = Some n <->
  occursAt s n p /\ forall m, (m < n)%nat -> ~ occursAt s m p.
Proof.
  pose proof (search_spec s p) as H. split.
  - intros E. rewrite E in H. exact H.
  - intros [Ho Hmin]. destruct (search s p) as [k|].
    + destruct H as [Hk Hkmin].
      destruct (Nat.lt_trichotomy k n) as [L | [-> | L]]; [|reflexivity|].
      * exfalso. exact (Hmin k L Hk).
      * exfalso. exact (Hkmin n L Ho).
    + exfalso. exact (H n Ho).
Qed.

Lemma search_None (s p : jsstr) :
  search s p = None <-> forall m, ~ occursAt s m p.
Proof.
  pose proof (search_spec s p) as H. split.
  - intros E. rewrite E in H. exact H.
  - intros Hn. destruct (search s p) as [k|]; [|reflexivity].
    exfalso. exact (Hn k (proj1 H)).
Qed.

Lemma indexOf_nat (s p : jsstr) (n : nat) :
  indexOf s p = Z.of_nat n <-> search s p = Some n.
Proof.
  unfold indexOf. destruct (search s p) as [k|]; split; intros E;
    try discriminate; try lia.
  - f_equal. lia.
  - inversion E. reflexivity.
Qed.

Lemma indexOf_absent (s p : jsstr) :
  indexOf s p = -1 <-> search s p = None.
Proof.
  unfold indexOf. destruct (search s p) as [k|]; split; intros E;
    try discriminate; try lia. reflexivity.
Qed.

Lemma indexOf_cases (s p : jsstr) :
  indexOf s p = -1 \/ exists n, indexOf s p = Z.of_nat n.
Proof.
  unfold indexOf. destruct (search s p) as [k|]; [right; exists k | left];
    reflexivity.
Qed.

Lemma includes_contains (s p : jsstr) :
  includes s p = true <-> contains s p.
Proof.
  unfold includes. rewrite negb_true_iff, Z.eqb_neq. split.
  - intros H. destruct (indexOf_cases s p) as [E | [n E]]; [contradiction|].
    apply indexOf_nat, search_Some in E. destruct E as [(pre & post & E & _) _].
    exists pre, post. exact E.
  - intros (pre & post & E) Habs.
    apply indexOf_absent in Habs.
    apply (proj1 (search_None s p) Habs (length pre)).
    exists pre, post. split; [exact E | reflexivity].
Qed.

Lemma clamp_nat (l n : nat) : (n <= l)%nat -> clamp l (Z.of_nat n) = n.
Proof. intros H. unfold clamp. lia. Qed.

Lemma substring_prefix (s : jsstr) (n : nat) :
  (n <= length s)%nat -> substring s 0 (Z.of_nat n) = firstn n s.
Proof.
  intros H. unfold substring. rewrite (clamp_nat H).
  replace (clamp (length s) 0) with 0%nat by (unfold clamp; lia).
  rewrite Nat.min_0_l, Nat.max_0_l, Nat.sub_0_r. reflexivity.
Qed.

Lemma substringFrom_suffix (s : jsstr) (n : nat) :
  (n <= length s)%nat -> substringFrom s (Z.of_nat n) = skipn n s.
Proof.
  intros H. unfold substringFrom. rewrite (clamp_nat H). reflexivity.
Qed.

Unset Implicit Arguments.

End StrFacts.

(** ** Locating the daily note *)

Module Locate.

Import StrFacts.

Lemma exactMatches_In (dateStr : jsstr) (files : list TFile) (f : TFile) :
  In f (exactMatches dateStr files) <-> In f files /\ basename f = dateStr.
Proof.
  unfold exactMatches. rewrite filter_In, str_eqb_eq. tauto.
Qed.

Lemma looseMatches_In (dateStr : jsstr) (files : list TFile) (f : TFile) :
  In f (looseMatches dateStr files) <-> In f files /\ contains (name f) dateStr.
Proof.
  unfold looseMatches. rewrite filter_In, includes_contains. tauto.
Qed.

Lemma length_zero_nil {A : Type} (l : list A) :
  (length l =? 0)%nat = true <-> l = [].
Proof.
  destruct l; simpl; split; intros; try reflexivity; discriminate.
Qed.

(** The reduction keeps an element of the array, no older than any element
    before it and strictly newer than every element after it. *)
Lemma fold_newer_last_max (rest : list TFile) (x : TFile) :
  exists l1 l2,
    x :: rest = l1 ++ fold_left newer rest x :: l2
    /\ (forall g, In g l1 -> mtime g <= mtime (fold_left newer rest x))
    /\ (forall g, In g l2 -> mtime g < mtime (fold_left newer rest x)).
Proof.
  induction rest as [|y rest IH] using rev_ind.
  - exists [], []. simpl. repeat split; intros g [].
  - rewrite fold_left_app. simpl.
    destruct IH as (l1 & l2 & E & H1 & H2).
    set (prev := fold_left newer rest x) in *.
    unfold newer. destruct (mtime prev >? mtime y) eqn:Cmp.
    + exists l1, (l2 ++ [y]). split; [|split].
      * rewrite app_comm_cons, E, <- app_assoc. reflexivity.
      * exact H1.
      * intros g Hg. apply in_app_or in Hg. destruct Hg as [Hg | [<- | []]].
        -- exact (H2 g Hg).
        -- apply Z.gtb_lt in Cmp. lia.
    + exists (x :: rest), []. split; [|split].
      * rewrite app_comm_cons. reflexivity.
      * intros g Hg. rewrite E in Hg.
        assert (mtime prev <= mtime y).
        { rewrite Z.gtb_ltb in Cmp. apply Z.ltb_ge in Cmp. exact Cmp. }
        apply in_app_or in Hg. destruct Hg as [Hg | [<- | Hg]].
        -- specialize (H1 g Hg). lia.
        -- assumption.
        -- specialize (H2 g Hg). lia.
      * intros g [].
Qed.

Lemma findDailyNoteIn_nonempty (dateStr : jsstr) (files : list TFile) :
  matchingFiles dateStr files <> [] ->
  exists x rest,
    matchingFiles dateStr files = x :: rest
    /\ findDailyNoteIn dateStr files = Some (fold_left newer rest x).
Proof.
  intros Hne. unfold findDailyNoteIn.
  destruct (matchingFiles dateStr files) as [|x rest]; [congruence|].
  exists x, rest. split; reflexivity.
Qed.

Lemma findDailyNoteIn_last_max (dateStr : jsstr) (files : list TFile) :
  matchingFiles dateStr files <> [] ->
  exists f l1 l2,
    findDailyNoteIn dateStr files = Some f
    /\ matchingFiles dateStr files = l1 ++ f :: l2
    /\ (forall g, In g l1 -> mtime g <= mtime f)
    /\ (forall g, In g l2 -> mtime g < mtime f).
Proof.
  intros Hne.
  destruct (findDailyNoteIn_nonempty dateStr files Hne) as (x & rest & Em & Ef).
  destruct (fold_newer_last_max rest x) as (l1 & l2 & E & H1 & H2).
  exists (fold_left newer rest x), l1, l2.
  repeat split; try assumption. rewrite Em. exact E.
Qed.

Lemma findDailyNoteIn_member (dateStr : jsstr) (files : list TFile) (f : TFile) :
  findDailyNoteIn dateStr files = Some f -> In f (matchingFiles dateStr files).
Proof.
  intros E.
  destruct (matchingFiles dateStr files) as [|x rest] eqn:Em.
  - unfold findDailyNoteIn in E. rewrite Em in E. discriminate.
  - destruct (findDailyNoteIn_last_max dateStr files) as (f' & l1 & l2 & Ef & El & _).
    { rewrite Em. discriminate. }
    rewrite Ef in E. inversion E; subst f'.
    rewrite <- Em, El. apply in_or_app. right. left. reflexivity.
Qed.

(** C1, as the specification words it, fails: of two matching files with
    the same modification time [findDailyNote] does not return the one
    met first. *)
Lemma findDailyNote_tie_not_first :
  ~ (forall (dateStr : jsstr) (files : list TFile) (f : TFile)
            (l1 l2 : list TFile),
        matchingFiles dateStr files = l1 ++ f :: l2 ->
        (forall g, In g l1 -> mtime g < mtime f) ->
        (forall g, In g l2 -> mtime g <= mtime f) ->
        findDailyNoteIn dateStr files = Some f).
Proof.
  intros H.
  specialize (H (lit "2024-01-05")
                [Mem.noteIn "a" "2024-01-05" 5; Mem.noteIn "b" "2024-01-05" 5]
                (Mem.noteIn "a" "2024-01-05" 5)
                [] [Mem.noteIn "b" "2024-01-05" 5] eq_refl).
  assert (E : findDailyNoteIn (lit "2024-01-05")
                [Mem.noteIn "a" "2024-01-05" 5; Mem.noteIn "b" "2024-01-05" 5]
              = Some (Mem.noteIn "b" "2024-01-05" 5)) by reflexivity.
  rewrite E in H.
  assert (Some (Mem.noteIn "b" "2024-01-05" 5)
          = Some (Mem.noteIn "a" "2024-01-05" 5)) as Abs.
  { apply H.
    - intros g [].
    - intros g [<- | []]. simpl. lia. }
  discriminate Abs.
Qed.

(** C1, amended: among the files of the selected stage [findDailyNote]
    returns one of greatest modification time, and of several with that
    time the one met last: no file before it is newer, every file after it
    is strictly older. *)
Theorem findDailyNote_newest_last (dateStr : jsstr) (files : list TFile) :
  matchingFiles dateStr files <> [] ->
  exists f l1 l2,
    findDailyNoteIn dateStr files = Some f
    /\ matchingFiles dateStr files = l1 ++ f :: l2
    /\ (forall g, In g l1 -> mtime g <= mtime f)
    /\ (forall g, In g l2 -> mtime g < mtime f).
Proof.
  exact (findDailyNoteIn_last_max dateStr files).
Qed.

Lemma findDailyNote_newest_last_witness :
  exists f l1 l2,
    findDailyNoteIn (lit "2024-01-05")
      [Mem.noteIn "a" "2024-01-05" 5; Mem.noteIn "b" "2024-01-05" 5;
       Mem.note "notes-2024-01-05" 9] = Some f
    /\ matchingFiles (lit "2024-01-05")
         [Mem.noteIn "a" "2024-01-05" 5; Mem.noteIn "b" "2024-01-05" 5;
          Mem.note "notes-2024-01-05" 9] = l1 ++ f :: l2
    /\ (forall g, In g l1 -> mtime g <= mtime f)
    /\ (forall g, In g l2 -> mtime g < mtime f).
Proof.
  apply (findDailyNote_newest_last (lit "2024-01-05")
           [Mem.noteIn "a" "2024-01-05" 5; Mem.noteIn "b" "2024-01-05" 5;
            Mem.note "notes-2024-01-05" 9]).
  vm_compute. discriminate.
Defined.

(** C9: when some file has the date string as its base name,
    [findDailyNote] returns such a file, whatever the modification times;
    when none has but some file name contains the date string, it returns
    one of those; when neither exists it returns null. *)
Theorem findDailyNote_exact_then_loose (dateStr : jsstr) (files : list TFile) :
  ((exists g, In g files /\ basename g = dateStr) ->
   exists f, findDailyNoteIn dateStr files = Some f
             /\ In f files /\ basename f = dateStr)
  /\ ((forall g, In g files -> basename g <> dateStr) ->
      (exists g, In g files /\ contains (name g) dateStr) ->
      exists f, findDailyNoteIn dateStr files = Some f
                /\ In f files /\ contains (name f) dateStr)
  /\ ((forall g, In g files -> basename g <> dateStr) ->
      (forall g, In g files -> ~ contains (name g) dateStr) ->
      findDailyNoteIn dateStr files = None).
Proof.
  split; [|split].
  - intros (g & Hg & Hb).
    assert (Hin : In g (exactMatches dateStr files))
      by (apply exactMatches_In; split; assumption).
    assert (Hm : matchingFiles dateStr files = exactMatches dateStr files).
    { unfold matchingFiles.
      destruct (length (exactMatches dateStr files) =? 0)%nat eqn:E;
        [|reflexivity].
      apply length_zero_nil in E. rewrite E in Hin. destruct Hin. }
    destruct (findDailyNoteIn_last_max dateStr files) as (f & l1 & l2 & Ef & Em & _).
    { rewrite Hm. intros E. rewrite E in Hin. destruct Hin. }
    exists f. split; [exact Ef|].
    apply exactMatches_In. rewrite <- Hm, Em.
    apply in_or_app. right. left. reflexivity.
  - intros Hno (g & Hg & Hc).
    assert (He : exactMatches dateStr files = []).
    { destruct (exactMatches dateStr files) as [|x l] eqn:E; [reflexivity|].
      assert (In x (exactMatches dateStr files)) as Hx by (rewrite E; left; reflexivity).
      apply exactMatches_In in Hx. destruct Hx as [Hx Hbx].
      exfalso. exact (Hno x Hx Hbx). }
    assert (Hm : matchingFiles dateStr files = looseMatches dateStr files).
    { unfold matchingFiles. rewrite He. reflexivity. }
    assert (Hin : In g (looseMatches dateStr files))
      by (apply looseMatches_In; split; assumption).
    destruct (findDailyNoteIn_last_max dateStr files) as (f & l1 & l2 & Ef & Em & _).
    { rewrite Hm. intros E. rewrite E in Hin. destruct Hin. }
    exists f. split; [exact Ef|].
    apply looseMatches_In. rewrite <- Hm, Em.
    apply in_or_app. right. left. reflexivity.
  - intros Hno Hnc.
    destruct (findDailyNoteIn dateStr files) as [f|] eqn:E; [|reflexivity].
    exfalso. apply findDailyNoteIn_member in E.
    unfold matchingFiles in E.
    destruct (length (exactMatches dateStr files) =? 0)%nat.
    + apply looseMatches_In in E. destruct E as [Hf Hc]. exact (Hnc f Hf Hc).
    + apply exactMatches_In in E. destruct E as [Hf Hb]. exact (Hno f Hf Hb).
Qed.

End Locate.

(** ** Rewriting the marked section *)

Module Section_.

Import StrFacts.

Set Implicit Arguments.

Lemma length_startMarker (marker : jsstr) :
  length (startMarkerOf marker) = (18 + length marker)%nat.
Proof.
  unfold startMarkerOf. rewrite !length_app. simpl. lia.
Qed.

Lemma length_endMarker (marker : jsstr) :
  length (endMarkerOf marker) = (16 + length marker)%nat.
Proof.
  unfold endMarkerOf. rewrite !length_app. simpl. lia.
Qed.

Lemma length_newSection (marker : jsstr) (rs : list Reminder) :
  length (newSection marker rs)
  = (length (startMarkerOf marker) + 1 + length (reminderLines rs) + 1
     + length (endMarkerOf marker))%nat.
Proof.
  unfold newSection, NL. rewrite !length_app. simpl. lia.
Qed.

Lemma newSection_closing (marker : jsstr) (rs : list Reminder) :
  occursAt (newSection marker rs) (closingAt marker rs) (endMarkerOf marker).
Proof.
  exists (startMarkerOf marker ++ NL ++ reminderLines rs ++ NL), [].
  split.
  - unfold newSection. rewrite app_nil_r, <- !app_assoc. reflexivity.
  - unfold closingAt, NL. rewrite !length_app. simpl. lia.
Qed.

(** The value of [updateReminderSection] when both markers are found. *)
Lemma updateReminderSection_found (marker content : jsstr)
    (rs : list Reminder) (s e : nat) :
  search content (startMarkerOf marker) = Some s ->
  search content (endMarkerOf marker) = Some e ->
  updateReminderSection marker content rs
  = Some (firstn s content ++ newSection marker rs
            ++ skipn (e + length (endMarkerOf marker)) content).
Proof.
  intros Hs He. unfold updateReminderSection.
  rewrite (proj2 (indexOf_nat _ _ _) Hs), (proj2 (indexOf_nat _ _ _) He).
  replace (Z.of_nat s =? -1) with false by (symmetry; apply Z.eqb_neq; lia).
  replace (Z.of_nat e =? -1) with false by (symmetry; apply Z.eqb_neq; lia).
  simpl orb. cbv iota.
  apply search_Some in Hs, He.
  destruct Hs as [Hs _], He as [He _].
  apply occursAt_length in Hs, He.
  rewrite substring_prefix by lia.
  unfold len. rewrite <- Nat2Z.inj_add.
  rewrite substringFrom_suffix by lia.
  reflexivity.
Qed.

Lemma markers_found_test (marker content : jsstr) (s e : nat) :
  search content (startMarkerOf marker) = Some s ->
  search content (endMarkerOf marker) = Some e ->
  (indexOf content (startMarkerOf marker) =? -1)
  || (indexOf content (endMarkerOf marker) =? -1) = false.
Proof.
  intros Hs He.
  rewrite (proj2 (indexOf_nat _ _ _) Hs), (proj2 (indexOf_nat _ _ _) He).
  apply orb_false_iff. split; apply Z.eqb_neq; lia.
Qed.

Lemma markers_missing_test (marker content : jsstr) :
  ~ contains content (startMarkerOf marker)
  \/ ~ contains content (endMarkerOf marker) ->
  (indexOf content (startMarkerOf marker) =? -1)
  || (indexOf content (endMarkerOf marker) =? -1) = true.
Proof.
  intros H. apply orb_true_iff.
  destruct H as [H | H]; [left | right]; apply Z.eqb_eq;
    destruct (indexOf_cases content (startMarkerOf marker)) as [E1 | [n1 E1]];
    destruct (indexOf_cases content (endMarkerOf marker)) as [E2 | [n2 E2]];
    try assumption; exfalso; apply H, includes_contains;
    unfold includes; apply negb_true_iff, Z.eqb_neq; lia.
Qed.

Lemma markers_present_test (marker content : jsstr) :
  contains content (startMarkerOf marker) ->
  contains content (endMarkerOf marker) ->
  (indexOf content (startMarkerOf marker) =? -1)
  || (indexOf content (endMarkerOf marker) =? -1) = false.
Proof.
  intros Hs He. apply includes_contains in Hs, He. unfold includes in Hs, He.
  apply negb_true_iff in Hs, He. rewrite Hs, He. reflexivity.
Qed.

Lemma updateReminderSection_missing (marker content : jsstr)
    (rs : list Reminder) :
  ~ contains content (startMarkerOf marker)
  \/ ~ contains content (endMarkerOf marker) ->
  updateReminderSection marker content rs = None.
Proof.
  intros H. unfold updateReminderSection.
  rewrite (markers_missing_test H). reflexivity.
Qed.

(** The end marker cannot start one code unit after the start marker. *)
Lemma end_not_next_to_start (marker content : jsstr) (s : nat) :
  occursAt content s (startMarkerOf marker) ->
  ~ occursAt content (S s) (endMarkerOf marker).
Proof.
  intros Hs He.
  apply occursAt_skipn in Hs, He.
  destruct Hs as [p1 Hs], He as [p2 He].
  assert (Hk : skipn (S s) content = skipn 1 (skipn s content)).
  { rewrite skipn_skipn. reflexivity. }
  rewrite Hs, He in Hk. unfold startMarkerOf, endMarkerOf in Hk.
  simpl in Hk. discriminate Hk.
Qed.

(** C2: when both markers occur and the start marker comes first, the
    document is a prefix, the region from the start of the start marker to
    the end of the end marker, and a suffix; [updateReminderSection]
    returns the prefix, the start marker, one line feed, the rendered
    lines, one line feed, the end marker and the suffix. *)
Theorem updateReminderSection_replaces_region (marker content : jsstr)
    (rs : list Reminder) (s e : nat) :
  indexOf content (startMarkerOf marker) = Z.of_nat s ->
  indexOf content (endMarkerOf marker) = Z.of_nat e ->
  (s < e)%nat ->
  exists pre region post,
    content = pre ++ region ++ post
    /\ length pre = s
    /\ length (pre ++ region) = (e + length (endMarkerOf marker))%nat
    /\ (exists tail, region = startMarkerOf marker ++ tail)
    /\ (exists head, region = head ++ endMarkerOf marker)
    /\ updateReminderSection marker content rs
       = Some (pre ++ startMarkerOf marker ++ NL ++ reminderLines rs ++ NL
                 ++ endMarkerOf marker ++ post).
Proof.
  intros Hs He Hlt.
  apply indexOf_nat in Hs, He.
  pose proof (updateReminderSection_found marker content rs Hs He) as Hval.
  apply search_Some in Hs, He.
  destruct Hs as [Hs _], He as [He _].
  assert (Hne : e <> S s).
  { intros ->. exact (end_not_next_to_start Hs He). }
  pose proof (occursAt_skipn Hs) as [ps Hps].
  destruct He as (A & post & Ec & LA).
  exists (firstn s A), (skipn s A ++ endMarkerOf marker), post.
  assert (Hfirst : firstn s content = firstn s A).
  { rewrite Ec, firstn_app. replace (s - length A)%nat with 0%nat by lia.
    simpl. rewrite app_nil_r. reflexivity. }
  assert (Hskip : skipn (e + length (endMarkerOf marker)) content = post).
  { rewrite Ec, app_assoc, skipn_app.
    rewrite skipn_all2 by (rewrite length_app; lia).
    rewrite length_app.
    replace (e + length (endMarkerOf marker)
             - (length A + length (endMarkerOf marker)))%nat with 0%nat by lia.
    reflexivity. }
  split; [|split; [|split; [|split; [|split]]]].
  - rewrite app_assoc, (app_assoc (firstn s A)), firstn_skipn, <- app_assoc.
    exact Ec.
  - rewrite length_firstn. lia.
  - rewrite app_assoc, firstn_skipn, length_app. lia.
  - exists (skipn (length (startMarkerOf marker))
                  (skipn s A ++ endMarkerOf marker)).
    assert (Hsk : skipn s content = (skipn s A ++ endMarkerOf marker) ++ post).
    { rewrite Ec, skipn_app. replace (s - length A)%nat with 0%nat by lia.
      rewrite <- app_assoc. reflexivity. }
    rewrite Hps in Hsk.
    assert (Hlen : (length (startMarkerOf marker)
                    <= length (skipn s A ++ endMarkerOf marker))%nat).
    { rewrite length_app, length_skipn, length_startMarker, length_endMarker.
      lia. }
    rewrite <- (firstn_skipn (length (startMarkerOf marker))
                  (skipn s A ++ endMarkerOf marker)) at 1.
    f_equal.
    assert (Hf : firstn (length (startMarkerOf marker))
                   (startMarkerOf marker ++ ps)
                 = firstn (length (startMarkerOf marker))
                     ((skipn s A ++ endMarkerOf marker) ++ post))
      by (rewrite Hsk; reflexivity).
    rewrite firstn_exact in Hf.
    rewrite firstn_within in Hf by exact Hlen.
    symmetry. exact Hf.
  - exists (skipn s A). reflexivity.
  - rewrite Hval, Hfirst, Hskip. unfold newSection.
    rewrite <- !app_assoc. reflexivity.
Qed.


(** After a first pass that found the start marker before the end marker,
    the start marker is where it was, and the end marker is the closing
    one of the new section unless the new section holds an earlier one. *)
Lemma first_pass_markers (marker content : jsstr) (rs : list Reminder)
    (s e : nat) :
  search content (startMarkerOf marker) = Some s ->
  search content (endMarkerOf marker) = Some e ->
  (s < e)%nat ->
  search (newSection marker rs) (endMarkerOf marker)
  = Some (closingAt marker rs) ->
  forall post,
    search (firstn s content ++ newSection marker rs ++ post)
           (startMarkerOf marker) = Some s
    /\ search (firstn s content ++ newSection marker rs ++ post)
              (endMarkerOf marker) = Some (s + closingAt marker rs)%nat.
Proof.
  intros Hs He Hlt Hclose post.
  apply search_Some in Hs, He, Hclose.
  destruct Hs as [Hs Hsmin], He as [He Hemin], Hclose as [Hc Hcmin].
  pose proof (occursAt_length Hs) as Hsl.
  pose proof (occursAt_firstn Hs) as [ps Hps].
  assert (Lpre : length (firstn s content) = s)
    by (rewrite length_firstn; lia).
  set (pre := firstn s content) in *.
  assert (Hhead : forall m p,
             (m + length p <= s + length (startMarkerOf marker))%nat ->
             occursAt (pre ++ newSection marker rs ++ post) m p ->
             occursAt content m p).
  { intros m p Hm Hocc.
    unfold newSection in Hocc.
    replace (pre ++ (startMarkerOf marker ++ NL ++ reminderLines rs ++ NL
                       ++ endMarkerOf marker) ++ post)
      with ((pre ++ startMarkerOf marker)
              ++ (NL ++ reminderLines rs ++ NL ++ endMarkerOf marker) ++ post)
      in Hocc by (rewrite <- !app_assoc; reflexivity).
    apply occursAt_app_l in Hocc; [|rewrite length_app; lia].
    rewrite Hps. rewrite app_assoc. apply occursAt_app_weaken. exact Hocc. }
  split; apply search_Some; split.
  - exists pre, (NL ++ reminderLines rs ++ NL ++ endMarkerOf marker ++ post).
    split; [|exact Lpre]. unfold newSection. rewrite <- !app_assoc. reflexivity.
  - intros m Hm Hocc. apply (Hsmin m Hm). apply (Hhead m _); [lia | exact Hocc].
  - replace (s + closingAt marker rs)%nat
      with (length pre + closingAt marker rs)%nat by lia.
    apply occursAt_app_r. apply occursAt_app_weaken. exact Hc.
  - intros m Hm Hocc.
    destruct (Nat.lt_ge_cases m s) as [Hlow | Hhigh].
    + apply (Hemin m); [lia|]. apply (Hhead m _); [|exact Hocc].
      rewrite length_startMarker, length_endMarker. lia.
    + replace m with (length pre + (m - s))%nat in Hocc by lia.
      apply occursAt_app_r in Hocc.
      apply occursAt_app_l in Hocc.
      * apply (Hcmin (m - s)%nat); [lia | exact Hocc].
      * rewrite length_newSection. unfold closingAt in Hm. lia.
Qed.

(** C3, as the specification words it, fails: a reminder whose title holds
    the end marker makes a second pass differ from the first, and so does
    a document whose end marker comes before its start marker. *)
Lemma updateReminderSection_not_idempotent :
  ~ (forall (marker content : jsstr) (rs : list Reminder) (once : jsstr),
        updateReminderSection marker content rs = Some once ->
        updateReminderSection marker once rs = Some once).
Proof.
  intros H.
  specialize (H (lit "todos")
                (lit "<!-- start of todos --><!-- end of todos -->")
                [mkReminder (lit "<!-- end of todos -->") (lit "a.md") false
                            (lit "k1")]
                _ eq_refl).
  vm_compute in H. discriminate H.
Qed.

Lemma updateReminderSection_not_idempotent_reversed :
  ~ (forall (content : jsstr) (once : jsstr),
        updateReminderSection (lit "todos") content [] = Some once ->
        updateReminderSection (lit "todos") once [] = Some once).
Proof.
  intros H.
  specialize (H (lit "<!-- end of todos -->x<!-- start of todos -->")
                _ eq_refl).
  vm_compute in H. discriminate H.
Qed.

(** The pure half of the amended C3. *)
Lemma updateReminderSection_stable (marker content : jsstr)
    (rs : list Reminder) (s e : nat) :
  indexOf content (startMarkerOf marker) = Z.of_nat s ->
  indexOf content (endMarkerOf marker) = Z.of_nat e ->
  (s < e)%nat ->
  indexOf (newSection marker rs) (endMarkerOf marker)
  = Z.of_nat (closingAt marker rs) ->
  exists once,
    updateReminderSection marker content rs = Some once
    /\ updateReminderSection marker once rs = Some once.
Proof.
  intros Hs He Hlt Hc.
  apply indexOf_nat in Hs, He, Hc.
  set (post := skipn (e + length (endMarkerOf marker)) content).
  exists (firstn s content ++ newSection marker rs ++ post).
  split; [exact (updateReminderSection_found marker content rs Hs He)|].
  destruct (first_pass_markers content Hs He Hlt Hc post) as [Hs' He'].
  rewrite (updateReminderSection_found marker _ rs Hs' He').
  assert (Lpre : length (firstn s content) = s).
  { apply search_Some in Hs. destruct Hs as [Hs _].
    apply occursAt_length in Hs. rewrite length_firstn. lia. }
  assert (H1 : firstn s (firstn s content ++ newSection marker rs ++ post)
               = firstn s content).
  { rewrite firstn_within by lia. apply firstn_all2. lia. }
  assert (H2 : skipn (s + closingAt marker rs + length (endMarkerOf marker))
                     (firstn s content ++ newSection marker rs ++ post)
               = post).
  { replace (s + closingAt marker rs + length (endMarkerOf marker))%nat
      with (length (firstn s content ++ newSection marker rs)).
    - rewrite app_assoc. apply skipn_exact.
    - rewrite length_app, length_newSection, Lpre. unfold closingAt. lia. }
  rewrite H1, H2. reflexivity.
Qed.

(** With a label free of [<] the markers cannot overlap: an end marker
    found first ends before the start marker begins. *)
Lemma plain_label_markers_apart (marker content : jsstr) (s e : nat) :
  ~ In 60%N marker ->
  occursAt content e (endMarkerOf marker) ->
  occursAt content s (startMarkerOf marker) ->
  (e < s)%nat ->
  (e + length (endMarkerOf marker) <= s)%nat.
Proof.
  intros Hplain He Hs Hlt.
  destruct (Nat.le_gt_cases (e + length (endMarkerOf marker)) s) as [H | H];
    [exact H | exfalso].
  apply occursAt_skipn in He, Hs.
  destruct He as [pe He], Hs as [ps Hs].
  assert (Hk : skipn s content = skipn (s - e) (skipn e content)).
  { rewrite skipn_skipn. f_equal. lia. }
  rewrite He, Hs in Hk.
  rewrite skipn_within in Hk by lia.
  assert (Hin : In 60%N (skipn (s - e) (endMarkerOf marker))).
  { destruct (skipn (s - e) (endMarkerOf marker)) as [|c l] eqn:E.
    - apply (f_equal (@length N)) in E. rewrite length_skipn in E.
      cbn [length] in E. lia.
    - unfold startMarkerOf in Hk. simpl in Hk. inversion Hk. left. reflexivity. }
  replace (s - e)%nat with (S (s - e - 1)) in Hin by lia.
  unfold endMarkerOf in Hin. simpl in Hin.
  assert (Hin' : In 60%N (lit "!-- end of " ++ marker ++ lit " -->")).
  { revert Hin. generalize (s - e - 1)%nat. intros n Hin.
    rewrite <- (firstn_skipn n). apply in_or_app. right. exact Hin. }
  apply in_app_or in Hin'. destruct Hin' as [Hin' | Hin'].
  - simpl in Hin'. repeat (destruct Hin' as [Hin' | Hin']; [discriminate|]).
    exact Hin'.
  - apply in_app_or in Hin'. destruct Hin' as [Hin' | Hin'].
    + exact (Hplain Hin').
    + simpl in Hin'. repeat (destruct Hin' as [Hin' | Hin']; [discriminate|]).
      exact Hin'.
Qed.

(** C10, as the specification words it, fails for a marker label that lets
    the two markers overlap: the end marker is found first, yet what
    follows the new section no longer holds a start marker. *)
Lemma reversed_markers_overlap :
  ~ (forall (marker content : jsstr) (rs : list Reminder) (s e : nat),
        indexOf content (endMarkerOf marker) = Z.of_nat e ->
        indexOf content (startMarkerOf marker) = Z.of_nat s ->
        (e < s)%nat ->
        exists rest,
          updateReminderSection marker content rs
          = Some (firstn s content ++ newSection marker rs ++ rest)
          /\ includes rest (startMarkerOf marker) = true).
Proof.
  intros H.
  destruct (H Sample.oddLabel Sample.oddText [] 16%nat 0%nat eq_refl eq_refl)
    as (rest & Hval & Hinc);
    [lia|].
  vm_compute in Hval. inversion Hval; subst rest.
  vm_compute in Hinc. discriminate Hinc.
Qed.

(** C10, amended: when the end marker is found first and ends before the
    start marker begins, the document is [A ++ end ++ B ++ start ++ rest];
    [updateReminderSection] does not return null but
    [A ++ end ++ B ++ new section ++ B ++ start ++ rest]: the text [B]
    between the two markers comes twice and the old start marker
    follows the new section. *)
Theorem updateReminderSection_reversed_markers (marker content : jsstr)
    (rs : list Reminder) (s e : nat) :
  indexOf content (endMarkerOf marker) = Z.of_nat e ->
  indexOf content (startMarkerOf marker) = Z.of_nat s ->
  (e + length (endMarkerOf marker) <= s)%nat ->
  exists A B rest,
    content = A ++ endMarkerOf marker ++ B ++ startMarkerOf marker ++ rest
    /\ length A = e
    /\ length (A ++ endMarkerOf marker ++ B) = s
    /\ updateReminderSection marker content rs
       = Some (A ++ endMarkerOf marker ++ B ++ newSection marker rs
                 ++ B ++ startMarkerOf marker ++ rest).
Proof.
  intros He Hs Hle.
  apply indexOf_nat in He, Hs.
  rewrite (updateReminderSection_found marker content rs Hs He).
  apply search_Some in He, Hs.
  destruct He as [(A & pe & Ec & LA) _], Hs as [Hs _].
  assert (Hocc : occursAt pe (s - e - length (endMarkerOf marker))
                          (startMarkerOf marker)).
  { rewrite Ec, app_assoc in Hs.
    replace s with (length (A ++ endMarkerOf marker)
                    + (s - e - length (endMarkerOf marker)))%nat in Hs at 1
      by (rewrite length_app; lia).
    apply occursAt_app_r in Hs. exact Hs. }
  destruct Hocc as (B & rest & Epe & LB).
  exists A, B, rest. subst pe.
  split; [exact Ec|]. split; [exact LA|].
  assert (Ls : length (A ++ endMarkerOf marker ++ B) = s)
    by (rewrite !length_app; lia).
  split; [exact Ls|].
  f_equal. rewrite Ec.
  replace (A ++ endMarkerOf marker ++ B ++ startMarkerOf marker ++ rest)
    with ((A ++ endMarkerOf marker ++ B) ++ startMarkerOf marker ++ rest)
    by (rewrite <- !app_assoc; reflexivity).
  rewrite <- Ls at 1. rewrite firstn_exact.
  replace ((A ++ endMarkerOf marker ++ B) ++ startMarkerOf marker ++ rest)
    with ((A ++ endMarkerOf marker) ++ B ++ startMarkerOf marker ++ rest)
    by (rewrite <- !app_assoc; reflexivity).
  replace (e + length (endMarkerOf marker))%nat
    with (length (A ++ endMarkerOf marker)) by (rewrite length_app; lia).
  rewrite skipn_exact. rewrite <- !app_assoc. reflexivity.
Qed.

End Section_.

(** ** The two entry points *)

Module Engine.

Section Runs.

Context {C : Collaborators}.

Lemma consoleAll_run (ls : list Level) (w : World) :
  consoleAll ls w = (Ok tt, w, map EvConsole ls).
Proof.
  induction ls as [|l ls IH]; [reflexivity|].
  simpl. unfold bind, console, emit. rewrite IH. reflexivity.
Qed.

Lemma runUpdateReminderSection_run (content : jsstr) (todos : list rref)
    (w : World) :
  runUpdateReminderSection content todos w
  = (Ok (updateReminderSection (dailyNoteSectionMarker w) content
           (map (deref (host w)) todos)),
     w,
     map EvConsole (sectionConsole (dailyNoteSectionMarker w) content
                      (map (deref (host w)) todos))).
Proof.
  unfold runUpdateReminderSection, bind, getWorld, ret.
  rewrite consoleAll_run. rewrite app_nil_r. reflexivity.
Qed.

(** Both entry points return at once while [isUpdating] is set. *)
Lemma updateDailyNoteWith_guarded (write : TFile -> jsstr -> M unit)
    (quiet : bool) (d : option DateTime) (w : World) :
  isUpdating w = true ->
  updateDailyNoteWith write quiet d w = (Ok tt, w, []).
Proof.
  intros H. unfold updateDailyNoteWith, bind, getWorld, ret.
  rewrite H, orb_true_r. reflexivity.
Qed.

Lemma handleFileModifyWith_guarded
    (render : bool -> option DateTime -> M unit) (f : TFile) (w : World) :
  isUpdating w = true ->
  handleFileModifyWith render f w = (Ok tt, w, []).
Proof.
  intros H. unfold handleFileModifyWith, bind, getWorld, ret.
  rewrite H. reflexivity.
Qed.

(** A write that fires the document-modified event on [handleFileModify]
    is the plain write while [isUpdating] is set. *)
Lemma modifyFiring_guarded (render : bool -> option DateTime -> M unit)
    (f : TFile) (data : jsstr) (w : World) :
  isUpdating w = true ->
  modifyFiring (handleFileModifyWith render) f data w = modify f data w.
Proof.
  intros H. unfold modifyFiring, bind, modify, act.
  destruct (vaultModify f data (host w)) as [[[] | e] h]; [|reflexivity].
  rewrite handleFileModifyWith_guarded by exact H.
  rewrite app_nil_r. reflexivity.
Qed.

(** The [try] block only looks at what [write] does while [isUpdating]
    is set. *)
Lemma tryBlock_write_ext (write1 write2 : TFile -> jsstr -> M unit)
    (quiet : bool) (t : DateTime) (note : TFile) (w : World) :
  (forall f data w', isUpdating w' = true -> write1 f data w' = write2 f data w') ->
  isUpdating w = true ->
  tryBlock write1 quiet t note w = tryBlock write2 quiet t note w.
Proof.
  intros Hext Hw. cbv [tryBlock bind console emit ask].
  destruct (byDate t (host w)) as [todos | e]; [|reflexivity].
  destruct (vaultRead note (host w)) as [content | e]; [|reflexivity].
  rewrite runUpdateReminderSection_run.
  destruct (updateReminderSection _ content _) as [newContent |]; [|reflexivity].
  destruct (negb (str_eqb content newContent)); [|reflexivity].
  rewrite (Hext note newContent w Hw). reflexivity.
Qed.

Lemma updateDailyNoteWith_write_ext (write1 write2 : TFile -> jsstr -> M unit)
    (quiet : bool) (d : option DateTime) (w : World) :
  (forall f data w', isUpdating w' = true -> write1 f data w' = write2 f data w') ->
  updateDailyNoteWith write1 quiet d w = updateDailyNoteWith write2 quiet d w.
Proof.
  intros Hext.
  cbv [updateDailyNoteWith bind getWorld findDailyNote ask ret assignUpdating].
  destruct (negb (autoEmbedTodosInDailyNote w) || isUpdating w); [reflexivity|].
  destruct (getMarkdownFiles (host w)) as [files | e]; [|reflexivity].
  destruct (findDailyNoteIn _ files) as [note |]; [|reflexivity].
  unfold tryCatchFinally.
  rewrite (tryBlock_write_ext write1 write2 quiet _ note
             (setUpdating true w) Hext eq_refl).
  reflexivity.
Qed.


(** The run of [updateDailyNote] once the guard is set: the [try] block,
    the report of a failure, and the guard cleared. *)
Lemma updateDailyNoteWith_run (write : TFile -> jsstr -> M unit)
    (quiet : bool) (d : option DateTime) (w : World) (files : list TFile)
    (note : TFile) :
  autoEmbedTodosInDailyNote w = true ->
  isUpdating w = false ->
  getMarkdownFiles (host w) = Ok files ->
  findDailyNoteIn (toYYYYMMDD (targetDateOf d w)) files = Some note ->
  updateDailyNoteWith write quiet d w
  = match tryBlock write quiet (targetDateOf d w) note (setUpdating true w) with
    | (r, w1, t1) =>
        (Ok tt, setUpdating false w1,
         EvEnumerate :: t1 ++ match r with
                              | Ok _ => []
                              | Err _ => failureReport quiet
                              end)
    end.
Proof.
  intros Ha Hu Hf Hn.
  cbv [updateDailyNoteWith bind getWorld findDailyNote ask ret assignUpdating].
  rewrite Ha, Hu. cbn [negb orb]. cbv beta iota. rewrite Hf. cbv beta iota.
  fold (targetDateOf d w). rewrite Hn.
  unfold tryCatchFinally.
  destruct (tryBlock write quiet (targetDateOf d w) note (setUpdating true w))
    as [[[[] | e] w1] t1].
  - cbn. rewrite app_nil_r. reflexivity.
  - cbv [catchBlock bind console emit when notice ret failureReport].
    destruct quiet; cbn; reflexivity.
Qed.

Lemma setUpdating_restore (w : World) :
  isUpdating w = false -> setUpdating false (setUpdating true w) = w.
Proof.
  destruct w as [a m u h]. simpl. intros ->. reflexivity.
Qed.

(** The [try] block up to the section rewrite. *)
Lemma tryBlock_read (write : TFile -> jsstr -> M unit) (quiet : bool)
    (t : DateTime) (note : TFile) (w : World) (todos : list rref)
    (content : jsstr) :
  byDate t (host w) = Ok todos ->
  vaultRead note (host w) = Ok content ->
  tryBlock write quiet t note w
  = match
      match updateReminderSection (dailyNoteSectionMarker w) content
              (map (deref (host w)) todos) with
      | None =>
          when (negb quiet) (notice (MarkersNotFound (dailyNoteSectionMarker w))) w
      | Some newContent =>
          (if negb (str_eqb content newContent) then
             console Info ;;;
             write note newContent ;;;
             when (negb quiet) (notice (NoteUpdated (toYYYYMMDD t)))
           else when (negb quiet) (notice NoteUpToDate)) w
      end
    with
    | (r, w1, t1) =>
        (r, w1,
         [EvConsole Info; EvByDate t; EvConsole Info; EvRead note]
           ++ map EvConsole (sectionConsole (dailyNoteSectionMarker w) content
                               (map (deref (host w)) todos))
           ++ t1)
    end.
Proof.
  intros Hb Hr. cbv [tryBlock bind console emit ask].
  rewrite Hb, Hr. rewrite runUpdateReminderSection_run.
  destruct (updateReminderSection _ content _) as [newContent |].
  - destruct (_ : M unit) as [[r w1] t1]. reflexivity.
  - cbv [getWorld]. destruct (when _ _ w) as [[r w1] t1]. reflexivity.
Qed.

(** C7: while [isUpdating] is set, [updateDailyNote] and
    [handleFileModify] return at once, with no event and the world as it
    was; and a document-modified event that the manager's own write fires
    on [handleFileModify] changes nothing in the run of
    [updateDailyNote]. *)
Theorem guard_drops_reentrant_calls :
  (forall (w : World) (quiet : bool) (d : option DateTime) (f : TFile),
      isUpdating w = true ->
      updateDailyNote quiet d w = (Ok tt, w, [])
      /\ handleFileModify f w = (Ok tt, w, []))
  /\ (forall (render : bool -> option DateTime -> M unit) (quiet : bool)
             (d : option DateTime) (w : World),
         updateDailyNoteWith (modifyFiring (handleFileModifyWith render))
                             quiet d w
         = updateDailyNote quiet d w).
Proof.
  split.
  - intros w quiet d f H. split.
    + apply updateDailyNoteWith_guarded. exact H.
    + apply handleFileModifyWith_guarded. exact H.
  - intros render quiet d w. apply updateDailyNoteWith_write_ext.
    intros f data w' H. apply modifyFiring_guarded. exact H.
Qed.

(** C8, amended: when the enumeration of the documents succeeds,
    [updateDailyNote] returns normally whatever the reminder lookup, the
    read and the write do; the guard is clear when it returns; a failure
    inside the [try] block is followed by the console error and, unless
    [quiet], the failure notice, and by nothing else.  A failure of the
    enumeration, which runs before the guard is set and outside the [try]
    block, reaches the caller. *)
Theorem updateDailyNote_contains_failures (write : TFile -> jsstr -> M unit)
    (quiet : bool) (d : option DateTime) (w : World) :
  (forall files,
      getMarkdownFiles (host w) = Ok files ->
      resultOf (updateDailyNoteWith write quiet d) w = Ok tt
      /\ (isUpdating w = false ->
          isUpdating (worldOf (updateDailyNoteWith write quiet d) w) = false)
      /\ (forall note e,
             autoEmbedTodosInDailyNote w = true ->
             isUpdating w = false ->
             findDailyNoteIn (toYYYYMMDD (targetDateOf d w)) files = Some note ->
             resultOf (tryBlock write quiet (targetDateOf d w) note)
                      (setUpdating true w) = Err e ->
             traceOf (updateDailyNoteWith write quiet d) w
             = EvEnumerate
                 :: traceOf (tryBlock write quiet (targetDateOf d w) note)
                            (setUpdating true w)
                 ++ failureReport quiet))
  /\ (forall e,
         autoEmbedTodosInDailyNote w = true ->
         isUpdating w = false ->
         getMarkdownFiles (host w) = Err e ->
         updateDailyNoteWith write quiet d w = (Err e, w, [EvEnumerate])).
Proof.
  split.
  - intros files Hf. unfold resultOf, worldOf, traceOf.
    destruct (autoEmbedTodosInDailyNote w) eqn:Ha;
      [destruct (isUpdating w) eqn:Hu|].
    + rewrite (updateDailyNoteWith_guarded write quiet d w Hu).
      repeat split; try reflexivity; intros; congruence.
    + destruct (findDailyNoteIn (toYYYYMMDD (targetDateOf d w)) files)
        as [note |] eqn:Hn.
      * rewrite (updateDailyNoteWith_run write quiet d w files note Ha Hu Hf Hn).
        destruct (tryBlock write quiet (targetDateOf d w) note
                    (setUpdating true w)) as [[r w1] t1] eqn:Et.
        split; [reflexivity|]. split; [reflexivity|].
        intros note' e _ _ Hn' Hr. inversion Hn'; subst note'.
        rewrite Et in *. cbn in Hr |- *. subst r. reflexivity.
      * assert (E : updateDailyNoteWith write quiet d w
                    = (Ok tt, w,
                       EvEnumerate ::
                       if quiet then []
                       else [EvNotice (NoteNotFound
                                         (toYYYYMMDD (targetDateOf d w)))])).
        { cbv [updateDailyNoteWith bind getWorld findDailyNote ask ret].
          rewrite Ha, Hu. cbn [negb orb]. cbv beta iota. rewrite Hf.
          cbv beta iota. fold (targetDateOf d w). rewrite Hn.
          destruct quiet; reflexivity. }
        rewrite E. cbn.
        split; [reflexivity|]. split; [intros; assumption|].
        intros note e _ _ Hn'. discriminate Hn'.
    + assert (E : updateDailyNoteWith write quiet d w = (Ok tt, w, [])).
      { cbv [updateDailyNoteWith bind getWorld ret]. rewrite Ha. reflexivity. }
      rewrite E. cbn.
      split; [reflexivity|]. split; [intros; assumption|].
      intros note e Ha'. discriminate Ha'.
  - intros e Ha Hu Hf.
    cbv [updateDailyNoteWith bind getWorld findDailyNote ask ret].
    rewrite Ha, Hu. cbn [negb orb]. cbv beta iota. rewrite Hf. reflexivity.
Qed.


(** C4: when the text of the daily note lacks the start marker or the end
    marker, [updateReminderSection] returns null, and [updateDailyNote]
    ends after the console warning, with the markers-not-found notice
    unless [quiet]: no write is made and the host is as it was. *)
Theorem missing_markers_leave_document (marker content : jsstr) :
  ~ contains content (startMarkerOf marker)
  \/ ~ contains content (endMarkerOf marker) ->
  (forall rs, updateReminderSection marker content rs = None)
  /\ (forall (quiet : bool) (d : option DateTime) (w : World)
             (files : list TFile) (note : TFile) (todos : list rref),
         autoEmbedTodosInDailyNote w = true ->
         isUpdating w = false ->
         dailyNoteSectionMarker w = marker ->
         getMarkdownFiles (host w) = Ok files ->
         findDailyNoteIn (toYYYYMMDD (targetDateOf d w)) files = Some note ->
         byDate (targetDateOf d w) (host w) = Ok todos ->
         vaultRead note (host w) = Ok content ->
         updateDailyNote quiet d w
         = (Ok tt, w,
            readEvents (targetDateOf d w) note
              ++ [EvConsole Info; EvConsole Warn]
              ++ (if quiet then []
                  else [EvNotice (MarkersNotFound marker)]))).
Proof.
  intros Hmiss. split.
  - intros rs. apply Section_.updateReminderSection_missing. exact Hmiss.
  - intros quiet d w files note todos Ha Hu Hm Hf Hn Hb Hr.
    unfold updateDailyNote.
    rewrite (updateDailyNoteWith_run modify quiet d w files note Ha Hu Hf Hn).
    rewrite (tryBlock_read modify quiet (targetDateOf d w) note
               (setUpdating true w) todos content Hb Hr).
    cbn [dailyNoteSectionMarker setUpdating host]. rewrite Hm.
    rewrite (Section_.updateReminderSection_missing _ Hmiss).
    unfold sectionConsole. rewrite (Section_.markers_missing_test Hmiss).
    fold (setUpdating true w).
    destruct quiet; cbn; rewrite (setUpdating_restore w Hu); reflexivity.
Qed.

(** C3, amended: when the start marker is found before the end marker and
    the end marker does not occur in the new section before its closing
    end marker, a second [updateReminderSection] with the same reminders
    returns the text of the first; [updateDailyNote] on a note that holds
    that text makes no write and ends with the up-to-date notice unless
    [quiet]. *)
Theorem render_twice_is_render_once (marker content : jsstr)
    (rs : list Reminder) (s e : nat) :
  indexOf content (startMarkerOf marker) = Z.of_nat s ->
  indexOf content (endMarkerOf marker) = Z.of_nat e ->
  (s < e)%nat ->
  indexOf (newSection marker rs) (endMarkerOf marker)
  = Z.of_nat (closingAt marker rs) ->
  exists once,
    updateReminderSection marker content rs = Some once
    /\ updateReminderSection marker once rs = Some once
    /\ (forall (quiet : bool) (d : option DateTime) (w : World)
               (files : list TFile) (note : TFile) (todos : list rref),
           autoEmbedTodosInDailyNote w = true ->
           isUpdating w = false ->
           dailyNoteSectionMarker w = marker ->
           getMarkdownFiles (host w) = Ok files ->
           findDailyNoteIn (toYYYYMMDD (targetDateOf d w)) files = Some note ->
           byDate (targetDateOf d w) (host w) = Ok todos ->
           map (deref (host w)) todos = rs ->
           vaultRead note (host w) = Ok once ->
           updateDailyNote quiet d w
           = (Ok tt, w,
              readEvents (targetDateOf d w) note
                ++ EvConsole Info :: map (fun _ => EvConsole Info) rs
                ++ (if quiet then [] else [EvNotice NoteUpToDate]))).
Proof.
  intros Hs He Hlt Hc.
  destruct (@Section_.updateReminderSection_stable marker content rs s e Hs He Hlt Hc)
    as (once & H1 & H2).
  exists once. split; [exact H1|]. split; [exact H2|].
  intros quiet d w files note todos Ha Hu Hm Hf Hn Hb Hd Hr.
  unfold updateDailyNote.
  rewrite (updateDailyNoteWith_run modify quiet d w files note Ha Hu Hf Hn).
  rewrite (tryBlock_read modify quiet (targetDateOf d w) note
             (setUpdating true w) todos once Hb Hr).
  cbn [dailyNoteSectionMarker setUpdating host]. rewrite Hm, Hd, H2.
  rewrite StrFacts.str_eqb_refl. cbn [negb].
  assert (Hfound : (indexOf once (startMarkerOf marker) =? -1)
                   || (indexOf once (endMarkerOf marker) =? -1) = false).
  { unfold updateReminderSection in H2.
    destruct ((indexOf once (startMarkerOf marker) =? -1)
              || (indexOf once (endMarkerOf marker) =? -1));
      [discriminate H2 | reflexivity]. }
  unfold sectionConsole. rewrite Hfound.
  fold (setUpdating true w).
  cbn [map]. rewrite map_map.
  destruct quiet; cbn; rewrite (setUpdating_restore w Hu);
    rewrite ?app_nil_r; reflexivity.
Qed.


(** *** Inbound reconciliation *)

Lemma find_firstWith {A : Type} (p : A -> bool) (P : A -> Prop)
    (l : list A) (x : A) :
  (forall y, p y = true <-> P y) ->
  (find p l = Some x <-> firstWith P l x).
Proof.
  intros Hp. induction l as [|y l IH]; simpl.
  - split; [discriminate|]. intros (l1 & l2 & E & _). destruct l1; discriminate.
  - destruct (p y) eqn:Epy.
    + split.
      * intros E. inversion E; subst. exists [], l.
        split; [reflexivity|]. split; [apply Hp; exact Epy|]. intros z [].
      * intros (l1 & l2 & E & HP & Hno). destruct l1 as [|z l1].
        -- inversion E. reflexivity.
        -- inversion E; subst. exfalso. apply (Hno z); [left; reflexivity|].
           apply Hp. exact Epy.
    + rewrite IH. split.
      * intros (l1 & l2 & E & HP & Hno). exists (y :: l1), l2.
        split; [rewrite E; reflexivity|]. split; [exact HP|].
        intros z [<- | Hz]; [|exact (Hno z Hz)].
        intros Hy. apply Hp in Hy. congruence.
      * intros (l1 & l2 & E & HP & Hno). destruct l1 as [|z l1].
        -- inversion E; subst. apply Hp in HP. congruence.
        -- inversion E; subst. exists l1, l2.
           split; [reflexivity|]. split; [exact HP|].
           intros z' Hz'. apply Hno. right. exact Hz'.
Qed.

(** One turn of the loop, case by case. *)
Lemma syncLine_run (todos : list rref) (line : jsstr) (changed : bool)
    (w : World) :
  syncLine todos line changed w
  = match todoParse (trim line) with
    | None => (Ok changed, w, [])
    | Some todo =>
        match matchingReminder w todos todo with
        | None => (Ok changed, w, [])
        | Some r =>
            if Bool.eqb (done (deref (host w) r)) (isChecked todo)
            then (Ok changed, w, [])
            else
              match updateReminder r (isChecked todo) (host w) with
              | (Ok _, h) =>
                  (Ok true, setHost h w,
                   [EvConsole Debug; EvUpdateReminder r (isChecked todo)])
              | (Err e, h) =>
                  (Err e, setHost h w,
                   [EvConsole Debug; EvUpdateReminder r (isChecked todo)])
              end
        end
    end.
Proof.
  unfold syncLine, matchingReminder.
  destruct (todoParse (trim line)) as [todo |]; [|reflexivity].
  cbv [bind getWorld].
  destruct (find _ todos) as [r |]; [|reflexivity].
  destruct (Bool.eqb (done (deref (host w) r)) (isChecked todo));
    [reflexivity|].
  cbv [negb console emit act ret].
  destruct (updateReminder r (isChecked todo) (host w)) as [[[] | e] h];
    reflexivity.
Qed.

(** A run of the loop without a call of the update callback leaves
    [changed] and the world alone and has no event; a run with such a call
    ends with [changed] set, or with the exception of the callback. *)
Lemma syncLines_changed (todos : list rref) (lines : list jsstr) :
  forall (changed : bool) (w : World),
    (existsb isUpdateCall (traceOf (syncLines todos lines changed) w) = false
     /\ syncLines todos lines changed w = (Ok changed, w, []))
    \/ (existsb isUpdateCall (traceOf (syncLines todos lines changed) w) = true
        /\ (resultOf (syncLines todos lines changed) w = Ok true
            \/ exists e, resultOf (syncLines todos lines changed) w = Err e)).
Proof.
  induction lines as [|line rest IH]; intros changed w.
  - left. split; reflexivity.
  - unfold traceOf, resultOf in *. simpl. unfold bind.
    rewrite syncLine_run.
    destruct (todoParse (trim line)) as [todo |].
    2:{ destruct (IH changed w) as [[H1 H2] | [H1 H2]].
        - left. rewrite H2. split; reflexivity.
        - right. destruct (syncLines todos rest changed w) as [[r w'] t].
          simpl in *. split; assumption. }
    destruct (matchingReminder w todos todo) as [r |].
    2:{ destruct (IH changed w) as [[H1 H2] | [H1 H2]].
        - left. rewrite H2. split; reflexivity.
        - right. destruct (syncLines todos rest changed w) as [[r w'] t].
          simpl in *. split; assumption. }
    destruct (Bool.eqb (done (deref (host w) r)) (isChecked todo)).
    { destruct (IH changed w) as [[H1 H2] | [H1 H2]].
      - left. rewrite H2. split; reflexivity.
      - right. destruct (syncLines todos rest changed w) as [[r' w'] t].
        simpl in *. split; assumption. }
    right.
    destruct (updateReminder r (isChecked todo) (host w)) as [[[] | e] h].
    + destruct (IH true (setHost h w)) as [[H1 H2] | [H1 H2]].
      * rewrite H2. simpl. split; [reflexivity | left; reflexivity].
      * destruct (syncLines todos rest true (setHost h w)) as [[r' w'] t].
        simpl in *. split; [reflexivity | exact H2].
    + simpl. split; [reflexivity | right; exists e; reflexivity].
Qed.


(** The run of [handleFileModify] on a daily note that holds both
    markers. *)
Lemma handleFileModifyWith_run (render : bool -> option DateTime -> M unit)
    (f : TFile) (w : World) (fileDate : DateTime) (content : jsstr)
    (todos : list rref) :
  isUpdating w = false ->
  autoEmbedTodosInDailyNote w = true ->
  getDailyNoteDate f = Some fileDate ->
  vaultRead f (host w) = Ok content ->
  contains content (startMarkerOf (dailyNoteSectionMarker w)) ->
  contains content (endMarkerOf (dailyNoteSectionMarker w)) ->
  byDate fileDate (host w) = Ok todos ->
  handleFileModifyWith render f w
  = match syncLines todos (sectionLines (dailyNoteSectionMarker w) content)
                    false w with
    | (Ok changed, w1, t1) =>
        if negb changed then
          match render true (Some fileDate) w1 with
          | (r, w2, t2) =>
              (r, w2, [EvConsole Debug; EvRead f; EvByDate fileDate] ++ t1 ++ t2)
          end
        else (Ok tt, w1, [EvConsole Debug; EvRead f; EvByDate fileDate] ++ t1)
    | (Err e, w1, t1) =>
        (Err e, w1, [EvConsole Debug; EvRead f; EvByDate fileDate] ++ t1)
    end.
Proof.
  intros Hu Ha Hd Hr Hs He Hb.
  cbv [handleFileModifyWith bind getWorld console emit ask].
  rewrite Hu, Ha. cbn [negb orb]. cbv beta iota. rewrite Hd. cbv beta iota.
  rewrite Hr. cbv beta iota.
  rewrite (Section_.markers_present_test Hs He). cbv beta iota.
  rewrite Hb. cbv beta iota.
  fold (sectionLines (dailyNoteSectionMarker w) content).
  destruct (syncLines todos (sectionLines (dailyNoteSectionMarker w) content)
              false w) as [[[changed | e] w1] t1]; [|reflexivity].
  destruct changed; cbn [negb].
  - cbv [ret]. rewrite app_nil_r. reflexivity.
  - destruct (render true (Some fileDate) w1) as [[r w2] t2]. reflexivity.
Qed.

(** C6: on a daily note that holds both markers, when the walk through
    the section's lines calls the update callback for no line,
    [handleFileModify] goes on with [updateDailyNote(true, fileDate)], and
    with nothing else; when the walk calls it for some line, the run ends
    with the walk, whatever the method that [render] stands for would
    do.  [handleFileModify] is [handleFileModifyWith updateDailyNote]. *)
Theorem heal_only_when_nothing_synced
    (render : bool -> option DateTime -> M unit) (f : TFile) (w : World)
    (fileDate : DateTime) (content : jsstr) (todos : list rref) :
  isUpdating w = false ->
  autoEmbedTodosInDailyNote w = true ->
  getDailyNoteDate f = Some fileDate ->
  vaultRead f (host w) = Ok content ->
  contains content (startMarkerOf (dailyNoteSectionMarker w)) ->
  contains content (endMarkerOf (dailyNoteSectionMarker w)) ->
  byDate fileDate (host w) = Ok todos ->
  let walk :=
    syncLines todos (sectionLines (dailyNoteSectionMarker w) content) false in
  (existsb isUpdateCall (traceOf walk w) = false ->
   handleFileModifyWith render f w
   = match render true (Some fileDate) w with
     | (r, w2, t2) =>
         (r, w2, [EvConsole Debug; EvRead f; EvByDate fileDate] ++ t2)
     end)
  /\ (existsb isUpdateCall (traceOf walk w) = true ->
      handleFileModifyWith render f w
      = (match resultOf walk w with
         | Ok _ => Ok tt
         | Err e => Err e
         end,
         worldOf walk w,
         [EvConsole Debug; EvRead f; EvByDate fileDate] ++ traceOf walk w)).
Proof.
  intros Hu Ha Hd Hr Hs He Hb walk.
  rewrite (handleFileModifyWith_run render f w fileDate content todos
             Hu Ha Hd Hr Hs He Hb).
  fold walk.
  destruct (syncLines_changed todos
              (sectionLines (dailyNoteSectionMarker w) content) false w)
    as [[Hq Hrun] | [Hc Hres]]; fold walk in Hq, Hrun || fold walk in Hc, Hres.
  - split; [|intros Habs; congruence].
    intros _. rewrite Hrun. cbn [negb].
    destruct (render true (Some fileDate) w) as [[r w2] t2]. reflexivity.
  - split; [intros Habs; congruence|].
    intros _. unfold resultOf, worldOf, traceOf in *.
    destruct (walk w) as [[r w1] t1]. cbn in *.
    destruct Hres as [-> | [e ->]]; reflexivity.
Qed.


Lemma lazyKey_Some (s acc k : jsstr) :
  lazyKey s acc = Some k ->
  exists inner post, k = rev acc ++ inner /\ s = inner ++ keyClose ++ post.
Proof.
  revert acc. induction s as [|c s IH]; intros acc; cbn [lazyKey].
  - destruct (startsWith [] keyClose) eqn:Es; [|discriminate].
    vm_compute in Es. discriminate Es.
  - destruct (startsWith (c :: s) keyClose) eqn:Es.
    + intros E. inversion E; subst.
      apply StrFacts.startsWith_iff in Es. destruct Es as [post Es].
      exists [], post. split; [rewrite app_nil_r; reflexivity | exact Es].
    + destruct (isLineTerminator c); [discriminate|].
      intros E. destruct (IH _ E) as (inner & post & -> & ->).
      exists (c :: inner), post. split; [|reflexivity].
      simpl. rewrite <- app_assoc. reflexivity.
Qed.

(** A key found by the regular expression sits in a key comment of the
    text. *)
Lemma matchReminderKey_Some (s k : jsstr) :
  matchReminderKey s = Some k ->
  exists pre post, s = pre ++ keyOpen ++ k ++ keyClose ++ post.
Proof.
  assert (Hhead : forall t, keyAtHead t = Some k ->
                            exists post, t = keyOpen ++ k ++ keyClose ++ post).
  { intros t. unfold keyAtHead.
    destruct (startsWith t keyOpen) eqn:Es; [|discriminate].
    apply StrFacts.startsWith_iff in Es. destruct Es as [r ->].
    rewrite StrFacts.skipn_exact. intros E.
    destruct (lazyKey_Some _ _ _ E) as (inner & post & -> & ->).
    exists post. reflexivity. }
  induction s as [|c s IH]; cbn [matchReminderKey].
  - destruct (keyAtHead []) eqn:E; [|discriminate].
    intros E'. inversion E'; subst. destruct (Hhead _ E) as [post Ep].
    exists [], post. exact Ep.
  - destruct (keyAtHead (c :: s)) eqn:E.
    + intros E'. inversion E'; subst. destruct (Hhead _ E) as [post Ep].
      exists [], post. exact Ep.
    + intros E'. destruct (IH E') as (pre & post & ->).
      exists (c :: pre), post. reflexivity.
Qed.

(** A walk in which every matched reminder already agrees with its line
    calls the update callback for none. *)
Lemma syncLines_settled (todos : list rref) (lines : list jsstr)
    (changed : bool) (w : World) :
  (forall line todo r,
      In line lines ->
      todoParse (trim line) = Some todo ->
      matchingReminder w todos todo = Some r ->
      done (deref (host w) r) = isChecked todo) ->
  syncLines todos lines changed w = (Ok changed, w, []).
Proof.
  induction lines as [|line rest IH]; intros Hall; [reflexivity|].
  simpl. unfold bind. rewrite syncLine_run.
  assert (Hrest : syncLines todos rest changed w = (Ok changed, w, [])).
  { apply IH. intros l t r Hl. apply Hall. right. exact Hl. }
  destruct (todoParse (trim line)) as [todo |] eqn:Ep;
    [|rewrite Hrest; reflexivity].
  destruct (matchingReminder w todos todo) as [r |] eqn:Em;
    [|rewrite Hrest; reflexivity].
  rewrite (Hall line todo r (or_introl eq_refl) Ep Em).
  rewrite Bool.eqb_reflx. rewrite Hrest. reflexivity.
Qed.

(** One line of the walk: a key found by the key
    comment sits in the line body; when that key is not empty the matching
    reminder is the first one of the collection with that key; when there
    is no key comment, or its key is empty, it is the first one whose
    title is a prefix of the line body; the update callback is called
    for the line exactly when there is a matching reminder whose [done]
    differs from the line's checked state, once, with the checked state;
    and a walk over lines whose matching reminders all agree with their
    lines calls it for none. *)
Theorem reconcile_line (todos : list rref) (line : jsstr) (changed : bool)
    (w : World) (todo : Todo) :
  todoParse (trim line) = Some todo ->
  (forall k, matchReminderKey (body todo) = Some k ->
             exists pre post,
               body todo = pre ++ lit "<!-- reminder-key: " ++ k
                             ++ lit " -->" ++ post)
  /\ (forall c k r,
         matchReminderKey (body todo) = Some (c :: k) ->
         (matchingReminder w todos todo = Some r
          <-> firstWith (fun x => key (deref (host w) x) = c :: k) todos r))
  /\ (forall r,
         matchReminderKey (body todo) = None
         \/ matchReminderKey (body todo) = Some [] ->
         (matchingReminder w todos todo = Some r
          <-> firstWith (fun x => exists rest,
                             body todo = title (deref (host w) x) ++ rest)
                        todos r))
  /\ filter isUpdateCall (traceOf (syncLine todos line changed) w)
     = match matchingReminder w todos todo with
       | Some r =>
           if Bool.eqb (done (deref (host w) r)) (isChecked todo) then []
           else [EvUpdateReminder r (isChecked todo)]
       | None => []
       end
  /\ (forall lines,
         (forall line' todo' r,
             In line' lines ->
             todoParse (trim line') = Some todo' ->
             matchingReminder w todos todo' = Some r ->
             done (deref (host w) r) = isChecked todo') ->
         syncLines todos lines changed w = (Ok changed, w, [])).
Proof.
  intros Hp. split; [|split; [|split; [|split]]].
  - intros k Hk. exact (matchReminderKey_Some _ _ Hk).
  - intros c k r Hk. unfold matchingReminder. apply find_firstWith.
    intros y. rewrite Hk. simpl. apply StrFacts.str_eqb_eq.
  - intros r Hk. unfold matchingReminder. apply find_firstWith.
    intros y.
    assert (E : matchesTodo (matchReminderKey (body todo)) (body todo)
                  (deref (host w) y)
                = startsWith (body todo) (title (deref (host w) y)))
      by (destruct Hk as [-> | ->]; reflexivity).
    rewrite E. apply StrFacts.startsWith_iff.
  - unfold traceOf. rewrite syncLine_run, Hp.
    destruct (matchingReminder w todos todo) as [r |]; [|reflexivity].
    destruct (Bool.eqb (done (deref (host w) r)) (isChecked todo));
      [reflexivity|].
    destruct (updateReminder r (isChecked todo) (host w)) as [[[] | e] h];
      reflexivity.
  - intros lines Hall. apply syncLines_settled. exact Hall.
Qed.

End Runs.

End Engine.

(** ** The statements on the sample data *)

Module Checks.

Import Mem Sample.

Lemma present (content p : jsstr) : includes content p = true -> contains content p.
Proof. apply StrFacts.includes_contains. Qed.

Lemma absent (content p : jsstr) : includes content p = false -> ~ contains content p.
Proof.
  intros H Hc. apply StrFacts.includes_contains in Hc. congruence.
Qed.

(** A line whose key comment holds the empty key is matched by title, to
    a reminder with another key. *)
Lemma empty_key_matches_by_title :
  ~ (forall (w : World) (todos : list rref) (line : jsstr) (todo : Todo)
            (k : jsstr) (r : rref),
        todoParse (trim line) = Some todo ->
        matchReminderKey (body todo) = Some k ->
        matchingReminder w todos todo = Some r ->
        key (deref (host w) r) = k).
Proof.
  intros H.
  specialize (H (world "todos" false (vaultWith tickedText)) [0%nat]
                emptyKeyLine (mkTodo (lit "Buy milk <!-- reminder-key:  -->") true)
                [] 0%nat eq_refl eq_refl eq_refl).
  vm_compute in H. discriminate H.
Qed.

(** On that line [handleFileModify] calls the update callback. *)
Example empty_key_line_is_synced :
  filter isUpdateCall
    (traceOf (syncLine [0%nat] emptyKeyLine false)
             (world "todos" false (vaultWith tickedText)))
  = [EvUpdateReminder 0%nat true].
Proof. reflexivity. Qed.

(** C8, as the specification words it, fails: an exception of the
    enumeration of the documents leaves [updateDailyNote]. *)
Lemma enumeration_failure_propagates :
  ~ (forall (C : Collaborators) (quiet : bool) (d : option DateTime)
            (w : World),
        resultOf (updateDailyNote quiet d) w = Ok tt).
Proof.
  intros H.
  specialize (H collaborators true None (world "todos" false brokenVault)).
  vm_compute in H. discriminate H.
Qed.

Lemma findDailyNote_exact_then_loose_witness :
  exists f,
    findDailyNoteIn day [note "old-2024-01-05-backup" 900; note "2024-01-05" 100]
    = Some f
    /\ In f [note "old-2024-01-05-backup" 900; note "2024-01-05" 100]
    /\ basename f = day.
Proof.
  apply (proj1 (Locate.findDailyNote_exact_then_loose day
                  [note "old-2024-01-05-backup" 900; note "2024-01-05" 100])).
  exists (note "2024-01-05" 100). split; [right; left; reflexivity | reflexivity].
Defined.

Lemma updateReminderSection_replaces_region_witness :
  exists pre region post,
    tickedText = pre ++ region ++ post
    /\ length pre = 9%nat
    /\ length (pre ++ region) = (102 + length (endMarkerOf (lit "todos")))%nat
    /\ (exists tail, region = startMarkerOf (lit "todos") ++ tail)
    /\ (exists head, region = head ++ endMarkerOf (lit "todos"))
    /\ updateReminderSection (lit "todos") tickedText [buyMilk]
       = Some (pre ++ startMarkerOf (lit "todos") ++ NL
                 ++ reminderLines [buyMilk] ++ NL
                 ++ endMarkerOf (lit "todos") ++ post).
Proof.
  apply (@Section_.updateReminderSection_replaces_region
           (lit "todos") tickedText [buyMilk] 9%nat 102%nat).
  - reflexivity.
  - reflexivity.
  - lia.
Defined.

Lemma updateReminderSection_reversed_markers_witness :
  exists A B rest,
    lit "A<!-- end of todos -->B<!-- start of todos -->C"
    = A ++ endMarkerOf (lit "todos") ++ B ++ startMarkerOf (lit "todos") ++ rest
    /\ length A = 1%nat
    /\ length (A ++ endMarkerOf (lit "todos") ++ B) = 23%nat
    /\ updateReminderSection (lit "todos")
         (lit "A<!-- end of todos -->B<!-- start of todos -->C") [buyMilk]
       = Some (A ++ endMarkerOf (lit "todos") ++ B
                 ++ newSection (lit "todos") [buyMilk]
                 ++ B ++ startMarkerOf (lit "todos") ++ rest).
Proof.
  apply (@Section_.updateReminderSection_reversed_markers
           (lit "todos")
           (lit "A<!-- end of todos -->B<!-- start of todos -->C")
           [buyMilk] 23%nat 1%nat).
  - reflexivity.
  - reflexivity.
  - vm_compute. lia.
Defined.

Lemma render_twice_is_render_once_witness :
  exists once,
    updateReminderSection (lit "todos") tickedText [buyMilk] = Some once
    /\ updateReminderSection (lit "todos") once [buyMilk] = Some once.
Proof.
  destruct (@Engine.render_twice_is_render_once collaborators
              (lit "todos") tickedText [buyMilk] 9%nat 102%nat)
    as (once & H1 & H2 & _).
  - reflexivity.
  - reflexivity.
  - lia.
  - reflexivity.
  - exists once. split; assumption.
Defined.

Lemma missing_markers_leave_document_witness :
  (forall rs, updateReminderSection (lit "todos") unmarkedText rs = None)
  /\ updateDailyNote false None (world "todos" false (vaultWith unmarkedText))
     = (Ok tt, world "todos" false (vaultWith unmarkedText),
        readEvents day daily
          ++ [EvConsole Info; EvConsole Warn]
          ++ [EvNotice (MarkersNotFound (lit "todos"))]).
Proof.
  destruct (@Engine.missing_markers_leave_document collaborators
              (lit "todos") unmarkedText) as [H1 H2].
  - right. apply absent. reflexivity.
  - split; [exact H1|].
    apply (H2 false None (world "todos" false (vaultWith unmarkedText))
              [daily] daily [0%nat]); reflexivity.
Defined.

Lemma reconcile_line_witness :
  filter isUpdateCall
    (traceOf (syncLine [0%nat] tickedLine false)
             (world "todos" false (vaultWith tickedText)))
  = [EvUpdateReminder 0%nat true].
Proof.
  destruct (@Engine.reconcile_line collaborators [0%nat] tickedLine false
              (world "todos" false (vaultWith tickedText))
              (mkTodo (lit "Buy milk [[groceries.md|source]] <!-- reminder-key: abc123 -->")
                      true)
              eq_refl) as (_ & _ & _ & H & _).
  rewrite H. reflexivity.
Defined.

Lemma heal_only_when_nothing_synced_witness :
  handleFileModify daily (world "todos" false (vaultWith untickedText))
  = match updateDailyNote true (Some day)
            (world "todos" false (vaultWith untickedText)) with
    | (r, w2, t2) =>
        (r, w2, [EvConsole Debug; EvRead daily; EvByDate day] ++ t2)
    end.
Proof.
  apply (proj1 (@Engine.heal_only_when_nothing_synced collaborators
                  updateDailyNote daily
                  (world "todos" false (vaultWith untickedText))
                  day untickedText [0%nat]
                  eq_refl eq_refl eq_refl eq_refl
                  (present untickedText (startMarkerOf (lit "todos")) eq_refl)
                  (present untickedText (endMarkerOf (lit "todos")) eq_refl)
                  eq_refl)).
  reflexivity.
Defined.

Lemma guard_drops_reentrant_calls_witness :
  updateDailyNote false None (world "todos" true (vaultWith tickedText))
  = (Ok tt, world "todos" true (vaultWith tickedText), [])
  /\ handleFileModify daily (world "todos" true (vaultWith tickedText))
     = (Ok tt, world "todos" true (vaultWith tickedText), []).
Proof.
  apply (proj1 (@Engine.guard_drops_reentrant_calls collaborators)).
  reflexivity.
Defined.

Lemma updateDailyNote_contains_failures_witness :
  resultOf (updateDailyNote false None) (world "todos" false readOnlyVault)
  = Ok tt
  /\ isUpdating (worldOf (updateDailyNote false None)
                         (world "todos" false readOnlyVault)) = false
  /\ traceOf (updateDailyNote false None) (world "todos" false readOnlyVault)
     = EvEnumerate
         :: traceOf (tryBlock modify false day daily)
                    (setUpdating true (world "todos" false readOnlyVault))
         ++ failureReport false.
Proof.
  destruct (proj1 (@Engine.updateDailyNote_contains_failures collaborators
                     modify false None (world "todos" false readOnlyVault))
                  [daily] eq_refl) as (H1 & H2 & H3).
  split; [exact H1|]. split; [apply H2; reflexivity|].
  apply (H3 daily "EROFS"%js); reflexivity.
Defined.

(** The reconciliation scenario of the specification: the ticked line of
    a reminder that is not done calls the update callback once, with
    [true]; run again on the world this leaves, [handleFileModify] calls
    it no more. *)
Example reconciliation_settles :
  filter isUpdateCall
    (traceOf (handleFileModify daily)
             (world "todos" false (vaultWith tickedText)))
  = [EvUpdateReminder 0%nat true]
  /\ filter isUpdateCall
       (traceOf (handleFileModify daily)
                (worldOf (handleFileModify daily)
                         (world "todos" false (vaultWith tickedText))))
     = [].
Proof. split; reflexivity. Qed.

(** A second outbound pass over an unchanged reminder set writes
    nothing. *)
Example second_pass_writes_nothing :
  filter isModify
    (traceOf (updateDailyNote false None)
             (world "todos" false (vaultWith tickedText)))
  = [EvModify daily untickedText]
  /\ filter isModify
       (traceOf (updateDailyNote false None)
                (worldOf (updateDailyNote false None)
                         (world "todos" false (vaultWith tickedText))))
     = [].
Proof. split; reflexivity. Qed.

(** The round trip of the specification: the rendered line of a reminder
    parses back to its checked state and its key. *)
Example rendered_line_round_trip :
  option_map (fun t => (isChecked t, matchReminderKey (body t)))
             (parseTodo (trim (renderLine buyMilk)))
  = Some (false, Some (lit "abc123")).
Proof. reflexivity. Qed.

(** The fallback scenario of the specification: of two loose matches the
    newer one is selected. *)
Example fallback_picks_newer :
  findDailyNoteIn day
    [note "notes-2024-01-05-a" 200; note "notes-2024-01-05-b" 100]
  = Some (note "notes-2024-01-05-a" 200).
Proof. reflexivity. Qed.

End Checks.

(** * Further properties of the manager *)

(** ** Recognising a daily note *)

Module DateOf.

Lemma dateAtHead_ten (d post : jsstr) :
  length d = 10%nat -> dateAtHead (d ++ post) = dateAtHead d.
Proof.
  intros L.
  do 10 (destruct d as [|? d]; [discriminate L|]).
  destruct d; [reflexivity | discriminate L].
Qed.

Lemma dateAtHead_firstn (s : jsstr) :
  dateAtHead s = true ->
  length (firstn 10 s) = 10%nat /\ dateAtHead (firstn 10 s) = true.
Proof.
  intros H.
  do 10 (destruct s as [|? s]; [discriminate H|]).
  split; [reflexivity | exact H].
Qed.

(** [matchDate] returns the leftmost stretch of the text that has the
    shape of a date. *)
Lemma matchDate_spec (s : jsstr) :
  match matchDate s with
  | Some d =>
      exists pre post,
        s = pre ++ d ++ post /\ length d = 10%nat /\ dateAtHead d = true
        /\ forall n, (n < length pre)%nat -> dateAtHead (skipn n s) = false
  | None => forall n, dateAtHead (skipn n s) = false
  end.
Proof.
  induction s as [|c s IH].
  - simpl. intros n. rewrite skipn_nil. reflexivity.
  - cbn [matchDate]. destruct (dateAtHead (c :: s)) eqn:E.
    + destruct (dateAtHead_firstn _ E) as [L D].
      exists [], (skipn 10 (c :: s)). split; [|split; [|split]].
      * rewrite app_nil_l, firstn_skipn. reflexivity.
      * exact L.
      * exact D.
      * intros n Hn. simpl in Hn. lia.
    + destruct (matchDate s) as [d |].
      * destruct IH as (pre & post & -> & L & D & Hmin).
        exists (c :: pre), post. split; [reflexivity|]. split; [exact L|].
        split; [exact D|]. intros [|n] Hn; [exact E|].
        simpl in Hn. simpl. apply Hmin. lia.
      * intros [|n]; [exact E | simpl; apply IH].
Qed.

Lemma matchDate_leftmost (s pre d post : jsstr) :
  s = pre ++ d ++ post ->
  length d = 10%nat ->
  dateAtHead d = true ->
  (forall n, (n < length pre)%nat -> dateAtHead (skipn n s) = false) ->
  matchDate s = Some d.
Proof.
  intros Es L D Hmin.
  assert (Hat : dateAtHead (skipn (length pre) s) = true).
  { rewrite Es, StrFacts.skipn_exact, dateAtHead_ten by exact L. exact D. }
  pose proof (matchDate_spec s) as H.
  destruct (matchDate s) as [d' |].
  - destruct H as (pre' & post' & Es' & L' & D' & Hmin').
    assert (Hat' : dateAtHead (skipn (length pre') s) = true).
    { rewrite Es', StrFacts.skipn_exact, dateAtHead_ten by exact L'. exact D'. }
    destruct (Nat.lt_trichotomy (length pre) (length pre')) as [Hlt | [Heq | Hlt]].
    + rewrite (Hmin' _ Hlt) in Hat. discriminate Hat.
    + f_equal.
      assert (Hsk : skipn (length pre) s = skipn (length pre') s)
        by (rewrite Heq; reflexivity).
      rewrite Es in Hsk at 1. rewrite Es' in Hsk.
      rewrite !StrFacts.skipn_exact in Hsk.
      apply (f_equal (firstn 10)) in Hsk.
      rewrite <- L in Hsk at 1. rewrite <- L' in Hsk.
      rewrite !StrFacts.firstn_exact in Hsk. symmetry. exact Hsk.
    + rewrite (Hmin _ Hlt) in Hat'. discriminate Hat'.
  - rewrite H in Hat. discriminate Hat.
Qed.

Section WithCollaborators.

Context {C : Collaborators}.

(** X1: [getDailyNoteDate] looks at the leftmost stretch of the file name
    of the shape [dddd-dd-dd] and at no other: its value is what
    [moment] makes of that stretch, null included, and it is null when
    the name has no such stretch. *)
Theorem getDailyNoteDate_leftmost (f : TFile) :
  (forall pre d post,
      name f = pre ++ d ++ post ->
      length d = 10%nat ->
      dateAtHead d = true ->
      (forall n, (n < length pre)%nat -> dateAtHead (skipn n (name f)) = false) ->
      getDailyNoteDate f = momentParse d)
  /\ ((forall n, dateAtHead (skipn n (name f)) = false) ->
      getDailyNoteDate f = None)
  /\ (forall dt,
         getDailyNoteDate f = Some dt ->
         exists pre d post,
           name f = pre ++ d ++ post /\ length d = 10%nat
           /\ dateAtHead d = true /\ momentParse d = Some dt).
Proof.
  split; [|split].
  - intros pre d post En L D Hmin. unfold getDailyNoteDate.
    rewrite (matchDate_leftmost (name f) pre d post En L D Hmin). reflexivity.
  - intros Hnone. unfold getDailyNoteDate.
    pose proof (matchDate_spec (name f)) as H.
    destruct (matchDate (name f)) as [d |]; [|reflexivity].
    destruct H as (pre & post & En & L & D & _).
    specialize (Hnone (length pre)).
    rewrite En, StrFacts.skipn_exact, dateAtHead_ten in Hnone by exact L.
    congruence.
  - intros dt. unfold getDailyNoteDate.
    pose proof (matchDate_spec (name f)) as H.
    destruct (matchDate (name f)) as [d |]; [|discriminate].
    destruct H as (pre & post & En & L & D & _).
    intros Hm. exists pre, d, post. repeat split; assumption.
Qed.

End WithCollaborators.

End DateOf.

(** ** More on locating the daily note *)

Module MoreLocate.

Lemma filter_Permutation {A : Type} (p : A -> bool) (l l' : list A) :
  Permutation l l' -> Permutation (filter p l) (filter p l').
Proof.
  induction 1 as [| x l l' _ IH | x y l | l l' l'' _ IH1 _ IH2]; simpl.
  - constructor.
  - destruct (p x); [constructor|]; exact IH.
  - destruct (p x), (p y); try constructor; apply Permutation_refl.
  - eapply Permutation_trans; eassumption.
Qed.

Lemma matchingFiles_Permutation (dateStr : jsstr) (files files' : list TFile) :
  Permutation files files' ->
  Permutation (matchingFiles dateStr files) (matchingFiles dateStr files').
Proof.
  intros HP. unfold matchingFiles.
  pose proof (filter_Permutation
                (fun f => str_eqb (basename f) dateStr) files files' HP) as He.
  fold (exactMatches dateStr files) in He.
  fold (exactMatches dateStr files') in He.
  rewrite <- (Permutation_length He).
  destruct (length (exactMatches dateStr files) =? 0)%nat; [|exact He].
  apply filter_Permutation. exact HP.
Qed.

(** The file returned is one of the selected stage and none of the stage
    is newer. *)
Lemma findDailyNoteIn_max (dateStr : jsstr) (files : list TFile) (f : TFile) :
  findDailyNoteIn dateStr files = Some f ->
  In f (matchingFiles dateStr files)
  /\ forall g, In g (matchingFiles dateStr files) -> mtime g <= mtime f.
Proof.
  intros E.
  destruct (matchingFiles dateStr files) as [|x rest] eqn:Em.
  - unfold findDailyNoteIn in E. rewrite Em in E. discriminate E.
  - destruct (Locate.findDailyNoteIn_last_max dateStr files)
      as (f' & l1 & l2 & Ef & El & H1 & H2).
    { rewrite Em. discriminate. }
    rewrite Ef in E. inversion E; subst f'. rewrite <- Em, El. split.
    + apply in_or_app. right. left. reflexivity.
    + intros g Hg. apply in_app_or in Hg. destruct Hg as [Hg | [<- | Hg]].
      * exact (H1 g Hg).
      * lia.
      * specialize (H2 g Hg). lia.
Qed.

(** X2: when no two files of the selected stage have the same
    modification time, the file [findDailyNote] returns does not depend
    on the order in which the vault lists the files. *)
Theorem findDailyNote_order_independent (dateStr : jsstr)
    (files files' : list TFile) :
  Permutation files files' ->
  (forall g h,
      In g (matchingFiles dateStr files) ->
      In h (matchingFiles dateStr files) ->
      mtime g = mtime h -> g = h) ->
  findDailyNoteIn dateStr files = findDailyNoteIn dateStr files'.
Proof.
  intros HP Hinj.
  pose proof (matchingFiles_Permutation dateStr files files' HP) as HPm.
  destruct (findDailyNoteIn dateStr files) as [f |] eqn:E1;
    destruct (findDailyNoteIn dateStr files') as [f' |] eqn:E2.
  - destruct (findDailyNoteIn_max _ _ _ E1) as [Hin Hmax].
    destruct (findDailyNoteIn_max _ _ _ E2) as [Hin' Hmax'].
    f_equal. apply Hinj.
    + exact Hin.
    + apply (Permutation_in _ (Permutation_sym HPm)). exact Hin'.
    + assert (mtime f' <= mtime f).
      { apply Hmax. apply (Permutation_in _ (Permutation_sym HPm)). exact Hin'. }
      assert (mtime f <= mtime f').
      { apply Hmax'. apply (Permutation_in _ HPm). exact Hin. }
      lia.
  - exfalso. destruct (findDailyNoteIn_max _ _ _ E1) as [Hin _].
    apply (Permutation_in _ HPm) in Hin.
    unfold findDailyNoteIn in E2.
    destruct (matchingFiles dateStr files'); [destruct Hin | discriminate E2].
  - exfalso. destruct (findDailyNoteIn_max _ _ _ E2) as [Hin _].
    apply (Permutation_in _ (Permutation_sym HPm)) in Hin.
    unfold findDailyNoteIn in E1.
    destruct (matchingFiles dateStr files); [destruct Hin | discriminate E1].
  - reflexivity.
Qed.

End MoreLocate.

(** ** More on the marked section *)

Module MoreSection.

Import StrFacts.

Lemma absent_iff (content p : jsstr) :
  indexOf content p = -1 <-> ~ contains content p.
Proof.
  rewrite <- includes_contains. unfold includes.
  rewrite negb_true_iff, Z.eqb_neq. split.
  - intros H Hn. exact (Hn H).
  - intros H. destruct (Z.eq_dec (indexOf content p) (-1)); [assumption|].
    contradiction.
Qed.

Lemma null_iff_missing (marker content : jsstr) (rs : list Reminder) :
  updateReminderSection marker content rs = None
  <-> (~ contains content (startMarkerOf marker)
       \/ ~ contains content (endMarkerOf marker)).
Proof.
  split.
  - unfold updateReminderSection.
    destruct ((indexOf content (startMarkerOf marker) =? -1)
              || (indexOf content (endMarkerOf marker) =? -1)) eqn:E;
      [|discriminate].
    intros _. apply orb_true_iff in E.
    destruct E as [E | E]; [left | right];
      apply absent_iff, Z.eqb_eq; exact E.
  - apply Section_.updateReminderSection_missing.
Qed.

(** X3: [updateReminderSection] returns null exactly when the text lacks
    the start marker or the end marker, whatever the reminders. *)
Theorem updateReminderSection_null_iff (marker content : jsstr)
    (rs : list Reminder) :
  updateReminderSection marker content rs = None
  <-> (~ contains content (startMarkerOf marker)
       \/ ~ contains content (endMarkerOf marker)).
Proof.
  exact (null_iff_missing marker content rs).
Qed.

Lemma found_indices (marker content : jsstr) (rs : list Reminder)
    (out : jsstr) :
  updateReminderSection marker content rs = Some out ->
  exists s e,
    search content (startMarkerOf marker) = Some s
    /\ search content (endMarkerOf marker) = Some e
    /\ out = firstn s content ++ newSection marker rs
               ++ skipn (e + length (endMarkerOf marker)) content.
Proof.
  intros H.
  destruct (search content (startMarkerOf marker)) as [s |] eqn:Es.
  - destruct (search content (endMarkerOf marker)) as [e |] eqn:Ee.
    + exists s, e. split; [reflexivity|]. split; [reflexivity|].
      rewrite (Section_.updateReminderSection_found marker content rs Es Ee) in H.
      inversion H. reflexivity.
    + unfold updateReminderSection in H.
      rewrite (proj2 (indexOf_absent _ _) Ee) in H.
      rewrite orb_true_r in H. discriminate H.
  - unfold updateReminderSection in H.
    rewrite (proj2 (indexOf_absent _ _) Es) in H. discriminate H.
Qed.

(** X4: the text [updateReminderSection] returns holds both markers,
    wherever the markers of the input were; so a rewrite of that text,
    with any reminders, does not return null. *)
Theorem markers_survive_rewrite (marker content : jsstr) (rs : list Reminder)
    (out : jsstr) :
  updateReminderSection marker content rs = Some out ->
  contains out (startMarkerOf marker)
  /\ contains out (endMarkerOf marker)
  /\ forall rs', updateReminderSection marker out rs' <> None.
Proof.
  intros H. destruct (found_indices _ _ _ _ H) as (s & e & _ & _ & ->).
  assert (Hs : contains (firstn s content ++ newSection marker rs
                           ++ skipn (e + length (endMarkerOf marker)) content)
                        (startMarkerOf marker)).
  { exists (firstn s content),
      (NL ++ reminderLines rs ++ NL ++ endMarkerOf marker
         ++ skipn (e + length (endMarkerOf marker)) content).
    unfold newSection. rewrite <- !app_assoc. reflexivity. }
  assert (He : contains (firstn s content ++ newSection marker rs
                           ++ skipn (e + length (endMarkerOf marker)) content)
                        (endMarkerOf marker)).
  { exists (firstn s content ++ startMarkerOf marker ++ NL
              ++ reminderLines rs ++ NL),
      (skipn (e + length (endMarkerOf marker)) content).
    unfold newSection. rewrite <- !app_assoc. reflexivity. }
  split; [exact Hs|]. split; [exact He|].
  intros rs' Hnull. apply null_iff_missing in Hnull.
  destruct Hnull as [Hn | Hn]; [exact (Hn Hs) | exact (Hn He)].
Qed.

(** *** Lines *)

Lemma splitLines_nonempty (s : jsstr) : splitLines s <> [].
Proof.
  destruct s as [|c s]; simpl; [discriminate|].
  destruct (N.eqb c LF); [discriminate|].
  destruct (splitLines s); discriminate.
Qed.

(** Splitting at line feeds distributes over a line feed of the text. *)
Lemma splitLines_app_LF (a b : jsstr) :
  splitLines (a ++ LF :: b) = splitLines a ++ splitLines b.
Proof.
  induction a as [|c a IH]; [reflexivity|].
  cbn [app splitLines]. destruct (N.eqb c LF).
  - rewrite IH. reflexivity.
  - rewrite IH. pose proof (splitLines_nonempty a) as Hne.
    destruct (splitLines a) as [|l ls]; [congruence | reflexivity].
Qed.

Lemma splitLines_oneLine (l : jsstr) : oneLine l -> splitLines l = [l].
Proof.
  unfold oneLine. induction l as [|c l IH]; intros H; [reflexivity|].
  cbn [splitLines]. destruct (N.eqb c LF) eqn:E.
  - apply N.eqb_eq in E. exfalso. apply H. left. exact E.
  - rewrite IH; [reflexivity|]. intros Hin. apply H. right. exact Hin.
Qed.

Lemma splitLines_join (ls : list jsstr) :
  ls <> [] ->
  (forall l, In l ls -> oneLine l) ->
  splitLines (join NL ls) = ls.
Proof.
  induction ls as [|l ls IH]; intros Hne Hall; [congruence|].
  destruct ls as [|l' ls].
  - simpl. apply splitLines_oneLine. apply Hall. left. reflexivity.
  - change (join NL (l :: l' :: ls)) with (l ++ LF :: join NL (l' :: ls)).
    rewrite splitLines_app_LF, splitLines_oneLine
      by (apply Hall; left; reflexivity).
    rewrite IH; [reflexivity | discriminate |].
    intros x Hx. apply Hall. right. exact Hx.
Qed.

Lemma oneLine_app (a b : jsstr) : oneLine a -> oneLine b -> oneLine (a ++ b).
Proof.
  unfold oneLine. intros Ha Hb Hin. apply in_app_or in Hin. tauto.
Qed.

Lemma oneLine_lit_free (s : jsstr) : forallb (fun c => negb (N.eqb c LF)) s = true -> oneLine s.
Proof.
  unfold oneLine. intros H Hin.
  rewrite forallb_forall in H. specialize (H LF Hin).
  rewrite N.eqb_refl in H. discriminate H.
Qed.

Lemma renderLine_oneLine (r : Reminder) :
  oneLineReminder r -> oneLine (renderLine r).
Proof.
  intros (Ht & Hf & Hk). unfold renderLine.
  repeat apply oneLine_app; try assumption;
    try (apply oneLine_lit_free; reflexivity).
  destruct (done r); apply oneLine_lit_free; reflexivity.
Qed.

Lemma reminderLines_split (rs : list Reminder) :
  (forall r, In r rs -> oneLineReminder r) ->
  splitLines (reminderLines rs)
  = match rs with
    | [] => [[]]
    | _ :: _ => map renderLine rs
    end.
Proof.
  intros Hall. destruct rs as [|r rs]; [reflexivity|].
  unfold reminderLines. apply splitLines_join.
  - discriminate.
  - intros l Hl. apply in_map_iff in Hl. destruct Hl as (x & <- & Hx).
    apply renderLine_oneLine. apply Hall. exact Hx.
Qed.

(** X5: when no title, file or key of the reminders holds a line feed,
    splitting the rendered lines at line feeds gives back one rendered
    line per reminder, in order; with no reminder it gives the one empty
    line. *)
Theorem rendered_lines_split_back (rs : list Reminder) :
  (forall r, In r rs -> oneLineReminder r) ->
  splitLines (reminderLines rs)
  = match rs with
    | [] => [[]]
    | _ :: _ => map renderLine rs
    end.
Proof.
  exact (reminderLines_split rs).
Qed.

(** *** The key comment *)

Lemma lazyKey_eq (s acc : jsstr) :
  lazyKey s acc
  = if startsWith s keyClose then Some (rev acc)
    else match s with
         | [] => None
         | c :: s' =>
             if isLineTerminator c then None else lazyKey s' (c :: acc)
         end.
Proof. destruct s; reflexivity. Qed.

Lemma startsWith_local (x post p : jsstr) :
  (length p <= length x)%nat ->
  startsWith (x ++ post) p = startsWith x p.
Proof.
  intros L. destruct (startsWith x p) eqn:E1.
  - apply startsWith_iff in E1. destruct E1 as [r ->].
    rewrite <- app_assoc. apply startsWith_app.
  - destruct (startsWith (x ++ post) p) eqn:E2; [|reflexivity].
    apply occursAt_0 in E2. apply occursAt_app_l in E2; [|simpl; lia].
    apply occursAt_0 in E2. congruence.
Qed.

Lemma lazyKey_found (k : jsstr) :
  forall acc post,
    (forall c, In c k -> isLineTerminator c = false) ->
    search (k ++ keyClose) keyClose = Some (length k) ->
    lazyKey (k ++ keyClose ++ post) acc = Some (rev acc ++ k).
Proof.
  induction k as [|c k IH]; intros acc post Hlt Hs.
  - rewrite lazyKey_eq. cbn [app]. rewrite startsWith_app, app_nil_r.
    reflexivity.
  - apply search_Some in Hs. destruct Hs as [Ho Hmin].
    rewrite lazyKey_eq.
    assert (E : startsWith ((c :: k) ++ keyClose ++ post) keyClose = false).
    { rewrite app_assoc, startsWith_local
        by (rewrite length_app; simpl; lia).
      destruct (startsWith ((c :: k) ++ keyClose) keyClose) eqn:E;
        [|reflexivity].
      apply occursAt_0 in E. exfalso. apply (Hmin 0%nat); [simpl; lia | exact E]. }
    rewrite E. cbn [app]. rewrite (Hlt c (or_introl eq_refl)).
    rewrite IH.
    + simpl. rewrite <- app_assoc. reflexivity.
    + intros x Hx. apply Hlt. right. exact Hx.
    + apply search_Some. split.
      * apply (occursAt_S c). exact Ho.
      * intros m Hm Hocc. apply (Hmin (S m)); [simpl; lia|].
        apply (occursAt_S c). exact Hocc.
Qed.

Lemma matchReminderKey_head (s k : jsstr) :
  keyAtHead s = Some k -> matchReminderKey s = Some k.
Proof.
  intros H. destruct s; cbn [matchReminderKey]; rewrite H; reflexivity.
Qed.

Lemma matchReminderKey_skip (pre rest : jsstr) :
  ~ In 60%N pre -> matchReminderKey (pre ++ rest) = matchReminderKey rest.
Proof.
  induction pre as [|c pre IH]; intros Hno; [reflexivity|].
  cbn [app matchReminderKey].
  assert (E : keyAtHead (c :: pre ++ rest) = None).
  { unfold keyAtHead.
    change keyOpen with (60%N :: lit "!-- reminder-key: ").
    cbn [startsWith].
    destruct (N.eqb 60 c) eqn:Ec; [|reflexivity].
    apply N.eqb_eq in Ec. exfalso. apply Hno. left. symmetry. exact Ec. }
  rewrite E. apply IH. intros Hin. apply Hno. right. exact Hin.
Qed.

Lemma matchReminderKey_comment (pre k post : jsstr) :
  ~ In 60%N pre ->
  (forall c, In c k -> isLineTerminator c = false) ->
  search (k ++ keyClose) keyClose = Some (length k) ->
  matchReminderKey (pre ++ keyOpen ++ k ++ keyClose ++ post) = Some k.
Proof.
  intros Hpre Hlt Hs. rewrite matchReminderKey_skip by exact Hpre.
  apply matchReminderKey_head. unfold keyAtHead.
  rewrite startsWith_app, skipn_exact.
  rewrite (lazyKey_found k [] post Hlt Hs). reflexivity.
Qed.

Lemma no_lt_in_app (a b : jsstr) :
  ~ In 60%N a -> ~ In 60%N b -> ~ In 60%N (a ++ b).
Proof.
  intros Ha Hb Hin. apply in_app_or in Hin. tauto.
Qed.

Lemma no_lt_in_lit (s : jsstr) :
  forallb (fun c => negb (N.eqb c 60)) s = true -> ~ In 60%N s.
Proof.
  intros H Hin. rewrite forallb_forall in H. specialize (H _ Hin).
  discriminate H.
Qed.

Lemma key_reads_back (r : Reminder) :
  keyReadable r ->
  matchReminderKey (renderedBody r) = Some (key r)
  /\ matchReminderKey (renderLine r) = Some (key r).
Proof.
  intros (Ht & Hf & Hlt & Hs).
  assert (Hbody : renderedBody r
                  = (title r ++ lit " [[" ++ file r ++ lit "|source]] ")
                      ++ keyOpen ++ key r ++ keyClose ++ []).
  { unfold renderedBody. rewrite <- !app_assoc, app_nil_r. reflexivity. }
  assert (Hpre : ~ In 60%N (title r ++ lit " [[" ++ file r ++ lit "|source]] ")).
  { repeat apply no_lt_in_app; try assumption;
      apply no_lt_in_lit; reflexivity. }
  split.
  - rewrite Hbody. apply matchReminderKey_comment; assumption.
  - assert (Hline : renderLine r
                    = (lit "- [" ++ (if done r then lit "x" else lit " ")
                         ++ lit "] ") ++ renderedBody r).
    { unfold renderLine, renderedBody. rewrite <- !app_assoc. reflexivity. }
    rewrite Hline, matchReminderKey_skip.
    + rewrite Hbody. apply matchReminderKey_comment; assumption.
    + repeat apply no_lt_in_app; try (apply no_lt_in_lit; reflexivity).
      destruct (done r); apply no_lt_in_lit; reflexivity.
Qed.

(** X6: the key regular expression reads the key of a reminder back from
    its rendered line, and from the body of that line, when the title and
    the file hold no [<], the key holds no line terminator, and [ -->]
    starts nowhere in the key followed by [ -->] before the key's end. *)
Theorem rendered_key_reads_back (r : Reminder) :
  keyReadable r ->
  matchReminderKey (renderedBody r) = Some (key r)
  /\ matchReminderKey (renderLine r) = Some (key r).
Proof.
  exact (key_reads_back r).
Qed.

(** *** What the inbound walk sees of a rendered section *)

Lemma substring_nat (s : jsstr) (a b : nat) :
  (a <= b)%nat -> (b <= length s)%nat ->
  substring s (Z.of_nat a) (Z.of_nat b) = firstn (b - a) (skipn a s).
Proof.
  intros Hab Hb. unfold substring.
  rewrite !clamp_nat by lia.
  rewrite Nat.min_l, Nat.max_r by lia. reflexivity.
Qed.

(** In a text that [updateReminderSection] leaves as it is, the end marker
    is the closing one of the section. *)
Lemma up_to_date_shape (marker out : jsstr) (rs : list Reminder) :
  updateReminderSection marker out rs = Some out ->
  exists s pre post,
    search out (startMarkerOf marker) = Some s
    /\ search out (endMarkerOf marker) = Some (s + closingAt marker rs)%nat
    /\ length pre = s
    /\ out = pre ++ newSection marker rs ++ post.
Proof.
  intros H. destruct (found_indices _ _ _ _ H) as (s & e & Hs & He & Hout).
  pose proof (proj1 (proj1 (search_Some _ _ _) Hs)) as Os.
  pose proof (proj1 (proj1 (search_Some _ _ _) He)) as Oe.
  apply occursAt_length in Os, Oe.
  assert (Lpre : length (firstn s out) = s) by (rewrite length_firstn; lia).
  assert (Le : e = (s + closingAt marker rs)%nat).
  { apply (f_equal (@length N)) in Hout.
    rewrite !length_app, Section_.length_newSection, Lpre, length_skipn in Hout.
    unfold closingAt. lia. }
  exists s, (firstn s out), (skipn (e + length (endMarkerOf marker)) out).
  subst e. repeat split; assumption.
Qed.

Lemma up_to_date_lines (marker out : jsstr) (rs : list Reminder) :
  updateReminderSection marker out rs = Some out ->
  (forall r, In r rs -> oneLineReminder r) ->
  sectionLines marker out
  = [] :: match rs with
          | [] => [[]]
          | _ :: _ => map renderLine rs
          end ++ [[]].
Proof.
  intros H Hone.
  destruct (up_to_date_shape _ _ _ H) as (s & pre & post & Hs & He & Lpre & Hout).
  unfold sectionLines.
  rewrite (proj2 (indexOf_nat _ _ _) Hs), (proj2 (indexOf_nat _ _ _) He).
  unfold len. rewrite <- Nat2Z.inj_add.
  rewrite substring_nat.
  - rewrite Hout.
    replace (pre ++ newSection marker rs ++ post)
      with ((pre ++ startMarkerOf marker)
              ++ (NL ++ reminderLines rs ++ NL) ++ endMarkerOf marker ++ post)
      by (unfold newSection; rewrite <- !app_assoc; reflexivity).
    replace (s + length (startMarkerOf marker))%nat
      with (length (pre ++ startMarkerOf marker))
      by (rewrite length_app; lia).
    rewrite skipn_exact.
    replace (s + closingAt marker rs
             - length (pre ++ startMarkerOf marker))%nat
      with (length (NL ++ reminderLines rs ++ NL))
      by (rewrite !length_app; unfold closingAt, NL; simpl; lia).
    rewrite firstn_exact.
    unfold NL. cbn [app].
    change (LF :: reminderLines rs ++ [LF])
      with ([] ++ LF :: reminderLines rs ++ LF :: []).
    rewrite splitLines_app_LF, splitLines_app_LF.
    rewrite (reminderLines_split rs Hone). reflexivity.
  - unfold closingAt. lia.
  - rewrite Hout.
    rewrite !length_app, Section_.length_newSection, Lpre.
    unfold closingAt. lia.
Qed.

(** X7: in a text that [updateReminderSection] would leave as it is, the
    lines [handleFileModify] walks through are an empty line, the lines
    [updateReminderSection] renders, and an empty line, when no title,
    file or key holds a line feed. *)
Theorem up_to_date_section_lines (marker out : jsstr) (rs : list Reminder) :
  updateReminderSection marker out rs = Some out ->
  (forall r, In r rs -> oneLineReminder r) ->
  sectionLines marker out
  = [] :: match rs with
          | [] => [[]]
          | _ :: _ => map renderLine rs
          end ++ [[]].
Proof.
  exact (up_to_date_lines marker out rs).
Qed.


(** *** Markers in reverse order, and key comments *)

Lemma substring_swapped (s : jsstr) (a b : nat) :
  (b <= a)%nat -> (a <= length s)%nat ->
  substring s (Z.of_nat a) (Z.of_nat b) = firstn (a - b) (skipn b s).
Proof.
  intros Hba Ha. unfold substring.
  rewrite !clamp_nat by lia.
  rewrite Nat.min_r, Nat.max_l by lia. reflexivity.
Qed.

(** X16: when the end marker is found first and ends before the start
    marker begins, the arguments of [substring] in [handleFileModify] come
    in reverse order and are swapped: the lines walked are those of the
    stretch from the start of the end marker to the end of the start
    marker, both markers included. *)
Theorem reversed_markers_walk (marker content : jsstr) (s e : nat) :
  indexOf content (endMarkerOf marker) = Z.of_nat e ->
  indexOf content (startMarkerOf marker) = Z.of_nat s ->
  (e + length (endMarkerOf marker) <= s)%nat ->
  exists A B rest,
    content = A ++ endMarkerOf marker ++ B ++ startMarkerOf marker ++ rest
    /\ length A = e
    /\ sectionLines marker content
       = splitLines (endMarkerOf marker ++ B ++ startMarkerOf marker).
Proof.
  intros He Hs Hle.
  unfold sectionLines. rewrite He, Hs.
  apply indexOf_nat in He, Hs. apply search_Some in He, Hs.
  destruct He as [(A & pe & Ec & LA) _], Hs as [Hs _].
  pose proof (occursAt_length Hs) as Ls.
  assert (Hocc : occursAt pe (s - e - length (endMarkerOf marker))
                          (startMarkerOf marker)).
  { rewrite Ec, app_assoc in Hs.
    replace s with (length (A ++ endMarkerOf marker)
                    + (s - e - length (endMarkerOf marker)))%nat in Hs at 1
      by (rewrite length_app; lia).
    apply occursAt_app_r in Hs. exact Hs. }
  destruct Hocc as (B & rest & Epe & LB).
  exists A, B, rest. subst pe. split; [exact Ec|]. split; [exact LA|].
  unfold len. rewrite <- Nat2Z.inj_add.
  rewrite substring_swapped by lia.
  assert (Hsk : skipn e content
                = (endMarkerOf marker ++ B ++ startMarkerOf marker) ++ rest).
  { rewrite Ec, <- LA, skipn_exact, <- !app_assoc. reflexivity. }
  rewrite Hsk.
  replace (s + length (startMarkerOf marker) - e)%nat
    with (length (endMarkerOf marker ++ B ++ startMarkerOf marker))
    by (rewrite !length_app; lia).
  rewrite firstn_exact. reflexivity.
Qed.

Lemma lazyKey_total (k : jsstr) :
  forall acc post,
    (forall c, In c k -> isLineTerminator c = false) ->
    exists found, lazyKey (k ++ keyClose ++ post) acc = Some found.
Proof.
  induction k as [|c k IH]; intros acc post Hlt.
  - exists (rev acc). rewrite lazyKey_eq. cbn [app].
    rewrite startsWith_app. reflexivity.
  - rewrite lazyKey_eq.
    destruct (startsWith ((c :: k) ++ keyClose ++ post) keyClose);
      [exists (rev acc); reflexivity|].
    cbn [app]. rewrite (Hlt c (or_introl eq_refl)).
    apply IH. intros x Hx. apply Hlt. right. exact Hx.
Qed.

Lemma key_comment_present (pre k post : jsstr) :
  (forall c, In c k -> isLineTerminator c = false) ->
  exists found,
    matchReminderKey (pre ++ keyOpen ++ k ++ keyClose ++ post) = Some found.
Proof.
  intros Hlt. induction pre as [|c pre IH].
  - destruct (lazyKey_total k [] post Hlt) as [found Hf].
    exists found. apply matchReminderKey_head. unfold keyAtHead.
    cbn [app]. rewrite startsWith_app, skipn_exact. exact Hf.
  - cbn [app matchReminderKey].
    destruct (keyAtHead (c :: pre ++ keyOpen ++ k ++ keyClose ++ post))
      as [found |]; [exists found; reflexivity | exact IH].
Qed.

(** What the lazy group has read when it succeeds. *)
Lemma lazyKey_sound (s : jsstr) :
  forall acc k,
    lazyKey s acc = Some k ->
    exists inner post,
      k = rev acc ++ inner
      /\ s = inner ++ keyClose ++ post
      /\ (forall c, In c inner -> isLineTerminator c = false)
      /\ (forall m, (m < length inner)%nat ->
                    ~ occursAt (inner ++ keyClose) m keyClose).
Proof.
  induction s as [|c s IH]; intros acc k; rewrite lazyKey_eq.
  - destruct (startsWith [] keyClose) eqn:Es; [|discriminate].
    vm_compute in Es. discriminate Es.
  - destruct (startsWith (c :: s) keyClose) eqn:Es.
    + intros E. inversion E; subst k.
      apply startsWith_iff in Es. destruct Es as [post Es].
      exists [], post. split; [rewrite app_nil_r; reflexivity|].
      split; [exact Es|]. split; [intros x []|].
      intros m Hm. simpl in Hm. lia.
    + destruct (isLineTerminator c) eqn:Ec; [discriminate|].
      intros E. destruct (IH _ _ E) as (inner & post & -> & -> & Hlt & Hmin).
      exists (c :: inner), post. split; [|split; [|split]].
      * simpl. rewrite <- app_assoc. reflexivity.
      * reflexivity.
      * intros x [<- | Hx]; [exact Ec | exact (Hlt x Hx)].
      * intros [|m] Hm Hocc.
        -- apply occursAt_0 in Hocc.
           change (c :: inner ++ keyClose ++ post)
             with ((c :: inner) ++ keyClose ++ post) in Es.
           rewrite app_assoc, startsWith_local in Es
             by (rewrite length_app; simpl; lia).
           congruence.
        -- apply (Hmin m); [simpl in Hm; lia|].
           exact (proj1 (occursAt_S c (inner ++ keyClose) keyClose m) Hocc).
Qed.

Lemma lazyKey_complete (k acc post : jsstr) :
  (forall c, In c k -> isLineTerminator c = false) ->
  (forall m, (m < length k)%nat -> ~ occursAt (k ++ keyClose) m keyClose) ->
  lazyKey (k ++ keyClose ++ post) acc = Some (rev acc ++ k).
Proof.
  intros Hlt Hmin. apply lazyKey_found; [exact Hlt|].
  apply search_Some. split; [|exact Hmin].
  exists k, []. split; [rewrite app_nil_r; reflexivity | reflexivity].
Qed.

Lemma keyAtHead_iff (s k : jsstr) :
  keyAtHead s = Some k <-> keyCommentAt s 0 k.
Proof.
  split.
  - unfold keyAtHead. destruct (startsWith s keyOpen) eqn:Es; [|discriminate].
    apply startsWith_iff in Es. destruct Es as [r ->].
    rewrite skipn_exact. intros E.
    destruct (lazyKey_sound _ _ _ E) as (inner & post & -> & -> & Hlt & Hmin).
    exists [], post. repeat split; assumption.
  - intros (pre & post & -> & L & Hlt & Hmin).
    destruct pre; [|discriminate L]. cbn [app].
    unfold keyAtHead. rewrite startsWith_app, skipn_exact.
    rewrite (lazyKey_complete k [] post Hlt Hmin). reflexivity.
Qed.

Lemma keyCommentAt_S (c : N) (s : jsstr) (n : nat) (k : jsstr) :
  keyCommentAt (c :: s) (S n) k <-> keyCommentAt s n k.
Proof.
  split.
  - intros (pre & post & E & L & Hlt & Hmin).
    destruct pre as [|d pre]; [discriminate L|].
    inversion E; subst. exists pre, post.
    repeat split; try assumption. simpl in L. lia.
  - intros (pre & post & -> & L & Hlt & Hmin).
    exists (c :: pre), post. repeat split; try assumption. simpl. lia.
Qed.

Lemma keyCommentAt_nil (n : nat) (k : jsstr) : ~ keyCommentAt [] n k.
Proof.
  intros (pre & post & E & _). apply (f_equal (@length N)) in E.
  rewrite !length_app in E. simpl in E. lia.
Qed.

Lemma keyCommentAt_unique (s : jsstr) :
  forall n k k', keyCommentAt s n k -> keyCommentAt s n k' -> k = k'.
Proof.
  induction s as [|c s IH]; intros n k k' H H'.
  - exfalso. exact (keyCommentAt_nil _ _ H).
  - destruct n as [|n].
    + apply keyAtHead_iff in H, H'. congruence.
    + apply keyCommentAt_S in H, H'. exact (IH n k k' H H').
Qed.

(** [matchReminderKey] returns the key of the leftmost key comment that
    closes, and null when none closes. *)
Lemma matchReminderKey_spec (s : jsstr) :
  match matchReminderKey s with
  | Some k =>
      exists n, keyCommentAt s n k
                /\ forall m k', (m < n)%nat -> ~ keyCommentAt s m k'
  | None => forall n k, ~ keyCommentAt s n k
  end.
Proof.
  induction s as [|c s IH].
  - cbn [matchReminderKey]. destruct (keyAtHead []) as [k |] eqn:E.
    + apply keyAtHead_iff in E. exfalso. exact (keyCommentAt_nil _ _ E).
    + intros n k. apply keyCommentAt_nil.
  - cbn [matchReminderKey]. destruct (keyAtHead (c :: s)) as [k |] eqn:E.
    + exists 0%nat. split; [apply keyAtHead_iff; exact E|].
      intros m k' Hm. lia.
    + destruct (matchReminderKey s) as [k |].
      * destruct IH as (n & Hn & Hmin). exists (S n).
        split; [apply keyCommentAt_S; exact Hn|].
        intros [|m] k' Hm Hk.
        -- apply keyAtHead_iff in Hk. congruence.
        -- apply keyCommentAt_S in Hk. apply (Hmin m k'); [lia | exact Hk].
      * intros [|n] k Hk.
        -- apply keyAtHead_iff in Hk. congruence.
        -- apply keyCommentAt_S in Hk. exact (IH n k Hk).
Qed.

Lemma matchReminderKey_leftmost (s k : jsstr) :
  matchReminderKey s = Some k
  <-> exists n, keyCommentAt s n k
                /\ forall m k', (m < n)%nat -> ~ keyCommentAt s m k'.
Proof.
  pose proof (matchReminderKey_spec s) as H. split.
  - intros E. rewrite E in H. exact H.
  - intros (n & Hn & Hmin). destruct (matchReminderKey s) as [k2 |].
    + destruct H as (n2 & Hn2 & Hmin2). f_equal.
      destruct (Nat.lt_trichotomy n n2) as [L | [-> | L]].
      * exfalso. exact (Hmin2 n k L Hn).
      * exact (keyCommentAt_unique s n2 k2 k Hn2 Hn).
      * exfalso. exact (Hmin n2 k2 L Hn2).
    + exfalso. exact (H n k Hn).
Qed.

Lemma matchReminderKey_none (s : jsstr) :
  matchReminderKey s = None <-> forall n k, ~ keyCommentAt s n k.
Proof.
  pose proof (matchReminderKey_spec s) as H. split.
  - intros E. rewrite E in H. exact H.
  - intros Hn. destruct (matchReminderKey s) as [k |]; [|reflexivity].
    destruct H as (n & Hk & _). exfalso. exact (Hn n k Hk).
Qed.

(** X17: the key regular expression finds a key in every text that holds
    a key comment whose key has no line terminator; the key it finds is
    that of the leftmost key comment that closes, that is, whose key runs
    to the first [ -->] after it without a line terminator; and it finds
    none exactly when no key comment closes. *)
Theorem key_comment_is_found :
  (forall pre k post,
      (forall c, In c k -> isLineTerminator c = false) ->
      exists found,
        matchReminderKey (pre ++ lit "<!-- reminder-key: " ++ k
                            ++ lit " -->" ++ post) = Some found)
  /\ (forall s k,
         matchReminderKey s = Some k
         <-> exists n, keyCommentAt s n k
                       /\ forall m k', (m < n)%nat -> ~ keyCommentAt s m k')
  /\ (forall s,
         matchReminderKey s = None <-> forall n k, ~ keyCommentAt s n k).
Proof.
  split; [|split].
  - intros pre k post Hlt.
    change (lit "<!-- reminder-key: ") with keyOpen.
    change (lit " -->") with keyClose.
    exact (key_comment_present pre k post Hlt).
  - exact matchReminderKey_leftmost.
  - exact matchReminderKey_none.
Qed.

End MoreSection.

(** ** More on the two entry points *)

Module MoreEngine.

Section Runs.

Context {C : Collaborators}.

Lemma findDailyNoteIn_none (dateStr : jsstr) (files : list TFile) :
  (forall g, In g files -> basename g <> dateStr) ->
  (forall g, In g files -> ~ contains (name g) dateStr) ->
  findDailyNoteIn dateStr files = None.
Proof.
  intros Hno Hnc.
  destruct (findDailyNoteIn dateStr files) as [f |] eqn:E; [|reflexivity].
  exfalso. apply Locate.findDailyNoteIn_member in E.
  unfold matchingFiles in E.
  destruct (length (exactMatches dateStr files) =? 0)%nat.
  - apply Locate.looseMatches_In in E. destruct E as [Hf Hc].
    exact (Hnc f Hf Hc).
  - apply Locate.exactMatches_In in E. destruct E as [Hf Hb].
    exact (Hno f Hf Hb).
Qed.

Lemma sectionConsole_found (marker content : jsstr) (rs : list Reminder)
    (out : jsstr) :
  updateReminderSection marker content rs = Some out ->
  sectionConsole marker content rs = Info :: map (fun _ => Info) rs.
Proof.
  unfold updateReminderSection, sectionConsole.
  destruct ((indexOf content (startMarkerOf marker) =? -1)
            || (indexOf content (endMarkerOf marker) =? -1));
    [discriminate | reflexivity].
Qed.

(** With the feature switched off both entry points return at once:
    no event, and the world as it was. *)
Theorem disabled_feature_does_nothing (w : World) (quiet : bool)
    (d : option DateTime) (f : TFile) :
  autoEmbedTodosInDailyNote w = false ->
  updateDailyNote quiet d w = (Ok tt, w, [])
  /\ handleFileModify f w = (Ok tt, w, []).
Proof.
  intros H. split.
  - cbv [updateDailyNote updateDailyNoteWith bind getWorld ret].
    rewrite H. reflexivity.
  - cbv [handleFileModify handleFileModifyWith bind getWorld ret].
    rewrite H. cbn [negb]. rewrite orb_true_r. reflexivity.
Qed.

(** X8: when no file of the vault has the date string as base name or in
    its name, [updateDailyNote] stops after the enumeration: it reads and
    writes nothing, does not set the guard, and gives the not-found
    notice unless [quiet]. *)
Theorem no_daily_note_no_io (quiet : bool) (d : option DateTime) (w : World)
    (files : list TFile) :
  autoEmbedTodosInDailyNote w = true ->
  isUpdating w = false ->
  getMarkdownFiles (host w) = Ok files ->
  (forall g, In g files -> basename g <> toYYYYMMDD (targetDateOf d w)) ->
  (forall g, In g files -> ~ contains (name g) (toYYYYMMDD (targetDateOf d w))) ->
  updateDailyNote quiet d w
  = (Ok tt, w,
     EvEnumerate ::
     if quiet then []
     else [EvNotice (NoteNotFound (toYYYYMMDD (targetDateOf d w)))]).
Proof.
  intros Ha Hu Hf Hno Hnc.
  cbv [updateDailyNote updateDailyNoteWith bind getWorld findDailyNote ask ret].
  rewrite Ha, Hu. cbn [negb orb]. cbv beta iota. rewrite Hf. cbv beta iota.
  fold (targetDateOf d w). rewrite (findDailyNoteIn_none _ _ Hno Hnc).
  destruct quiet; reflexivity.
Qed.

(** The run of [updateDailyNote] over a note whose text the rewrite
    leaves as it is. *)
Lemma up_to_date_run (quiet : bool) (d : option DateTime) (w : World)
    (files : list TFile) (note : TFile) (todos : list rref) (content : jsstr) :
  autoEmbedTodosInDailyNote w = true ->
  isUpdating w = false ->
  getMarkdownFiles (host w) = Ok files ->
  findDailyNoteIn (toYYYYMMDD (targetDateOf d w)) files = Some note ->
  byDate (targetDateOf d w) (host w) = Ok todos ->
  vaultRead note (host w) = Ok content ->
  updateReminderSection (dailyNoteSectionMarker w) content
    (map (deref (host w)) todos) = Some content ->
  updateDailyNote quiet d w
  = (Ok tt, w,
     readEvents (targetDateOf d w) note
       ++ EvConsole Info :: map (fun _ => EvConsole Info) todos
       ++ (if quiet then [] else [EvNotice NoteUpToDate])).
Proof.
  intros Ha Hu Hf Hn Hb Hr Hsame.
  unfold updateDailyNote.
  rewrite (Engine.updateDailyNoteWith_run modify quiet d w files note Ha Hu Hf Hn).
  rewrite (Engine.tryBlock_read modify quiet (targetDateOf d w) note
             (setUpdating true w) todos content Hb Hr).
  cbn [dailyNoteSectionMarker setUpdating host].
  rewrite (sectionConsole_found _ _ _ _ Hsame), Hsame.
  rewrite StrFacts.str_eqb_refl. cbn [negb].
  fold (setUpdating true w). cbn [map]. rewrite !map_map.
  destruct quiet; cbn; rewrite (Engine.setUpdating_restore w Hu);
    rewrite ?app_nil_r; reflexivity.
Qed.

(** X9: when the rewritten text is the text just read, [updateDailyNote]
    writes nothing and leaves the world as it was; it gives the
    up-to-date notice unless [quiet]. *)
Theorem unchanged_text_is_not_written (quiet : bool) (d : option DateTime)
    (w : World) (files : list TFile) (note : TFile) (todos : list rref)
    (content : jsstr) :
  autoEmbedTodosInDailyNote w = true ->
  isUpdating w = false ->
  getMarkdownFiles (host w) = Ok files ->
  findDailyNoteIn (toYYYYMMDD (targetDateOf d w)) files = Some note ->
  byDate (targetDateOf d w) (host w) = Ok todos ->
  vaultRead note (host w) = Ok content ->
  updateReminderSection (dailyNoteSectionMarker w) content
    (map (deref (host w)) todos) = Some content ->
  updateDailyNote quiet d w
  = (Ok tt, w,
     readEvents (targetDateOf d w) note
       ++ EvConsole Info :: map (fun _ => EvConsole Info) todos
       ++ (if quiet then [] else [EvNotice NoteUpToDate])).
Proof.
  exact (up_to_date_run quiet d w files note todos content).
Qed.

(** X10: when the rewritten text differs from the text just read,
    [updateDailyNote] makes one write, of the rewritten text, to the note
    it located; when the write succeeds the host is the one the write
    leaves and the updated notice is given unless [quiet]; when the write
    throws the exception is caught and reported; either way the guard is
    cleared. *)
Theorem changed_text_is_written_once (quiet : bool) (d : option DateTime)
    (w : World) (files : list TFile) (note : TFile) (todos : list rref)
    (content newContent : jsstr) :
  autoEmbedTodosInDailyNote w = true ->
  isUpdating w = false ->
  getMarkdownFiles (host w) = Ok files ->
  findDailyNoteIn (toYYYYMMDD (targetDateOf d w)) files = Some note ->
  byDate (targetDateOf d w) (host w) = Ok todos ->
  vaultRead note (host w) = Ok content ->
  updateReminderSection (dailyNoteSectionMarker w) content
    (map (deref (host w)) todos) = Some newContent ->
  content <> newContent ->
  updateDailyNote quiet d w
  = (Ok tt, setHost (snd (vaultModify note newContent (host w))) w,
     readEvents (targetDateOf d w) note
       ++ EvConsole Info :: map (fun _ => EvConsole Info) todos
       ++ [EvConsole Info; EvModify note newContent]
       ++ match fst (vaultModify note newContent (host w)) with
          | Ok _ =>
              if quiet then []
              else [EvNotice (NoteUpdated (toYYYYMMDD (targetDateOf d w)))]
          | Err _ => failureReport quiet
          end).
Proof.
  intros Ha Hu Hf Hn Hb Hr Hnew Hdiff.
  unfold updateDailyNote.
  rewrite (Engine.updateDailyNoteWith_run modify quiet d w files note Ha Hu Hf Hn).
  rewrite (Engine.tryBlock_read modify quiet (targetDateOf d w) note
             (setUpdating true w) todos content Hb Hr).
  cbn [dailyNoteSectionMarker setUpdating host].
  rewrite (sectionConsole_found _ _ _ _ Hnew), Hnew.
  assert (Hneq : str_eqb content newContent = false).
  { destruct (str_eqb content newContent) eqn:E; [|reflexivity].
    apply StrFacts.str_eqb_eq in E. contradiction. }
  rewrite Hneq. cbn [negb].
  fold (setUpdating true w). cbn [map]. rewrite !map_map.
  cbv [bind console emit modify act when notice ret].
  cbn [host setUpdating].
  destruct (vaultModify note newContent (host w)) as [[[] | e] h'];
    destruct w as [a m u h]; cbn in Hu; subst u;
    destruct quiet; cbn; rewrite <- ?app_assoc; reflexivity.
Qed.


(** *** Notices and writes of one call *)

Lemma filter_notice_console (ls : list Level) :
  filter isNotice (map EvConsole ls) = [].
Proof. induction ls; simpl; auto. Qed.

Lemma filter_modify_console (ls : list Level) :
  filter isModify (map EvConsole ls) = [].
Proof. induction ls; simpl; auto. Qed.

Ltac count_events :=
  rewrite ?filter_app, ?filter_notice_console, ?filter_modify_console;
  rewrite ?length_app; cbn; try lia; try reflexivity.

Lemma tryBlock_counts (quiet : bool) (t : DateTime) (note : TFile) (w : World) :
  match tryBlock modify quiet t note w with
  | (r, _, t1) =>
      length (filter isNotice
                (t1 ++ match r with
                       | Ok _ => []
                       | Err _ => failureReport quiet
                       end))
      = (if quiet then 0 else 1)%nat
      /\ (length (filter isModify
                    (t1 ++ match r with
                           | Ok _ => []
                           | Err _ => failureReport quiet
                           end)) <= 1)%nat
  end.
Proof.
  destruct (byDate t (host w)) as [todos | e] eqn:Hb.
  2:{ cbv [tryBlock bind console emit ask]. rewrite Hb.
      destruct quiet; split; count_events. }
  destruct (vaultRead note (host w)) as [content | e] eqn:Hr.
  2:{ cbv [tryBlock bind console emit ask]. rewrite Hb, Hr.
      destruct quiet; split; count_events. }
  rewrite (Engine.tryBlock_read modify quiet t note w todos content Hb Hr).
  destruct (updateReminderSection _ content _) as [newContent |].
  - destruct (negb (str_eqb content newContent)).
    + cbv [bind console emit modify act when notice ret].
      destruct (vaultModify note newContent (host w)) as [[[] | e] h'];
        destruct quiet; split; count_events.
    + destruct quiet; split; count_events.
  - destruct quiet; split; count_events.
Qed.

(** X11: a quiet call of [updateDailyNote] gives no notice; a call that
    is not quiet and gets past the switch, the guard and the enumeration
    gives exactly one; and no call makes more than one write. *)
Theorem one_notice_one_write (d : option DateTime) (w : World) :
  filter isNotice (traceOf (updateDailyNote true d) w) = []
  /\ (forall files,
         autoEmbedTodosInDailyNote w = true ->
         isUpdating w = false ->
         getMarkdownFiles (host w) = Ok files ->
         length (filter isNotice (traceOf (updateDailyNote false d) w)) = 1%nat)
  /\ (forall quiet,
         (length (filter isModify (traceOf (updateDailyNote quiet d) w)) <= 1)%nat).
Proof.
  assert (Hall : forall quiet,
             (length (filter isNotice (traceOf (updateDailyNote quiet d) w))
              = if quiet then 0%nat
                else match getMarkdownFiles (host w) with
                     | Ok _ =>
                         if autoEmbedTodosInDailyNote w
                         then if isUpdating w then 0%nat else 1%nat
                         else 0%nat
                     | Err _ => 0%nat
                     end)
             /\ (length (filter isModify (traceOf (updateDailyNote quiet d) w))
                 <= 1)%nat).
  { intros quiet. unfold traceOf, updateDailyNote.
    destruct (autoEmbedTodosInDailyNote w) eqn:Ha.
    2:{ assert (E : updateDailyNoteWith modify quiet d w = (Ok tt, w, [])).
        { cbv [updateDailyNoteWith bind getWorld ret]. rewrite Ha. reflexivity. }
        rewrite E. destruct quiet, (getMarkdownFiles (host w)); split; cbn; lia. }
    destruct (isUpdating w) eqn:Hu.
    { rewrite (Engine.updateDailyNoteWith_guarded modify quiet d w Hu).
      destruct quiet, (getMarkdownFiles (host w)); split; cbn; lia. }
    destruct (getMarkdownFiles (host w)) as [files | e] eqn:Hf.
    2:{ assert (E : updateDailyNoteWith modify quiet d w
                    = (Err e, w, [EvEnumerate])).
        { cbv [updateDailyNoteWith bind getWorld findDailyNote ask ret].
          rewrite Ha, Hu. cbn [negb orb]. cbv beta iota. rewrite Hf.
          reflexivity. }
        rewrite E. destruct quiet; split; cbn; lia. }
    destruct (findDailyNoteIn (toYYYYMMDD (targetDateOf d w)) files)
      as [note |] eqn:Hn.
    - rewrite (Engine.updateDailyNoteWith_run modify quiet d w files note
                 Ha Hu Hf Hn).
      pose proof (tryBlock_counts quiet (targetDateOf d w) note
                    (setUpdating true w)) as Hc.
      destruct (tryBlock modify quiet (targetDateOf d w) note
                  (setUpdating true w)) as [[r w1] t1].
      cbn [snd]. destruct Hc as [Hn1 Hm1].
      change (EvEnumerate
                :: t1 ++ match r with
                         | Ok _ => []
                         | Err _ => failureReport quiet
                         end)
        with ([EvEnumerate]
                ++ t1 ++ match r with
                         | Ok _ => []
                         | Err _ => failureReport quiet
                         end).
      rewrite !(filter_app _ [EvEnumerate]). cbn [filter isNotice isModify app].
      split; [rewrite Hn1; destruct quiet; reflexivity | exact Hm1].
    - assert (E : updateDailyNoteWith modify quiet d w
                  = (Ok tt, w,
                     EvEnumerate ::
                     if quiet then []
                     else [EvNotice (NoteNotFound
                                       (toYYYYMMDD (targetDateOf d w)))])).
      { cbv [updateDailyNoteWith bind getWorld findDailyNote ask ret].
        rewrite Ha, Hu. cbn [negb orb]. cbv beta iota. rewrite Hf.
        cbv beta iota. fold (targetDateOf d w). rewrite Hn.
        destruct quiet; reflexivity. }
      rewrite E. destruct quiet; split; cbn; lia. }
  split; [|split].
  - destruct (Hall true) as [H _].
    destruct (filter isNotice (traceOf (updateDailyNote true d) w));
      [reflexivity | discriminate H].
  - intros files Ha Hu Hf. destruct (Hall false) as [H _].
    rewrite Hf, Ha, Hu in H. exact H.
  - intros quiet. exact (proj2 (Hall quiet)).
Qed.


(** *** What the outbound render leaves alone *)

Lemma filter_update_console (ls : list Level) :
  filter isUpdateCall (map EvConsole ls) = [].
Proof. induction ls; simpl; auto. Qed.

Ltac frame_events :=
  rewrite ?filter_app, ?filter_update_console, ?filter_modify_console;
  cbn; try reflexivity; try discriminate; try tauto.

Lemma tryBlock_frame (quiet : bool) (t : DateTime) (note : TFile) (w : World) :
  match tryBlock modify quiet t note w with
  | (r, w1, t1) =>
      filter isUpdateCall
        (t1 ++ match r with
               | Ok _ => []
               | Err _ => failureReport quiet
               end) = []
      /\ autoEmbedTodosInDailyNote w1 = autoEmbedTodosInDailyNote w
      /\ dailyNoteSectionMarker w1 = dailyNoteSectionMarker w
      /\ isUpdating w1 = isUpdating w
      /\ (filter isModify t1 = [] -> host w1 = host w)
  end.
Proof.
  destruct (byDate t (host w)) as [todos | e] eqn:Hb.
  2:{ cbv [tryBlock bind console emit ask]. rewrite Hb.
      destruct quiet; repeat split; frame_events. }
  destruct (vaultRead note (host w)) as [content | e] eqn:Hr.
  2:{ cbv [tryBlock bind console emit ask]. rewrite Hb, Hr.
      destruct quiet; repeat split; frame_events. }
  rewrite (Engine.tryBlock_read modify quiet t note w todos content Hb Hr).
  destruct (updateReminderSection _ content _) as [newContent |].
  - destruct (negb (str_eqb content newContent)).
    + cbv [bind console emit modify act when notice ret].
      destruct (vaultModify note newContent (host w)) as [[[] | e] h'];
        destruct quiet; repeat split; frame_events.
    + destruct quiet; repeat split; frame_events.
  - destruct quiet; repeat split; frame_events.
Qed.

(** X18: [updateDailyNote] never calls the update callback and never
    changes the settings or, on return, the guard it found clear; and in
    a run without a write the host is left as it was. *)
Theorem outbound_touches_only_the_note (quiet : bool) (d : option DateTime)
    (w : World) :
  filter isUpdateCall (traceOf (updateDailyNote quiet d) w) = []
  /\ autoEmbedTodosInDailyNote (worldOf (updateDailyNote quiet d) w)
     = autoEmbedTodosInDailyNote w
  /\ dailyNoteSectionMarker (worldOf (updateDailyNote quiet d) w)
     = dailyNoteSectionMarker w
  /\ isUpdating (worldOf (updateDailyNote quiet d) w) = isUpdating w
  /\ (filter isModify (traceOf (updateDailyNote quiet d) w) = [] ->
      host (worldOf (updateDailyNote quiet d) w) = host w).
Proof.
  unfold traceOf, worldOf, updateDailyNote.
  destruct (autoEmbedTodosInDailyNote w) eqn:Ha.
  2:{ assert (E : updateDailyNoteWith modify quiet d w = (Ok tt, w, [])).
      { cbv [updateDailyNoteWith bind getWorld ret]. rewrite Ha. reflexivity. }
      rewrite E. cbn. rewrite Ha. repeat split. }
  destruct (isUpdating w) eqn:Hu.
  { rewrite (Engine.updateDailyNoteWith_guarded modify quiet d w Hu).
    cbn. rewrite Ha, Hu. repeat split. }
  destruct (getMarkdownFiles (host w)) as [files | e] eqn:Hf.
  2:{ assert (E : updateDailyNoteWith modify quiet d w
                  = (Err e, w, [EvEnumerate])).
      { cbv [updateDailyNoteWith bind getWorld findDailyNote ask ret].
        rewrite Ha, Hu. cbn [negb orb]. cbv beta iota. rewrite Hf.
        reflexivity. }
      rewrite E. cbn. rewrite Ha, Hu. repeat split. }
  destruct (findDailyNoteIn (toYYYYMMDD (targetDateOf d w)) files)
    as [note |] eqn:Hn.
  - rewrite (Engine.updateDailyNoteWith_run modify quiet d w files note
               Ha Hu Hf Hn).
    pose proof (tryBlock_frame quiet (targetDateOf d w) note
                  (setUpdating true w)) as Hfr.
    destruct (tryBlock modify quiet (targetDateOf d w) note
                (setUpdating true w)) as [[r w1] t1].
    destruct Hfr as (H1 & H2 & H3 & _ & H5).
    cbn [fst snd]. cbn [autoEmbedTodosInDailyNote dailyNoteSectionMarker
                          isUpdating host setUpdating] in *.
    rewrite H2, H3, Ha. split; [|repeat split].
    + change (EvEnumerate
                :: t1 ++ match r with
                         | Ok _ => []
                         | Err _ => failureReport quiet
                         end)
        with ([EvEnumerate]
                ++ t1 ++ match r with
                         | Ok _ => []
                         | Err _ => failureReport quiet
                         end).
      rewrite filter_app, H1. reflexivity.
    + intros Hm. apply H5.
      change (EvEnumerate
                :: t1 ++ match r with
                         | Ok _ => []
                         | Err _ => failureReport quiet
                         end)
        with ([EvEnumerate]
                ++ t1 ++ match r with
                         | Ok _ => []
                         | Err _ => failureReport quiet
                         end) in Hm.
      rewrite !filter_app in Hm. cbn [filter isModify app] in Hm.
      apply app_eq_nil in Hm. exact (proj1 Hm).
  - assert (E : updateDailyNoteWith modify quiet d w
                = (Ok tt, w,
                   EvEnumerate ::
                   if quiet then []
                   else [EvNotice (NoteNotFound
                                     (toYYYYMMDD (targetDateOf d w)))])).
    { cbv [updateDailyNoteWith bind getWorld findDailyNote ask ret].
      rewrite Ha, Hu. cbn [negb orb]. cbv beta iota. rewrite Hf.
      cbv beta iota. fold (targetDateOf d w). rewrite Hn.
      destruct quiet; reflexivity. }
    rewrite E. cbn. rewrite Ha, Hu. destruct quiet; repeat split.
Qed.


(** *** Inbound: what is ignored, what fails, what is called *)

(** X12: [handleFileModify] ignores a file whose name gives no date,
    without reading it; and after reading a daily note that lacks a
    marker it stops: no reminder lookup, no update, no re-render. *)
Theorem handleFileModify_ignores
    (render : bool -> option DateTime -> M unit) (f : TFile) (w : World) :
  isUpdating w = false ->
  autoEmbedTodosInDailyNote w = true ->
  (getDailyNoteDate f = None ->
   handleFileModifyWith render f w = (Ok tt, w, []))
  /\ (forall fileDate content,
         getDailyNoteDate f = Some fileDate ->
         vaultRead f (host w) = Ok content ->
         ~ contains content (startMarkerOf (dailyNoteSectionMarker w))
         \/ ~ contains content (endMarkerOf (dailyNoteSectionMarker w)) ->
         handleFileModifyWith render f w
         = (Ok tt, w, [EvConsole Debug; EvRead f])).
Proof.
  intros Hu Ha. split.
  - intros Hd. cbv [handleFileModifyWith bind getWorld ret].
    rewrite Hu, Ha. cbn [negb orb]. cbv beta iota. rewrite Hd. reflexivity.
  - intros fileDate content Hd Hr Hmiss.
    cbv [handleFileModifyWith bind getWorld console emit ask ret].
    rewrite Hu, Ha. cbn [negb orb]. cbv beta iota. rewrite Hd. cbv beta iota.
    rewrite Hr. cbv beta iota.
    rewrite (Section_.markers_missing_test Hmiss). reflexivity.
Qed.

(** X13: [handleFileModify] catches nothing: an exception of the read, of
    the reminder lookup or of the update callback ends the run and
    reaches the caller, and no re-render follows it. *)
Theorem handleFileModify_failures_propagate
    (render : bool -> option DateTime -> M unit) (f : TFile) (w : World)
    (fileDate : DateTime) (e : exn) :
  isUpdating w = false ->
  autoEmbedTodosInDailyNote w = true ->
  getDailyNoteDate f = Some fileDate ->
  (vaultRead f (host w) = Err e ->
   handleFileModifyWith render f w = (Err e, w, [EvConsole Debug; EvRead f]))
  /\ (forall content,
         vaultRead f (host w) = Ok content ->
         contains content (startMarkerOf (dailyNoteSectionMarker w)) ->
         contains content (endMarkerOf (dailyNoteSectionMarker w)) ->
         (byDate fileDate (host w) = Err e ->
          handleFileModifyWith render f w
          = (Err e, w, [EvConsole Debug; EvRead f; EvByDate fileDate]))
         /\ (forall todos,
                byDate fileDate (host w) = Ok todos ->
                resultOf (syncLines todos
                            (sectionLines (dailyNoteSectionMarker w) content)
                            false) w = Err e ->
                handleFileModifyWith render f w
                = (Err e,
                   worldOf (syncLines todos
                              (sectionLines (dailyNoteSectionMarker w) content)
                              false) w,
                   [EvConsole Debug; EvRead f; EvByDate fileDate]
                     ++ traceOf (syncLines todos
                                   (sectionLines (dailyNoteSectionMarker w)
                                                 content)
                                   false) w))).
Proof.
  intros Hu Ha Hd. split.
  - intros Hr. cbv [handleFileModifyWith bind getWorld console emit ask ret].
    rewrite Hu, Ha. cbn [negb orb]. cbv beta iota. rewrite Hd. cbv beta iota.
    rewrite Hr. reflexivity.
  - intros content Hr Hs He. split.
    + intros Hb. cbv [handleFileModifyWith bind getWorld console emit ask ret].
      rewrite Hu, Ha. cbn [negb orb]. cbv beta iota. rewrite Hd. cbv beta iota.
      rewrite Hr. cbv beta iota.
      rewrite (Section_.markers_present_test Hs He). cbv beta iota.
      rewrite Hb. reflexivity.
    + intros todos Hb Hres.
      rewrite (Engine.handleFileModifyWith_run render f w fileDate content
                 todos Hu Ha Hd Hr Hs He Hb).
      unfold resultOf, worldOf, traceOf in *.
      destruct (syncLines todos
                  (sectionLines (dailyNoteSectionMarker w) content) false w)
        as [[r w1] t1].
      cbn in Hres |- *. subst r. reflexivity.
Qed.

Lemma syncLine_calls (todos : list rref) (line : jsstr) (changed : bool)
    (w : World) :
  (forall r b,
      In (EvUpdateReminder r b) (traceOf (syncLine todos line changed) w) ->
      In r todos)
  /\ (length (filter isUpdateCall (traceOf (syncLine todos line changed) w))
      <= 1)%nat.
Proof.
  unfold traceOf. rewrite Engine.syncLine_run.
  destruct (todoParse (trim line)) as [todo |];
    [|split; [intros r b [] | cbn; lia]].
  destruct (matchingReminder w todos todo) as [x |] eqn:Em;
    [|split; [intros r b [] | cbn; lia]].
  destruct (Bool.eqb (done (deref (host w) x)) (isChecked todo));
    [split; [intros r b [] | cbn; lia]|].
  assert (Hx : In x todos).
  { unfold matchingReminder in Em. apply find_some in Em. exact (proj1 Em). }
  destruct (updateReminder x (isChecked todo) (host w)) as [[[] | e] h];
    cbn; (split; [|lia]);
    intros r b [H | [H | []]]; try discriminate H;
    inversion H; subst; exact Hx.
Qed.

(** X14: the walk of [handleFileModify] calls the update callback only
    for reminders that [byDate] returned for the date of the file, and at
    most once per line of the section. *)
Theorem sync_calls_stay_in_the_date (todos : list rref) (lines : list jsstr) :
  forall (changed : bool) (w : World),
    (forall r b,
        In (EvUpdateReminder r b) (traceOf (syncLines todos lines changed) w) ->
        In r todos)
    /\ (length (filter isUpdateCall
                  (traceOf (syncLines todos lines changed) w))
        <= length lines)%nat.
Proof.
  induction lines as [|line rest IH]; intros changed w.
  - split; [intros r b [] | cbn; lia].
  - destruct (syncLine_calls todos line changed w) as [H1 H2].
    unfold traceOf in *. cbn [syncLines]. unfold bind.
    destruct (syncLine todos line changed w) as [[[c | e] w1] t1].
    + destruct (IH c w1) as [I1 I2].
      destruct (syncLines todos rest c w1) as [[r' w2] t2].
      cbn [snd] in *. split.
      * intros r b Hin. apply in_app_or in Hin.
        destruct Hin as [Hin | Hin]; [exact (H1 r b Hin) | exact (I1 r b Hin)].
      * rewrite filter_app, length_app. cbn [length]. lia.
    + cbn [snd] in *. split; [exact H1 | cbn [length]; lia].
Qed.


(** *** A modify event on a note that is up to date *)

Lemma trim_fixed (a z : N) (mid : jsstr) :
  isWhiteSpace a = false -> isWhiteSpace z = false ->
  trim (a :: mid ++ [z]) = a :: mid ++ [z].
Proof.
  intros Ha Hz. unfold trim. cbn [trimStart]. rewrite Ha.
  change (a :: mid ++ [z]) with ((a :: mid) ++ [z]).
  rewrite rev_unit. cbn [trimStart]. rewrite Hz.
  change (z :: rev (a :: mid)) with ([z] ++ rev (a :: mid)).
  rewrite rev_app_distr, rev_involutive. reflexivity.
Qed.

Lemma trim_renderLine (r : Reminder) : trim (renderLine r) = renderLine r.
Proof.
  assert (E : renderLine r
              = 45%N :: (lit " [" ++ (if done r then lit "x" else lit " ")
                           ++ lit "] " ++ title r ++ lit " [[" ++ file r
                           ++ lit "|source]] <!-- reminder-key: " ++ key r
                           ++ lit " --") ++ [62%N]).
  { unfold renderLine.
    change (lit " -->") with (lit " --" ++ [62%N]).
    change (lit "- [") with (45%N :: lit " [").
    rewrite <- !app_assoc. reflexivity. }
  rewrite E. apply trim_fixed; reflexivity.
Qed.

Lemma found_contains (marker content : jsstr) (rs : list Reminder)
    (out : jsstr) :
  updateReminderSection marker content rs = Some out ->
  contains content (startMarkerOf marker)
  /\ contains content (endMarkerOf marker).
Proof.
  intros H.
  destruct (MoreSection.found_indices _ _ _ _ H) as (s & e & Hs & He & _).
  apply StrFacts.search_Some in Hs, He.
  destruct Hs as [(p1 & q1 & E1 & _) _], He as [(p2 & q2 & E2 & _) _].
  split; [exists p1, q1; exact E1 | exists p2, q2; exact E2].
Qed.

(** The walk over the section of a note that is up to date calls the
    update callback for no line. *)
Lemma up_to_date_walk (w : World) (todos : list rref) (out : jsstr) :
  updateReminderSection (dailyNoteSectionMarker w) out
    (map (deref (host w)) todos) = Some out ->
  todoParse [] = None ->
  (forall t, In t todos ->
             todoParse (renderLine (deref (host w) t))
             = Some (mkTodo (renderedBody (deref (host w) t))
                            (done (deref (host w) t)))) ->
  (forall t, In t todos ->
             keyReadable (deref (host w) t)
             /\ key (deref (host w) t) <> []
             /\ oneLineReminder (deref (host w) t)) ->
  (forall t t', In t todos -> In t' todos ->
                key (deref (host w) t) = key (deref (host w) t') ->
                done (deref (host w) t) = done (deref (host w) t')) ->
  syncLines todos (sectionLines (dailyNoteSectionMarker w) out) false w
  = (Ok false, w, []).
Proof.
  intros Hfix Hp0 Hp Hk Hsame.
  assert (Hone : forall r, In r (map (deref (host w)) todos) -> oneLineReminder r).
  { intros r Hr. apply in_map_iff in Hr. destruct Hr as (t & <- & Ht).
    exact (proj2 (proj2 (Hk t Ht))). }
  rewrite (MoreSection.up_to_date_lines _ _ _ Hfix Hone).
  apply Engine.syncLines_settled.
  intros line todo x Hline Hparse Hmatch.
  assert (Hcases : line = [] \/ exists t, In t todos
                                         /\ line = renderLine (deref (host w) t)).
  { destruct Hline as [<- | Hline]; [left; reflexivity|].
    apply in_app_or in Hline. destruct Hline as [Hline | [<- | []]];
      [|left; reflexivity].
    destruct (map (deref (host w)) todos) as [|r0 rs0] eqn:Em.
    - destruct Hline as [<- | []]. left. reflexivity.
    - rewrite <- Em in Hline. rewrite map_map in Hline.
      apply in_map_iff in Hline. destruct Hline as (t & <- & Ht).
      right. exists t. split; [exact Ht | reflexivity]. }
  destruct Hcases as [-> | (t & Ht & ->)].
  - change (trim []) with (@nil N) in Hparse. congruence.
  - rewrite trim_renderLine, (Hp t Ht) in Hparse.
    inversion Hparse; subst todo. cbn [isChecked].
    unfold matchingReminder in Hmatch. cbn [body] in Hmatch.
    apply find_some in Hmatch. destruct Hmatch as [Hx Hm].
    destruct (Hk t Ht) as (Hread & Hne & _).
    rewrite (proj1 (MoreSection.key_reads_back _ Hread)) in Hm.
    destruct (key (deref (host w) t)) as [|c k] eqn:Ek; [congruence|].
    cbn [matchesTodo truthy] in Hm. apply StrFacts.str_eqb_eq in Hm.
    apply (Hsame x t Hx Ht). rewrite Hm, Ek. reflexivity.
Qed.

(** X15: a modify event on a daily note that is up to date ends the
    exchange.  When the text of the note is what [updateReminderSection]
    would write for the reminders of its date, [Todo.parse] reads a
    rendered line back as its body and its checked state and reads
    nothing from an empty line, the rendered keys read back and are not
    empty, and reminders with the same key agree on [done], then
    [handleFileModify] calls the update callback for no reminder and goes
    on to [updateDailyNote(true, fileDate)]; and when that call locates
    the same file it writes nothing, so no further modify event is
    fired. *)
Theorem up_to_date_note_is_settled (f : TFile) (w : World) (d : DateTime)
    (todos : list rref) (out : jsstr) :
  isUpdating w = false ->
  autoEmbedTodosInDailyNote w = true ->
  getDailyNoteDate f = Some d ->
  vaultRead f (host w) = Ok out ->
  byDate d (host w) = Ok todos ->
  updateReminderSection (dailyNoteSectionMarker w) out
    (map (deref (host w)) todos) = Some out ->
  todoParse [] = None ->
  (forall t, In t todos ->
             todoParse (renderLine (deref (host w) t))
             = Some (mkTodo (renderedBody (deref (host w) t))
                            (done (deref (host w) t)))) ->
  (forall t, In t todos ->
             keyReadable (deref (host w) t)
             /\ key (deref (host w) t) <> []
             /\ oneLineReminder (deref (host w) t)) ->
  (forall t t', In t todos -> In t' todos ->
                key (deref (host w) t) = key (deref (host w) t') ->
                done (deref (host w) t) = done (deref (host w) t')) ->
  (forall render,
      handleFileModifyWith render f w
      = match render true (Some d) w with
        | (r, w2, t2) =>
            (r, w2, [EvConsole Debug; EvRead f; EvByDate d] ++ t2)
        end)
  /\ (forall files,
         getMarkdownFiles (host w) = Ok files ->
         findDailyNoteIn (toYYYYMMDD d) files = Some f ->
         handleFileModify f w
         = (Ok tt, w,
            [EvConsole Debug; EvRead f; EvByDate d]
              ++ readEvents d f
              ++ EvConsole Info :: map (fun _ => EvConsole Info) todos)).
Proof.
  intros Hu Ha Hd Hr Hb Hfix Hp0 Hp Hk Hsame.
  destruct (found_contains _ _ _ _ Hfix) as [Hs He].
  assert (Hwalk : forall render,
             handleFileModifyWith render f w
             = match render true (Some d) w with
               | (r, w2, t2) =>
                   (r, w2, [EvConsole Debug; EvRead f; EvByDate d] ++ t2)
               end).
  { intros render.
    rewrite (Engine.handleFileModifyWith_run render f w d out todos
               Hu Ha Hd Hr Hs He Hb).
    rewrite (up_to_date_walk w todos out Hfix Hp0 Hp Hk Hsame).
    cbn [negb]. destruct (render true (Some d) w) as [[r w2] t2].
    reflexivity. }
  split; [exact Hwalk|].
  intros files Hf Hn. unfold handleFileModify. rewrite Hwalk.
  rewrite (up_to_date_run true (Some d) w files f todos out
             Ha Hu Hf Hn Hb Hr Hfix).
  cbn [targetDateOf]. rewrite app_nil_r. reflexivity.
Qed.

End Runs.

End MoreEngine.

(** ** The further properties on the sample data *)

Module MoreChecks.

Import Mem Sample.

Lemma getDailyNoteDate_leftmost_witness :
  getDailyNoteDate (note "plan-2024-02-30-2024-01-05" 1) = None.
Proof.
  rewrite (proj1 (@DateOf.getDailyNoteDate_leftmost collaborators
                    (note "plan-2024-02-30-2024-01-05" 1))
                 (lit "plan-") (lit "2024-02-30") (lit "-2024-01-05.md")).
  - reflexivity.
  - reflexivity.
  - reflexivity.
  - reflexivity.
  - intros n Hn. do 5 (destruct n as [|n]; [reflexivity|]).
    simpl in Hn. lia.
Defined.

Lemma findDailyNote_order_independent_witness :
  findDailyNoteIn day [noteIn "a" "2024-01-05" 5; noteIn "b" "2024-01-05" 7]
  = findDailyNoteIn day [noteIn "b" "2024-01-05" 7; noteIn "a" "2024-01-05" 5].
Proof.
  apply MoreLocate.findDailyNote_order_independent.
  - apply perm_swap.
  - intros g h Hg Hh. vm_compute in Hg, Hh.
    destruct Hg as [<- | [<- | []]]; destruct Hh as [<- | [<- | []]];
      intros E; try reflexivity; vm_compute in E; discriminate E.
Defined.

Lemma updateReminderSection_null_iff_witness :
  updateReminderSection (lit "todos") unmarkedText [buyMilk] = None.
Proof.
  apply (proj2 (MoreSection.updateReminderSection_null_iff
                  (lit "todos") unmarkedText [buyMilk])).
  right. apply Checks.absent. reflexivity.
Defined.

Lemma markers_survive_rewrite_witness :
  contains untickedText (startMarkerOf (lit "todos"))
  /\ contains untickedText (endMarkerOf (lit "todos"))
  /\ forall rs', updateReminderSection (lit "todos") untickedText rs' <> None.
Proof.
  apply (MoreSection.markers_survive_rewrite (lit "todos") tickedText [buyMilk]).
  reflexivity.
Defined.

Lemma buyMilk_oneLine : oneLineReminder buyMilk.
Proof.
  repeat split; apply MoreSection.oneLine_lit_free; reflexivity.
Qed.

Lemma buyMilk_keyReadable : keyReadable buyMilk.
Proof.
  split; [apply MoreSection.no_lt_in_lit; reflexivity|].
  split; [apply MoreSection.no_lt_in_lit; reflexivity|].
  split; [|reflexivity].
  intros c Hc. vm_compute in Hc.
  repeat (destruct Hc as [<- | Hc]; [reflexivity|]). destruct Hc.
Qed.

Lemma rendered_lines_split_back_witness :
  splitLines (reminderLines [buyMilk; buyMilk])
  = [renderLine buyMilk; renderLine buyMilk].
Proof.
  apply (MoreSection.rendered_lines_split_back [buyMilk; buyMilk]).
  intros r [<- | [<- | []]]; exact buyMilk_oneLine.
Defined.

Lemma rendered_key_reads_back_witness :
  matchReminderKey (renderedBody buyMilk) = Some (lit "abc123")
  /\ matchReminderKey (renderLine buyMilk) = Some (lit "abc123").
Proof.
  apply (MoreSection.rendered_key_reads_back buyMilk).
  exact buyMilk_keyReadable.
Defined.

Lemma up_to_date_section_lines_witness :
  sectionLines (lit "todos") untickedText = [[]; renderLine buyMilk; []].
Proof.
  apply (MoreSection.up_to_date_section_lines (lit "todos") untickedText
           [buyMilk]).
  - reflexivity.
  - intros r [<- | []]. exact buyMilk_oneLine.
Defined.

Lemma disabled_feature_does_nothing_witness :
  updateDailyNote false None
    (mkWorld false (lit "todos") false (vaultWith tickedText))
  = (Ok tt, mkWorld false (lit "todos") false (vaultWith tickedText), [])
  /\ handleFileModify daily
       (mkWorld false (lit "todos") false (vaultWith tickedText))
     = (Ok tt, mkWorld false (lit "todos") false (vaultWith tickedText), []).
Proof.
  apply (@MoreEngine.disabled_feature_does_nothing collaborators).
  reflexivity.
Defined.

Lemma no_daily_note_no_io_witness :
  updateDailyNote false None
    (world "todos" false
       (mkHost [(note "inbox" 1, lit "text")] [] day false false))
  = (Ok tt,
     world "todos" false
       (mkHost [(note "inbox" 1, lit "text")] [] day false false),
     [EvEnumerate; EvNotice (NoteNotFound day)]).
Proof.
  apply (@MoreEngine.no_daily_note_no_io collaborators false None
           (world "todos" false
              (mkHost [(note "inbox" 1, lit "text")] [] day false false))
           [note "inbox" 1]).
  - reflexivity.
  - reflexivity.
  - reflexivity.
  - intros g [<- | []]. discriminate.
  - intros g [<- | []]. apply Checks.absent. reflexivity.
Defined.

Lemma unchanged_text_is_not_written_witness :
  updateDailyNote false None (world "todos" false (vaultWith untickedText))
  = (Ok tt, world "todos" false (vaultWith untickedText),
     readEvents day daily
       ++ EvConsole Info :: map (fun _ => EvConsole Info) [0%nat]
       ++ [EvNotice NoteUpToDate]).
Proof.
  apply (@MoreEngine.unchanged_text_is_not_written collaborators false None
           (world "todos" false (vaultWith untickedText))
           [daily] daily [0%nat] untickedText); reflexivity.
Defined.

Lemma changed_text_is_written_once_witness :
  updateDailyNote false None (world "todos" false (vaultWith tickedText))
  = (Ok tt, world "todos" false (vaultWith untickedText),
     readEvents day daily
       ++ EvConsole Info :: map (fun _ => EvConsole Info) [0%nat]
       ++ [EvConsole Info; EvModify daily untickedText]
       ++ [EvNotice (NoteUpdated day)]).
Proof.
  apply (@MoreEngine.changed_text_is_written_once collaborators false None
           (world "todos" false (vaultWith tickedText))
           [daily] daily [0%nat] tickedText untickedText);
    try reflexivity.
  intros E. vm_compute in E. discriminate E.
Defined.

Lemma one_notice_one_write_witness :
  length (filter isNotice
            (traceOf (updateDailyNote false None)
                     (world "todos" false readOnlyVault))) = 1%nat.
Proof.
  apply (proj1 (proj2 (@MoreEngine.one_notice_one_write collaborators None
                         (world "todos" false readOnlyVault)))
               [daily]); reflexivity.
Defined.

Lemma handleFileModify_ignores_witness :
  handleFileModify (note "inbox" 1) (world "todos" false (vaultWith tickedText))
  = (Ok tt, world "todos" false (vaultWith tickedText), [])
  /\ handleFileModify daily (world "todos" false (vaultWith unmarkedText))
     = (Ok tt, world "todos" false (vaultWith unmarkedText),
        [EvConsole Debug; EvRead daily]).
Proof.
  split.
  - apply (proj1 (@MoreEngine.handleFileModify_ignores collaborators
                    updateDailyNote (note "inbox" 1)
                    (world "todos" false (vaultWith tickedText))
                    eq_refl eq_refl)).
    reflexivity.
  - apply (proj2 (@MoreEngine.handleFileModify_ignores collaborators
                    updateDailyNote daily
                    (world "todos" false (vaultWith unmarkedText))
                    eq_refl eq_refl) day unmarkedText).
    + reflexivity.
    + reflexivity.
    + right. apply Checks.absent. reflexivity.
Defined.

Lemma handleFileModify_failures_propagate_witness :
  handleFileModify (note "2024-01-06" 1)
                   (world "todos" false (vaultWith tickedText))
  = (Err "ENOENT"%js, world "todos" false (vaultWith tickedText),
     [EvConsole Debug; EvRead (note "2024-01-06" 1)]).
Proof.
  apply (proj1 (@MoreEngine.handleFileModify_failures_propagate collaborators
                  updateDailyNote (note "2024-01-06" 1)
                  (world "todos" false (vaultWith tickedText))
                  (lit "2024-01-06") "ENOENT"%js eq_refl eq_refl eq_refl)).
  reflexivity.
Defined.

Lemma sync_calls_stay_in_the_date_witness :
  (length (filter isUpdateCall
             (traceOf (syncLines [0%nat] (sectionLines (lit "todos") tickedText)
                                 false)
                      (world "todos" false (vaultWith tickedText))))
   <= length (sectionLines (lit "todos") tickedText))%nat.
Proof.
  apply (proj2 (@MoreEngine.sync_calls_stay_in_the_date collaborators
                  [0%nat] (sectionLines (lit "todos") tickedText) false
                  (world "todos" false (vaultWith tickedText)))).
Defined.

Lemma up_to_date_note_is_settled_witness :
  handleFileModify daily (world "todos" false (vaultWith untickedText))
  = (Ok tt, world "todos" false (vaultWith untickedText),
     [EvConsole Debug; EvRead daily; EvByDate day]
       ++ readEvents day daily
       ++ EvConsole Info :: map (fun _ => EvConsole Info) [0%nat]).
Proof.
  refine (proj2 (@MoreEngine.up_to_date_note_is_settled collaborators daily
                   (world "todos" false (vaultWith untickedText)) day
                   [0%nat] untickedText
                   eq_refl eq_refl eq_refl eq_refl eq_refl eq_refl eq_refl
                   _ _ _)
                [daily] eq_refl eq_refl).
  - intros t [<- | []]. reflexivity.
  - intros t [<- | []]. split; [exact buyMilk_keyReadable|].
    split; [discriminate | exact buyMilk_oneLine].
  - intros t t' [<- | []] [<- | []] _. reflexivity.
Defined.


Lemma reversed_markers_walk_witness :
  exists A B rest,
    lit "A<!-- end of todos -->B<!-- start of todos -->C"
    = A ++ endMarkerOf (lit "todos") ++ B ++ startMarkerOf (lit "todos") ++ rest
    /\ length A = 1%nat
    /\ sectionLines (lit "todos")
         (lit "A<!-- end of todos -->B<!-- start of todos -->C")
       = splitLines (endMarkerOf (lit "todos") ++ B
                       ++ startMarkerOf (lit "todos")).
Proof.
  apply (MoreSection.reversed_markers_walk (lit "todos")
           (lit "A<!-- end of todos -->B<!-- start of todos -->C")
           23%nat 1%nat).
  - reflexivity.
  - reflexivity.
  - vm_compute. lia.
Defined.

Lemma key_comment_is_found_witness :
  (exists found,
      matchReminderKey (lit "Buy milk " ++ lit "<!-- reminder-key: "
                          ++ lit "abc123" ++ lit " -->" ++ lit " (later)")
      = Some found)
  /\ matchReminderKey
       (lit "a <!-- reminder-key: k1 --> b <!-- reminder-key: k2 -->")
     = Some (lit "k1").
Proof.
  split.
  - apply (proj1 MoreSection.key_comment_is_found (lit "Buy milk ")
             (lit "abc123") (lit " (later)")).
    intros c Hc. vm_compute in Hc.
    repeat (destruct Hc as [<- | Hc]; [reflexivity|]). destruct Hc.
  - apply (proj1 (proj2 MoreSection.key_comment_is_found)).
    exists 2%nat. split.
    + exists (lit "a "), (lit " b <!-- reminder-key: k2 -->").
      split; [reflexivity|]. split; [reflexivity|]. split.
      * intros c Hc. vm_compute in Hc.
        repeat (destruct Hc as [<- | Hc]; [reflexivity|]). destruct Hc.
      * intros m Hm Hocc. apply StrFacts.occursAt_skipn in Hocc.
        destruct Hocc as [post Hocc].
        do 2 (destruct m as [|m]; [vm_compute in Hocc; discriminate Hocc|]).
        simpl in Hm. lia.
    + intros m k' Hm Hk. destruct Hk as (pre & post & E & L & _).
      destruct m as [|m].
      * destruct pre; [|discriminate L]. vm_compute in E. discriminate E.
      * destruct m as [|m]; [|lia].
        destruct pre as [|x pre]; [discriminate L|].
        destruct pre; [|discriminate L]. vm_compute in E. discriminate E.
Defined.

Lemma outbound_touches_only_the_note_witness :
  host (worldOf (updateDailyNote true None)
                (world "todos" false (vaultWith untickedText)))
  = vaultWith untickedText.
Proof.
  apply (proj2 (proj2 (proj2 (proj2
           (@MoreEngine.outbound_touches_only_the_note collaborators true None
              (world "todos" false (vaultWith untickedText))))))).
  reflexivity.
Defined.

End MoreChecks.

(** ** Inbound reconciliation, and the run after it *)

Module Reconcile.

Section Rerun.

Context {C : Collaborators}.

Lemma find_pointwise {A : Type} (p q : A -> bool) (l : list A) :
  (forall x, p x = q x) -> find p l = find q l.
Proof.
  intros H. induction l as [|x l IH]; [reflexivity|].
  simpl. rewrite H, IH. reflexivity.
Qed.

Lemma matchesTodo_reading (k : option jsstr) (b : jsstr) (r r' : Reminder) :
  title r = title r' -> key r = key r' ->
  matchesTodo k b r = matchesTodo k b r'.
Proof.
  intros Ht Hk. unfold matchesTodo. rewrite Ht, Hk. reflexivity.
Qed.

Lemma sameReading_refl (h : hstate) : sameReading h h.
Proof. intros x. split; reflexivity. Qed.

Lemma sameReading_trans (h1 h2 h3 : hstate) :
  sameReading h1 h2 -> sameReading h2 h3 -> sameReading h1 h3.
Proof.
  intros H12 H23 x. destruct (H12 x) as [A1 A2], (H23 x) as [B1 B2].
  split; congruence.
Qed.

(** The reminder a line matches depends on the titles and keys only. *)
Lemma matching_same_reading (w w1 : World) (todos : list rref) (todo : Todo) :
  sameReading (host w) (host w1) ->
  matchingReminder w1 todos todo = matchingReminder w todos todo.
Proof.
  intros H. unfold matchingReminder. apply find_pointwise.
  intros x. destruct (H x) as [Ht Hk]. apply matchesTodo_reading; assumption.
Qed.

(** One turn of the loop either leaves everything alone, on a line that
    is settled, or calls the update callback for the reminder the line
    matches. *)
Lemma syncLine_cases (todos : list rref) (line : jsstr) (changed : bool)
    (w : World) :
  (syncLine todos line changed w = (Ok changed, w, [])
   /\ settledLine w todos line)
  \/ exists todo r,
       todoParse (trim line) = Some todo
       /\ matchingReminder w todos todo = Some r
       /\ syncLine todos line changed w
          = (match fst (updateReminder r (isChecked todo) (host w)) with
             | Ok _ => Ok true
             | Err e => Err e
             end,
             setHost (snd (updateReminder r (isChecked todo) (host w))) w,
             [EvConsole Debug; EvUpdateReminder r (isChecked todo)]).
Proof.
  rewrite Engine.syncLine_run.
  destruct (todoParse (trim line)) as [todo |] eqn:Ep.
  2:{ left. split; [reflexivity|]. intros t r Ht. rewrite Ep in Ht.
      discriminate Ht. }
  destruct (matchingReminder w todos todo) as [r |] eqn:Em.
  2:{ left. split; [reflexivity|]. intros t r Ht Hr. rewrite Ep in Ht.
      inversion Ht; subst t. rewrite Em in Hr. discriminate Hr. }
  destruct (Bool.eqb (done (deref (host w) r)) (isChecked todo)) eqn:Eb.
  - left. split; [reflexivity|]. intros t r' Ht Hr. rewrite Ep in Ht.
    inversion Ht; subst t. rewrite Em in Hr. inversion Hr; subst r'.
    apply Bool.eqb_prop. exact Eb.
  - right. exists todo, r. split; [reflexivity|]. split; [exact Em|].
    destruct (updateReminder r (isChecked todo) (host w)) as [[[] | e] h];
      reflexivity.
Qed.

(** The walk changes nothing of the world but the host. *)
Lemma syncLines_frame (todos : list rref) (lines : list jsstr) :
  forall (changed : bool) (w : World),
    exists h, worldOf (syncLines todos lines changed) w = setHost h w.
Proof.
  induction lines as [|line rest IH]; intros changed w.
  - exists (host w). destruct w. reflexivity.
  - unfold worldOf. cbn [syncLines]. unfold bind.
    destruct (syncLine_cases todos line changed w)
      as [[E _] | (todo & r & _ & _ & E)]; rewrite E.
    + destruct (IH changed w) as [h Eh]. unfold worldOf in Eh.
      destruct (syncLines todos rest changed w) as [[r2 w2] t2].
      exists h. exact Eh.
    + destruct (updateReminder r (isChecked todo) (host w)) as [[[] | e] h1].
      * cbn [fst snd].
        destruct (IH true (setHost h1 w)) as [h Eh]. unfold worldOf in Eh.
        destruct (syncLines todos rest true (setHost h1 w)) as [[r2 w2] t2].
        exists h. cbn [fst snd] in *. rewrite Eh. reflexivity.
      * exists h1. reflexivity.
Qed.

(** After a walk whose updates all returned, every line is settled. *)
Lemma walk_settles (w0 : World) (todos : list rref) (lines : list jsstr) :
  sinkSetsDone w0 todos ->
  forall (processed : list jsstr) (changed : bool) (w : World)
         (changed' : bool) (w' : World) (t : list Event),
    sameReading (host w0) (host w) ->
    agreeingLines w0 todos (processed ++ lines) ->
    (forall l, In l processed -> settledLine w todos l) ->
    syncLines todos lines changed w = (Ok changed', w', t) ->
    sameReading (host w0) (host w')
    /\ forall l, In l (processed ++ lines) -> settledLine w' todos l.
Proof.
  intros Hsink. induction lines as [|line rest IH];
    intros processed changed w changed' w' t Hread Hagree Hdone Hrun.
  - cbn in Hrun. inversion Hrun; subst. split; [exact Hread|].
    intros l Hl. rewrite app_nil_r in Hl. exact (Hdone l Hl).
  - cbn [syncLines] in Hrun. unfold bind in Hrun.
    assert (Hlist : (processed ++ [line]) ++ rest = processed ++ line :: rest)
      by (rewrite <- app_assoc; reflexivity).
    destruct (syncLine_cases todos line changed w)
      as [[E Hset] | (todo & r & Ep & Em & E)]; rewrite E in Hrun.
    + destruct (syncLines todos rest changed w) as [[r2 w2] t2] eqn:Erest.
      inversion Hrun; subst r2 w2 t.
      rewrite <- Hlist.
      apply (IH (processed ++ [line]) changed w changed' w' t2 Hread).
      * rewrite Hlist. exact Hagree.
      * intros l Hl. apply in_app_or in Hl.
        destruct Hl as [Hl | [<- | []]]; [exact (Hdone l Hl) | exact Hset].
      * exact Erest.
    + destruct (updateReminder r (isChecked todo) (host w))
        as [[[] | e] h1] eqn:Eu; cbn [fst snd] in Hrun; [|discriminate Hrun].
      assert (Hr : In r todos).
      { unfold matchingReminder in Em. apply find_some in Em. exact (proj1 Em). }
      destruct (Hsink r (isChecked todo) (host w) h1 Hr Hread Eu)
        as [Hnow Hkeep].
      assert (Hstep : sameReading (host w) (host (setHost h1 w))).
      { intros x. destruct (Hkeep x) as (A1 & A2 & _). split; assumption. }
      assert (Hread1 : sameReading (host w0) (host (setHost h1 w)))
        by (exact (sameReading_trans _ _ _ Hread Hstep)).
      destruct (syncLines todos rest true (setHost h1 w))
        as [[r2 w2] t2] eqn:Erest.
      inversion Hrun; subst r2 w2 t.
      rewrite <- Hlist.
      apply (IH (processed ++ [line]) true (setHost h1 w) changed' w' t2 Hread1).
      * rewrite Hlist. exact Hagree.
      * intros l Hl todo' r' Hp' Hm'.
        rewrite (matching_same_reading w (setHost h1 w) todos todo' Hstep) in Hm'.
        cbn [host setHost].
        assert (Hl0 : In l (processed ++ line :: rest)).
        { apply in_app_or in Hl. apply in_or_app.
          destruct Hl as [Hl | [<- | []]]; [left; exact Hl | right; left; reflexivity]. }
        assert (Hline0 : In line (processed ++ line :: rest))
          by (apply in_or_app; right; left; reflexivity).
        assert (Hm0' : matchingReminder w0 todos todo' = Some r')
          by (rewrite <- (matching_same_reading w0 w todos todo' Hread); exact Hm').
        assert (Hm0 : matchingReminder w0 todos todo = Some r)
          by (rewrite <- (matching_same_reading w0 w todos todo Hread); exact Em).
        destruct (Hkeep r') as (_ & _ & [-> | Hsame]).
        -- rewrite Hnow. symmetry.
           exact (Hagree l line todo' todo r Hl0 Hline0 Hp' Ep Hm0' Hm0).
        -- rewrite Hsame. apply in_app_or in Hl.
           destruct Hl as [Hl | [<- | []]].
           ++ exact (Hdone l Hl todo' r' Hp' Hm').
           ++ rewrite Ep in Hp'. inversion Hp'; subst todo'.
              rewrite Em in Hm'. inversion Hm'; subst r'.
              rewrite <- Hsame. exact Hnow.
      * exact Erest.
Qed.

(** After a walk whose updates all returned, a second walk over the same
    lines calls the update callback for none. *)
Lemma second_walk_is_quiet (w : World) (todos : list rref)
    (lines : list jsstr) (changed changed' : bool) (w' : World)
    (t : list Event) :
  sinkSetsDone w todos ->
  agreeingLines w todos lines ->
  syncLines todos lines changed w = (Ok changed', w', t) ->
  forall again, syncLines todos lines again w' = (Ok again, w', []).
Proof.
  intros Hsink Hagree Hrun again.
  destruct (walk_settles w todos lines Hsink [] changed w changed' w' t
              (sameReading_refl _) Hagree (fun l (F : In l []) => match F with end)
              Hrun) as [_ Hset].
  apply Engine.syncLines_settled.
  intros line todo r Hl Hp Hm. exact (Hset line Hl todo r Hp Hm).
Qed.

(** C5, amended: for a parsed checklist line, the key regular expression
    finds the key of the leftmost key comment that closes, that is,
    whose key runs to the first [ -->] after it without a line
    terminator; when the key it finds is not empty the matching reminder
    is the first one of the collection with that key; when it finds none,
    or the empty key, the matching reminder is the first one whose title
    is a prefix of the line body; the update callback is called for the
    line exactly when there is a matching reminder whose [done] differs
    from the line's checked state, once, with the checked state.  And
    when the update callback sets [done] as asked and changes no title,
    no key and no other reminder's [done], and the lines that match one
    reminder agree on their checked state, then after a run that called
    the callback and in which every call returned, a run on the world it
    leaves, reading the same text and the same reminders, calls the
    callback for no line and goes on to [updateDailyNote(true,
    fileDate)]. *)
Theorem reconcile_and_rerun :
  (forall (todos : list rref) (line : jsstr) (changed : bool) (w : World)
          (todo : Todo),
      todoParse (trim line) = Some todo ->
      (forall k,
          matchReminderKey (body todo) = Some k
          <-> exists n,
                keyCommentAt (body todo) n k
                /\ forall m k', (m < n)%nat -> ~ keyCommentAt (body todo) m k')
      /\ (forall c k r,
             matchReminderKey (body todo) = Some (c :: k) ->
             (matchingReminder w todos todo = Some r
              <-> firstWith (fun x => key (deref (host w) x) = c :: k) todos r))
      /\ (forall r,
             matchReminderKey (body todo) = None
             \/ matchReminderKey (body todo) = Some [] ->
             (matchingReminder w todos todo = Some r
              <-> firstWith (fun x => exists rest,
                                 body todo = title (deref (host w) x) ++ rest)
                            todos r))
      /\ filter isUpdateCall (traceOf (syncLine todos line changed) w)
         = match matchingReminder w todos todo with
           | Some r =>
               if Bool.eqb (done (deref (host w) r)) (isChecked todo) then []
               else [EvUpdateReminder r (isChecked todo)]
           | None => []
           end)
  /\ (forall (render : bool -> option DateTime -> M unit) (f : TFile)
             (w : World) (fileDate : DateTime) (content : jsstr)
             (todos : list rref),
         isUpdating w = false ->
         autoEmbedTodosInDailyNote w = true ->
         getDailyNoteDate f = Some fileDate ->
         vaultRead f (host w) = Ok content ->
         contains content (startMarkerOf (dailyNoteSectionMarker w)) ->
         contains content (endMarkerOf (dailyNoteSectionMarker w)) ->
         byDate fileDate (host w) = Ok todos ->
         let lines := sectionLines (dailyNoteSectionMarker w) content in
         let walk := syncLines todos lines false in
         sinkSetsDone w todos ->
         agreeingLines w todos lines ->
         existsb isUpdateCall (traceOf walk w) = true ->
         (exists c, resultOf walk w = Ok c) ->
         vaultRead f (host (worldOf walk w)) = Ok content ->
         byDate fileDate (host (worldOf walk w)) = Ok todos ->
         handleFileModifyWith render f w
         = (Ok tt, worldOf walk w,
            [EvConsole Debug; EvRead f; EvByDate fileDate] ++ traceOf walk w)
         /\ walk (worldOf walk w) = (Ok false, worldOf walk w, [])
         /\ handleFileModifyWith render f (worldOf walk w)
            = match render true (Some fileDate) (worldOf walk w) with
              | (r, w2, t2) =>
                  (r, w2, [EvConsole Debug; EvRead f; EvByDate fileDate] ++ t2)
              end).
Proof.
  split.
  - intros todos line changed w todo Hp.
    destruct (Engine.reconcile_line todos line changed w todo Hp)
      as (_ & H2 & H3 & H4 & _).
    split; [|split; [|split]].
    + intros k. apply MoreSection.matchReminderKey_leftmost.
    + exact H2.
    + exact H3.
    + exact H4.
  - intros render f w fileDate content todos Hu Ha Hd Hr Hs He Hb lines walk
           Hsink Hagree Hcall [c Hres] Hr1 Hb1.
    pose proof (Engine.handleFileModifyWith_run render f w fileDate content
                  todos Hu Ha Hd Hr Hs He Hb) as Hrun.
    fold lines in Hrun. fold walk in Hrun.
    destruct (syncLines_frame todos lines false w) as [h1 Hw1].
    fold walk in Hw1.
    destruct (Engine.syncLines_changed todos lines false w)
      as [[Hq _] | [_ Hres']]; fold walk in Hq || fold walk in Hres'.
    { rewrite Hq in Hcall. discriminate Hcall. }
    assert (Hwalk : walk w = (Ok true, worldOf walk w, traceOf walk w)).
    { unfold resultOf, worldOf, traceOf in *.
      destruct (walk w) as [[r w1] t1]. cbn in *.
      destruct Hres' as [-> | [e ->]]; [reflexivity | discriminate Hres]. }
    assert (Hquiet : walk (worldOf walk w) = (Ok false, worldOf walk w, [])).
    { exact (second_walk_is_quiet w todos lines false true (worldOf walk w)
               (traceOf walk w) Hsink Hagree Hwalk false). }
    split; [|split].
    + rewrite Hrun, Hwalk. reflexivity.
    + exact Hquiet.
    + assert (Hu1 : isUpdating (worldOf walk w) = false)
        by (rewrite Hw1; exact Hu).
      assert (Ha1 : autoEmbedTodosInDailyNote (worldOf walk w) = true)
        by (rewrite Hw1; exact Ha).
      assert (Hm1 : dailyNoteSectionMarker (worldOf walk w)
                    = dailyNoteSectionMarker w)
        by (rewrite Hw1; reflexivity).
      assert (Hs1 : contains content
                      (startMarkerOf (dailyNoteSectionMarker (worldOf walk w))))
        by (rewrite Hm1; exact Hs).
      assert (He1 : contains content
                      (endMarkerOf (dailyNoteSectionMarker (worldOf walk w))))
        by (rewrite Hm1; exact He).
      rewrite (Engine.handleFileModifyWith_run render f (worldOf walk w)
                 fileDate content todos Hu1 Ha1 Hd Hr1 Hs1 He1 Hb1).
      rewrite Hm1. fold lines. fold walk. rewrite Hquiet. cbn [negb].
      destruct (render true (Some fileDate) (worldOf walk w)) as [[r w2] t2].
      reflexivity.
Qed.

End Rerun.

Import Mem Sample.

(** C5, as the specification words it, fails in three ways.  A key
    comment with the empty key does not select by key: the line is
    matched by title.  A key comment whose key holds a carriage return
    does not select the reminder with that key: the regular expression
    does not close it, and the line is matched by title, to another
    reminder.  And a run after the update does call the update callback
    again, when two lines with the same key differ in their checked
    state. *)
Lemma reconcile_claim_fails :
  ~ (forall (w : World) (todos : list rref) (line : jsstr) (todo : Todo)
            (pre post : jsstr) (r : rref),
        todoParse (trim line) = Some todo ->
        body todo = pre ++ lit "<!-- reminder-key: " ++ lit " -->" ++ post ->
        matchingReminder w todos todo = Some r ->
        key (deref (host w) r) = [])
  /\ ~ (forall (w : World) (todos : list rref) (line : jsstr) (todo : Todo)
               (pre k post : jsstr) (r : rref),
           todoParse (trim line) = Some todo ->
           body todo = pre ++ lit "<!-- reminder-key: " ++ k ++ lit " -->"
                         ++ post ->
           k <> [] ->
           matchingReminder w todos todo = Some r ->
           key (deref (host w) r) = k)
  /\ ~ (forall (f : TFile) (w : World),
           resultOf (handleFileModify f) w = Ok tt ->
           existsb isUpdateCall (traceOf (handleFileModify f) w) = true ->
           filter isUpdateCall
             (traceOf (handleFileModify f) (worldOf (handleFileModify f) w))
           = []).
Proof.
  split; [|split].
  - intros H.
    specialize (H (world "todos" false (vaultWith tickedText)) [0%nat]
                  emptyKeyLine
                  (mkTodo (lit "Buy milk <!-- reminder-key:  -->") true)
                  (lit "Buy milk ") [] 0%nat eq_refl eq_refl eq_refl).
    vm_compute in H. discriminate H.
  - intros H.
    specialize (H (world "todos" false brokenKeyVault) [0%nat; 1%nat]
                  brokenKeyLine
                  (mkTodo (lit "Buy milk <!-- reminder-key: " ++ brokenKey
                             ++ lit " -->") true)
                  (lit "Buy milk ") brokenKey [] 0%nat eq_refl eq_refl).
    assert (Hne : brokenKey <> []) by discriminate.
    specialize (H Hne eq_refl).
    vm_compute in H. discriminate H.
  - intros H.
    specialize (H daily (world "todos" false (vaultWith conflictingText))
                  eq_refl eq_refl).
    vm_compute in H. discriminate H.
Qed.

Lemma sample_sink_sets_done :
  sinkSetsDone (world "todos" false (vaultWith tickedText)) [0%nat].
Proof.
  intros r b h h' [<- | []] Hread Eu.
  destruct (Hread 0%nat) as [Ht _].
  destruct h as [fs rs d e ro].
  destruct rs as [|[d1 r1] rs]; [vm_compute in Ht; discriminate Ht|].
  simpl in Eu. inversion Eu; subst h'. split; [reflexivity|].
  intros [|x]; simpl.
  - split; [reflexivity|]. split; [reflexivity|]. left. reflexivity.
  - split; [reflexivity|]. split; [reflexivity|]. right. reflexivity.
Qed.

Lemma sample_lines_agree :
  agreeingLines (world "todos" false (vaultWith tickedText)) [0%nat]
                (sectionLines (lit "todos") tickedText).
Proof.
  intros l1 l2 t1 t2 r H1 H2 P1 P2 _ _.
  vm_compute in H1, H2.
  destruct H1 as [<- | [<- | [<- | []]]];
    destruct H2 as [<- | [<- | [<- | []]]];
    try (vm_compute in P1; discriminate P1);
    try (vm_compute in P2; discriminate P2).
  rewrite P1 in P2. inversion P2. reflexivity.
Qed.

Lemma reconcile_and_rerun_witness :
  handleFileModify daily (world "todos" false (vaultWith tickedText))
  = (Ok tt,
     worldOf (syncLines [0%nat] (sectionLines (lit "todos") tickedText) false)
             (world "todos" false (vaultWith tickedText)),
     [EvConsole Debug; EvRead daily; EvByDate day]
       ++ traceOf (syncLines [0%nat] (sectionLines (lit "todos") tickedText)
                             false)
                  (world "todos" false (vaultWith tickedText)))
  /\ syncLines [0%nat] (sectionLines (lit "todos") tickedText) false
       (worldOf (syncLines [0%nat] (sectionLines (lit "todos") tickedText)
                           false)
                (world "todos" false (vaultWith tickedText)))
     = (Ok false,
        worldOf (syncLines [0%nat] (sectionLines (lit "todos") tickedText)
                           false)
                (world "todos" false (vaultWith tickedText)),
        []).
Proof.
  destruct (proj2 (@reconcile_and_rerun collaborators) updateDailyNote daily
              (world "todos" false (vaultWith tickedText)) day tickedText
              [0%nat] eq_refl eq_refl eq_refl eq_refl
              (Checks.present tickedText (startMarkerOf (lit "todos")) eq_refl)
              (Checks.present tickedText (endMarkerOf (lit "todos")) eq_refl)
              eq_refl sample_sink_sets_done sample_lines_agree eq_refl
              (ex_intro _ true eq_refl) eq_refl eq_refl)
    as (H1 & H2 & _).
  split; [exact H1 | exact H2].
Defined.

End Reconcile.
